(** * Financial data parser: a shallow embedding of the core pipeline

    Embedded sources (repository paths under [financial-data-parser-main/src/core]):
    - [format_parser.py]   : [FormatParser.parse_amount], [_clean_and_parse_number], [parse_date]
    - [type_detector.py]   : [DataTypeDetector.detect_column_type] and its two matchers
    - [data_storage.py]    : [FinancialDataStore]
    - [excel_processor.py] : [ExcelProcessor.extract_data]

    Conventions of the embedding.
    - A Python [str] is a [string] holding its UTF-8 encoding.  Blank, digit and
      letter classification and case folding are the ASCII ones; every byte of a
      character outside ASCII is an ordinary symbol.  On ASCII text this is what
      Python does.  Beyond ASCII Python knows more blanks, digits and letters
      ([strip], [\d], [\s], [isdigit], [isalnum], [Decimal]);
      [Vocabulary.ascii_only] marks what is stated for ASCII text for this
      reason.
    - [re] patterns are values of [regex], run by a backtracking matcher that
      tries alternatives in the order of Python's engine.
    - [decimal.Decimal], [datetime.date] and binary64 [float] are modelled by
      exact integer arithmetic.
    - A raising call returns [Raise e]; [try]/[except] is a match on it.
    - A signaling NaN among the decimals of a frame or of a filter makes pandas
      and [decimal] raise where they test for nulls, compare or hash, which is
      no outcome of the embedding; [Vocabulary.quiet_frame] and
      [Vocabulary.quiet_filters] mark what is stated for frames and filters
      without one. *)

From Stdlib Require Import ZArith Ascii String List Bool Lia.
From stdpp Require Import gmap strings list fin_maps sorting.

Local Open Scope string_scope.
Local Open Scope Z_scope.

(** ** Text *)

Module Text.

Definition code (c : ascii) : N := N_of_ascii c.

Definition between (lo hi c : ascii) : bool :=
  ((code lo <=? code c) && (code c <=? code hi))%N.

(** [str.isspace] over ASCII: TAB..CR, FS..US and the blank. *)
Definition isspace (c : ascii) : bool :=
  ((9 <=? code c) && (code c <=? 13) || (28 <=? code c) && (code c <=? 32))%N.

Definition isdigit (c : ascii) : bool := between "0" "9" c.
Definition isupper (c : ascii) : bool := between "A" "Z" c.
Definition islower (c : ascii) : bool := between "a" "z" c.
Definition isalpha (c : ascii) : bool := isupper c || islower c.
Definition isalnum (c : ascii) : bool := isalpha c || isdigit c.

Definition lower_char (c : ascii) : ascii :=
  if isupper c then ascii_of_N (code c + 32) else c.
Definition upper_char (c : ascii) : ascii :=
  if islower c then ascii_of_N (code c - 32) else c.

Fixpoint smap (f : ascii -> ascii) (s : string) : string :=
  match s with
  | EmptyString => EmptyString
  | String c s' => String (f c) (smap f s')
  end.

(** [s.lower()] *)
Definition lower (s : string) : string := smap lower_char s.

Fixpoint sfilter (p : ascii -> bool) (s : string) : string :=
  match s with
  | EmptyString => EmptyString
  | String c s' => if p c then String c (sfilter p s') else sfilter p s'
  end.

Fixpoint sforall (p : ascii -> bool) (s : string) : bool :=
  match s with
  | EmptyString => true
  | String c s' => p c && sforall p s'
  end.

(** [c in s] for a one-character [c] *)
Fixpoint contains (c : ascii) (s : string) : bool :=
  match s with
  | EmptyString => false
  | String d s' => Ascii.eqb c d || contains c s'
  end.

(** [s.replace(c, '')] *)
Definition remove (c : ascii) (s : string) : string :=
  sfilter (fun d => negb (Ascii.eqb c d)) s.

(** [s.replace(c, d)] for one-character [c] and [d] *)
Definition replace (c d : ascii) (s : string) : string :=
  smap (fun x => if Ascii.eqb c x then d else x) s.

Fixpoint lstrip_with (p : ascii -> bool) (s : string) : string :=
  match s with
  | EmptyString => EmptyString
  | String c s' => if p c then lstrip_with p s' else s
  end.

Fixpoint rstrip_with (p : ascii -> bool) (s : string) : string :=
  match s with
  | EmptyString => EmptyString
  | String c s' =>
      match rstrip_with p s' with
      | EmptyString => if p c then EmptyString else String c EmptyString
      | r => String c r
      end
  end.

(** [s.strip()] and [s.strip(c)] *)
Definition strip (s : string) : string := rstrip_with isspace (lstrip_with isspace s).
Definition strip_char (c : ascii) (s : string) : string :=
  rstrip_with (Ascii.eqb c) (lstrip_with (Ascii.eqb c) s).

Fixpoint take (n : nat) (s : string) : string :=
  match n, s with
  | S n', String c s' => String c (take n' s')
  | _, _ => EmptyString
  end.

Definition slen (s : string) : nat := String.length s.

(** what follows the first [c] in [s]; nothing when [c] is not in [s] *)
Fixpoint after (c : ascii) (s : string) : string :=
  match s with
  | EmptyString => EmptyString
  | String d s' => if Ascii.eqb c d then s' else after c s'
  end.

Fixpoint last_char (s : string) : option ascii :=
  match s with
  | EmptyString => None
  | String c EmptyString => Some c
  | String _ s' => last_char s'
  end.

(** [s[:-1]] *)
Fixpoint drop_last (s : string) : string :=
  match s with
  | EmptyString => EmptyString
  | String c EmptyString => EmptyString
  | String c s' => String c (drop_last s')
  end.

(** [p in s] for a text [p] *)
Fixpoint contains_str (p s : string) : bool :=
  String.prefix p s ||
  match s with
  | EmptyString => false
  | String _ s' => contains_str p s'
  end.

Definition startswith (p s : string) : bool := String.prefix p s.
Definition endswith_char (c : ascii) (s : string) : bool :=
  match last_char s with Some d => Ascii.eqb c d | None => false end.

(** Value of a run of ASCII digits, most significant first. *)
Fixpoint digits_value (acc : N) (s : string) : N :=
  match s with
  | EmptyString => acc
  | String c s' => digits_value (acc * 10 + (code c - 48))%N s'
  end.

(** [int(s)] for [s] matched by [\d+] *)
Definition int_of_digits (s : string) : Z := Z.of_N (digits_value 0 s).

Fixpoint digits_of_pos_fuel (fuel : nat) (n : N) (acc : string) : string :=
  match fuel with
  | O => acc
  | S f =>
      let acc' := String (ascii_of_N (48 + n mod 10)) acc in
      if (n <? 10)%N then acc' else digits_of_pos_fuel f (n / 10)%N acc'
  end.

(** [str(n)] for a natural number *)
Definition str_of_N (n : N) : string :=
  digits_of_pos_fuel (S (N.to_nat (N.log2 n))) n EmptyString.

(** [str(z)] for an integer *)
Definition str_of_Z (z : Z) : string :=
  if z <? 0 then String "-" (str_of_N (Z.to_N (- z))) else str_of_N (Z.to_N z).

(** number of decimal digits of [n], [len(str(n))] *)
Definition ndigits (n : N) : nat := slen (str_of_N n).

Fixpoint zeros (n : nat) : string :=
  match n with O => EmptyString | S n' => String "0" (zeros n') end.

(** [str(n).zfill(w)], the [%0wd] conversion *)
Definition zfill (w : nat) (n : N) : string :=
  let s := str_of_N n in zeros (w - slen s) ++ s.

End Text.

(** ** Regular expressions ([re]) *)

Module Re.
Import Text.

Inductive regex : Type :=
| Eps
| Chr (c : ascii)
| Cls (p : ascii -> bool)
| Cat (r1 r2 : regex)
| Alt (r1 r2 : regex)
| Opt (r : regex)
| Star (r : regex)
| Grp (n : nat) (r : regex)
| Look (r : regex)
| Eos
| EndZ.

Definition captures := list (nat * string).

Definition chr_eq (ic : bool) (c d : ascii) : bool :=
  if ic then Ascii.eqb (lower_char c) (lower_char d) else Ascii.eqb c d.

Definition cls_in (ic : bool) (p : ascii -> bool) (d : ascii) : bool :=
  if ic then p d || p (lower_char d) || p (upper_char d) else p d.

Notation "a <|> b" := (match a with Some x => Some x | None => b end)
  (at level 61, left associativity, only parsing).

(** The matcher walks the pattern from the current position [s] and hands
    what is left of the subject, with the groups closed so far, to the
    continuation [k].  Quantifiers are greedy; [ic] is [re.IGNORECASE].
    Every starred pattern of this program consumes a character per round, so
    the round counter of [Star], initialised to the length of the subject,
    never cuts a match short. *)
Fixpoint run (ic : bool) (r : regex) (s : string) (cs : captures)
    (k : string -> captures -> option captures) {struct r} : option captures :=
  match r with
  | Eps => k s cs
  | Chr c =>
      match s with
      | String d s' => if chr_eq ic c d then k s' cs else None
      | EmptyString => None
      end
  | Cls p =>
      match s with
      | String d s' => if cls_in ic p d then k s' cs else None
      | EmptyString => None
      end
  | Cat r1 r2 => run ic r1 s cs (fun s' cs' => run ic r2 s' cs' k)
  | Alt r1 r2 => run ic r1 s cs k <|> run ic r2 s cs k
  | Opt r1 => run ic r1 s cs k <|> k s cs
  | Star r1 =>
      (fix star (n : nat) (s : string) (cs : captures) {struct n} : option captures :=
         match n with
         | O => k s cs
         | S n' =>
             run ic r1 s cs
               (fun s' cs' => if Nat.ltb (slen s') (slen s) then star n' s' cs' else None)
             <|> k s cs
         end) (slen s) s cs
  | Grp n r1 =>
      run ic r1 s cs (fun s' cs' => k s' ((n, take (slen s - slen s') s) :: cs'))
  | Look r1 =>
      match run ic r1 s cs (fun _ cs' => Some cs') with
      | Some _ => k s cs
      | None => None
      end
  | Eos =>
      match s with
      | EmptyString => k s cs
      | String c EmptyString => if Ascii.eqb c "010" then k s cs else None
      | _ => None
      end
  | EndZ =>
      match s with
      | EmptyString => k s cs
      | _ => None
      end
  end.

(** [pattern.match(s)]: anchored at the start of [s]. *)
Definition rmatch (ic : bool) (r : regex) (s : string) : option captures :=
  run ic r s [] (fun _ cs => Some cs).

(** The first match found, with what it leaves of the subject. *)
Definition rmatch_rest (ic : bool) (r : regex) (s : string) : option (string * captures) :=
  match run ic r s [] (fun s' cs => Some ((O, s') :: cs)) with
  | Some ((_, rest) :: cs) => Some (rest, cs)
  | _ => None
  end.

(** [m.group(n)] *)
Fixpoint group (n : nat) (cs : captures) : option string :=
  match cs with
  | [] => None
  | (m, t) :: cs' => if Nat.eqb n m then Some t else group n cs'
  end.

Fixpoint lit (s : string) : regex :=
  match s with
  | EmptyString => Eps
  | String c s' => Cat (Chr c) (lit s')
  end.

Fixpoint seq (rs : list regex) : regex :=
  match rs with
  | [] => Eps
  | r :: rs' => Cat r (seq rs')
  end.

Fixpoint alts (rs : list regex) : regex :=
  match rs with
  | [] => Cls (fun _ => false)
  | [r] => r
  | r :: rs' => Alt r (alts rs')
  end.

Definition Plus (r : regex) : regex := Cat r (Star r).

(** [r{n}] *)
Fixpoint Rep (n : nat) (r : regex) : regex :=
  match n with O => Eps | S n' => Cat r (Rep n' r) end.

(** [r{0,n}] *)
Fixpoint UpTo (n : nat) (r : regex) : regex :=
  match n with O => Eps | S n' => Opt (Cat r (UpTo n' r)) end.

(** [r{lo,hi}] *)
Definition Range (lo hi : nat) (r : regex) : regex := Cat (Rep lo r) (UpTo (hi - lo) r).

(** [re.compile(source, flags)]: the pattern text of the program, the
    [re.IGNORECASE] flag, and the pattern as the matcher runs it. *)
Record pattern : Type := re_compile {
  source : string;
  ignorecase : bool;
  compiled : regex
}.

Definition pmatch (p : pattern) (s : string) : option captures :=
  rmatch (ignorecase p) (compiled p) s.

(** [m.group(n)] of a group that took part in the match *)
Definition grp (n : nat) (m : captures) : string := default "" (group n m).

Definition digit : regex := Cls isdigit.                       (* \d *)
Definition space : regex := Cls isspace.                       (* \s *)
Definition dot : regex := Cls (fun c => negb (Ascii.eqb c "010")).  (* . *)
Definition oneof (set : string) : regex := Cls (fun c => contains c set).
Definition span (lo hi : ascii) : regex := Cls (between lo hi).

End Re.

(** ** Exceptions *)

Module Py.

(** An f-string message: literal or interpolated text, or the [repr] of a
    list of names. *)
Inductive fragment : Type :=
| Txt (s : string)
| ReprList (l : list string).

Definition message := list fragment.

Inductive exn : Type :=
| ValueError (msg : message)
| KeyError (key : string)
| DecimalOverflow            (* decimal.Overflow *)
| InvalidOperation           (* decimal.InvalidOperation *)
| BackendError (msg : string).   (* whatever the SQL backend raises *)

Inductive result (A : Type) : Type :=
| Ok (a : A)
| Raise (e : exn).
Arguments Ok {A} a.
Arguments Raise {A} e.

Definition bind {A B : Type} (m : result A) (f : A -> result B) : result B :=
  match m with
  | Ok a => f a
  | Raise e => Raise e
  end.

Definition raises {A : Type} (m : result A) : bool :=
  match m with Ok _ => false | Raise _ => true end.

End Py.

Notation "x <- m ;; k" := (Py.bind m (fun x => k))
  (at level 100, m at next level, right associativity).

(** ** [decimal.Decimal] *)

Module Dec.
Import Text Re Py.

(** [Finite neg c e] is (-1)^neg * c * 10^e. *)
Inductive Decimal : Type :=
| Finite (neg : bool) (coeff : N) (exp : Z)
| Infinity (neg : bool)
| NaN (neg : bool) (signaling : bool) (payload : N).

Definition g_sign := 1%nat.
Definition g_int := 2%nat.
Definition g_frac := 3%nat.
Definition g_exp := 4%nat.
Definition g_signal := 5%nat.
Definition g_diag := 6%nat.

(** The numeric-string grammar of the [decimal] module, matched with
    [re.IGNORECASE]. *)
Definition numeric_string : pattern :=
  re_compile "[-+]?((?=\d|\.\d)\d*(\.\d*)?(E[-+]?\d+)?|Inf(inity)?|s?NaN\d*)\Z" true
    (seq [ Opt (Grp g_sign (oneof "-+"));
           alts [ seq [ Look (Alt digit (Cat (Chr ".") digit));
                        Grp g_int (Star digit);
                        Opt (Cat (Chr ".") (Grp g_frac (Star digit)));
                        Opt (Cat (Chr "E") (Grp g_exp (Cat (Opt (oneof "-+")) (Plus digit)))) ];
                  Cat (lit "Inf") (Opt (lit "inity"));
                  seq [ Opt (Grp g_signal (Chr "s")); lit "NaN"; Grp g_diag (Star digit) ] ];
           EndZ ]).

(** [int(s)] for [s] matched by [[-+]?\d+] *)
Definition int_of_signed (s : string) : Z :=
  match s with
  | String "-" d => - int_of_digits d
  | String "+" d => int_of_digits d
  | _ => int_of_digits s
  end.

Definition MAX_EMAX : Z := 999999999999999999.
Definition MIN_ETINY : Z := -1999999999999999997.

(** Exponents the constructor accepts without rounding or clamping. *)
Definition exp_in_range (coeff : N) (e : Z) : bool :=
  (MIN_ETINY <=? e) && (e + Z.of_nat (ndigits coeff) - 1 <=? MAX_EMAX).

(** [Decimal(s)]; [None] stands for [InvalidOperation]. *)
Definition of_str (s : string) : option Decimal :=
  match pmatch numeric_string (remove "_" (strip s)) with
  | None => None
  | Some m =>
      let neg := match group g_sign m with Some "-" => true | _ => false end in
      match group g_int m with
      | Some intpart =>
          let fracpart := default "" (group g_frac m) in
          let e := int_of_signed (default "0" (group g_exp m)) in
          let coeff := digits_value 0 (intpart ++ fracpart) in
          let e' := e - Z.of_nat (slen fracpart) in
          if exp_in_range coeff e' then Some (Finite neg coeff e') else None
      | None =>
          match group g_diag m with
          | Some diag =>
              Some (NaN neg (match group g_signal m with Some _ => true | None => false end)
                        (digits_value 0 diag))
          | None => Some (Infinity neg)
          end
      end
  end.

(** The default context: 28 digits, round-half-even, exponents within
    +-999999, [Overflow] and [InvalidOperation] trapped. *)
Definition prec : Z := 28.
Definition Emax : Z := 999999.
Definition Emin : Z := -999999.
Definition Etiny : Z := Emin - prec + 1.
Definition Etop : Z := Emax - prec + 1.

Definition pow10 (k : Z) : N := Z.to_N (10 ^ k).

(** The coefficient [c] cut by [k > 0] digits, ties to even; a cut past
    all the digits of [c] leaves nothing. *)
Definition round_half_even (c : N) (k : Z) : N :=
  if Z.of_nat (ndigits c) <? k then 0%N
  else
    let unit := pow10 k in
    let q := (c / unit)%N in
    let r := (c mod unit)%N in
    if (unit <? 2 * r)%N then (q + 1)%N
    else if (2 * r =? unit)%N && N.odd q then (q + 1)%N
    else q.

(** [Decimal._fix] under the default context, for a finite number. *)
Definition fix_finite (neg : bool) (c : N) (e : Z) : result Decimal :=
  if (c =? 0)%N then
    Ok (Finite neg 0 (Z.min (Z.max e Etiny) Emax))
  else
    let exp_min := Z.of_nat (ndigits c) + e - prec in
    if Etop <? exp_min then Raise DecimalOverflow
    else
      let exp_min := Z.max exp_min Etiny in
      if e <? exp_min then
        let c' := round_half_even c (exp_min - e) in
        let '(c', exp_min) :=
          if prec <? Z.of_nat (ndigits c') then ((c' / 10)%N, exp_min + 1) else (c', exp_min) in
        if Etop <? exp_min then Raise DecimalOverflow
        else Ok (Finite neg c' exp_min)
      else Ok (Finite neg c e).

(** [-d] *)
Definition neg (d : Decimal) : result Decimal :=
  match d with
  | Finite s c e =>
      if (c =? 0)%N then fix_finite false c e else fix_finite (negb s) c e
  | Infinity s => Ok (Infinity (negb s))
  | NaN s false p => Ok (NaN s false (p mod pow10 prec)%N)
  | NaN _ true _ => Raise InvalidOperation
  end.

(** Numeric comparison of finite numbers: the signed coefficients at the
    smaller of the two exponents. *)
Definition scaled (s : bool) (c : N) (e e0 : Z) : Z :=
  (if s then -1 else 1) * Z.of_N c * 10 ^ (e - e0).

(** [a == b]: a quiet NaN equals nothing.  With a signaling NaN on either
    side the comparison raises [InvalidOperation] instead of answering; the
    statements that compare decimals of any kind leave that case out. *)
Definition eqb (a b : Decimal) : bool :=
  match a, b with
  | Finite s1 c1 e1, Finite s2 c2 e2 =>
      let e0 := Z.min e1 e2 in
      scaled s1 c1 e1 e0 =? scaled s2 c2 e2 e0
  | Infinity s1, Infinity s2 => Bool.eqb s1 s2
  | _, _ => false
  end.

(** [str(d)]: the scientific-string conversion. *)
Definition to_str (d : Decimal) : string :=
  match d with
  | Infinity s => (if s then "-" else "") ++ "Infinity"
  | NaN s sig p =>
      (if s then "-" else "") ++ (if sig then "sNaN" else "NaN")
      ++ (if (p =? 0)%N then "" else str_of_N p)
  | Finite s c e =>
      let ds := str_of_N c in
      let len := Z.of_nat (slen ds) in
      let leftdigits := e + len in
      let dotplace := if (e <=? 0) && (-6 <? leftdigits) then leftdigits else 1 in
      let body :=
        if dotplace <=? 0 then "0." ++ zeros (Z.to_nat (- dotplace)) ++ ds
        else if len <=? dotplace then ds ++ zeros (Z.to_nat (dotplace - len))
        else take (Z.to_nat dotplace) ds ++ "." ++ String.substring (Z.to_nat dotplace) (slen ds) ds in
      let ex :=
        if leftdigits =? dotplace then ""
        else "E" ++ (if 0 <=? leftdigits - dotplace then "+" else "") ++ str_of_Z (leftdigits - dotplace) in
      (if s then "-" else "") ++ body ++ ex
  end.

End Dec.

(** ** Binary64 [float] *)

Module F64.
Import Text.

(** [Fin neg m e] is (-1)^neg * m * 2^e. *)
Inductive float : Type :=
| Fin (neg : bool) (m : N) (e : Z)
| Inf (neg : bool)
| NaN.

(** [x * 2^k] for [0 <= k], by shifting *)
Definition shl (x k : Z) : Z := Z.shiftl x k.

(** [2^k <= p/q], for [0 < p] and [0 < q]. *)
Definition ge_pow2 (p q k : Z) : bool :=
  if 0 <=? k then shl q k <=? p else q <=? shl p (- k).

(** The binary64 number nearest to [p/q] ([0 <= p], [0 < q]), ties to even:
    53 significant bits, least exponent -1074, overflow above the largest
    finite number. *)
Definition round_ratio (neg : bool) (p q : Z) : float :=
  if p =? 0 then Fin neg 0 0
  else
    let lg := Z.log2 p - Z.log2 q in
    let e0 := if ge_pow2 p q lg then lg else lg - 1 in
    let u := Z.max (e0 - 52) (-1074) in
    let num := if 0 <=? u then p else shl p (- u) in
    let den := if 0 <=? u then shl q u else q in
    let qt := num / den in
    let r := num mod den in
    let m := if den <? 2 * r then qt + 1
             else if (2 * r =? den) && Z.odd qt then qt + 1
             else qt in
    if (971 <? u) || ((u =? 971) && (m =? shl 1 53)) then Inf neg
    else Fin neg (Z.to_N m) u.

(** [p / q] for integers [0 <= p], [0 < q] (true division) *)
Definition div_int (p q : Z) : float := round_ratio false p q.

(** [float(s)] for [s] matched by [[+-]?\d*\.?\d+] *)
Definition of_str (s : string) : float :=
  let neg := match s with String "-" _ => true | _ => false end in
  let body := match s with String "-" t => t | String "+" t => t | _ => s end in
  round_ratio neg (int_of_digits (remove "." body)) (10 ^ Z.of_nat (slen (after "." body))).

(** [x * k] for an integer [0 < k] that is itself a binary64 number *)
Definition mul_int (x : float) (k : Z) : float :=
  match x with
  | Fin neg m e =>
      if 0 <=? e then round_ratio neg (shl (Z.of_N m * k) e) 1
      else round_ratio neg (Z.of_N m * k) (shl 1 (- e))
  | Inf neg => Inf neg
  | NaN => NaN
  end.

(** The signed mantissa of a finite number at the exponent [e0]. *)
Definition at_exp (neg : bool) (m : N) (e e0 : Z) : Z :=
  (if neg then -1 else 1) * shl (Z.of_N m) (e - e0).

Definition compare (a b : float) : option comparison :=
  match a, b with
  | Fin s1 m1 e1, Fin s2 m2 e2 =>
      let e0 := Z.min e1 e2 in Some (at_exp s1 m1 e1 e0 ?= at_exp s2 m2 e2 e0)
  | NaN, _ | _, NaN => None
  | Inf s1, Inf s2 => Some (if Bool.eqb s1 s2 then Eq else if s1 then Lt else Gt)
  | Inf s, _ => Some (if s then Lt else Gt)
  | _, Inf s => Some (if s then Gt else Lt)
  end.

(** [a > b], [a == b] *)
Definition gtb (a b : float) : bool :=
  match compare a b with Some Gt => true | _ => false end.
Definition eqb (a b : float) : bool :=
  match compare a b with Some Eq => true | _ => false end.

(** [max(a, b)] *)
Definition fmax (a b : float) : float := if gtb b a then b else a.

(** [1.0 - x] for a finite [0 <= x <= 1] *)
Definition one_minus (x : float) : float :=
  match x with
  | Fin false m e =>
      if 0 <=? e then round_ratio false (1 - shl (Z.of_N m) e) 1
      else round_ratio false (shl 1 (- e) - Z.of_N m) (shl 1 (- e))
  | _ => NaN
  end.

(** [round(x, 3)] for a finite [0 <= x]: the exact value of [x] is
    rounded to three decimals, ties to even, and the decimal read back. *)
Definition round3 (x : float) : float :=
  match x with
  | Fin false m e =>
      let num := if 0 <=? e then shl (Z.of_N m) e * 1000 else Z.of_N m * 1000 in
      let den := if 0 <=? e then 1 else shl 1 (- e) in
      let qt := num / den in
      let r := num mod den in
      let k := if den <? 2 * r then qt + 1
               else if (2 * r =? den) && Z.odd qt then qt + 1
               else qt in
      round_ratio false k 1000
  | _ => x
  end.

(** [10^k <= x] for [x = m * 2^e], any sign of [k] and [e]. *)
Definition ge_pow10 (m : Z) (e k : Z) : bool :=
  let a := (if 0 <=? e then shl m e else m) * (if k <? 0 then 10 ^ (- k) else 1) in
  let b := (if e <? 0 then shl 1 (- e) else 1) * (if 0 <=? k then 10 ^ k else 1) in
  b <=? a.

Fixpoint log10_from (fuel : nat) (m e k : Z) : Z :=
  match fuel with
  | O => k
  | S f => if ge_pow10 m e (k + 1) then log10_from f m e (k + 1) else k
  end.

(** The decimal exponent of the leading digit of [m * 2^e], [0 < m]. *)
Definition log10_floor (m e : Z) : Z :=
  let bits := Z.log2 m + e in
  log10_from 4 m e ((bits * 30102) / 100000 - 1).

(** [c * 10^s] read back as a binary64 number. *)
Definition of_decimal (c s : Z) : float :=
  if 0 <=? s then round_ratio false (c * 10 ^ s) 1 else round_ratio false c (10 ^ (- s)).

(** The shortest decimal, of [n] digits or more, that reads back as
    [x = m * 2^e]; of two candidates of one length the nearer to [x]. *)
Fixpoint shortest (fuel : nat) (n : Z) (m e e10 : Z) : Z * Z :=
  let s := e10 - n + 1 in
  let num := (if 0 <=? e then shl m e else m) * (if s <? 0 then 10 ^ (- s) else 1) in
  let den := (if e <? 0 then shl 1 (- e) else 1) * (if 0 <=? s then 10 ^ s else 1) in
  let lo := num / den in
  let r := num mod den in
  match fuel with
  | O => (lo, s)
  | S f =>
      let x := Fin false (Z.to_N m) e in
      let lo_ok := eqb (of_decimal lo s) x in
      let hi_ok := eqb (of_decimal (lo + 1) s) x in
      if lo_ok && hi_ok then
        (if (2 * r <? den) || ((2 * r =? den) && Z.even lo) then (lo, s) else (lo + 1, s))
      else if lo_ok then (lo, s)
      else if hi_ok then (lo + 1, s)
      else shortest f (n + 1) m e e10
  end.

Fixpoint strip_zeros_fuel (fuel : nat) (c s : Z) : Z * Z :=
  match fuel with
  | O => (c, s)
  | S f => if (c mod 10 =? 0) && negb (c =? 0) then strip_zeros_fuel f (c / 10) (s + 1) else (c, s)
  end.

(** [repr(x)], which is also [str(x)] *)
Definition repr (x : float) : string :=
  match x with
  | NaN => "nan"
  | Inf neg => (if neg then "-" else "") ++ "inf"
  | Fin neg m e =>
      let sign := if neg then "-" else "" in
      if (m =? 0)%N then sign ++ "0.0"
      else
        let '(c, s) := shortest 17 1 (Z.of_N m) e (log10_floor (Z.of_N m) e) in
        let '(c, s) := strip_zeros_fuel 20 c s in
        let ds := str_of_N (Z.to_N c) in
        let len := Z.of_nat (slen ds) in
        let decpt := len + s in
        sign ++
        (if (decpt <=? -4) || (16 <? decpt) then
           take 1 ds ++ (if 1 <? len then "." ++ String.substring 1 (slen ds) ds else "")
           ++ "e" ++ (if decpt - 1 <? 0 then "-" else "+")
           ++ zfill 2 (Z.to_N (Z.abs (decpt - 1)))
         else if decpt <=? 0 then "0." ++ zeros (Z.to_nat (- decpt)) ++ ds
         else if len <=? decpt then ds ++ zeros (Z.to_nat (decpt - len)) ++ ".0"
         else take (Z.to_nat decpt) ds ++ "." ++ String.substring (Z.to_nat decpt) (slen ds) ds)
  end.

End F64.

(** ** [datetime.date] *)

Module Date.

Record date : Type := mkdate { year : Z; month : Z; day : Z }.

Definition is_leap (y : Z) : bool :=
  (y mod 4 =? 0) && (negb (y mod 100 =? 0) || (y mod 400 =? 0)).

Definition days_in_month (y m : Z) : Z :=
  if m =? 2 then (if is_leap y then 29 else 28)
  else if (m =? 4) || (m =? 6) || (m =? 9) || (m =? 11) then 30
  else 31.

(** [date(y, m, d)]; [None] stands for [ValueError]. *)
Definition make (y m d : Z) : option date :=
  if (1 <=? y) && (y <=? 9999) && (1 <=? m) && (m <=? 12)
     && (1 <=? d) && (d <=? days_in_month y m)
  then Some (mkdate y m d) else None.

Definition days_before_year (y : Z) : Z :=
  let p := y - 1 in p * 365 + p / 4 - p / 100 + p / 400.

Fixpoint days_before_month_from (fuel : nat) (y m k : Z) : Z :=
  match fuel with
  | O => 0
  | S f => if k <? m then days_in_month y k + days_before_month_from f y m (k + 1) else 0
  end.

Definition days_before_month (y m : Z) : Z := days_before_month_from 12 y m 1.

(** [d.toordinal()]: 0001-01-01 is day 1. *)
Definition toordinal (d : date) : Z :=
  days_before_year (year d) + days_before_month (year d) (month d) + day d.

Fixpoint month_of_yday (fuel : nat) (y m n : Z) : date :=
  match fuel with
  | O => mkdate y m (n + 1)
  | S f =>
      if n <? days_in_month y m then mkdate y m (n + 1)
      else month_of_yday f y (m + 1) (n - days_in_month y m)
  end.

(** [date.fromordinal(n)], by the 400, 100, 4 and 1 year cycles. *)
Definition fromordinal (n : Z) : date :=
  let n := n - 1 in
  let n400 := n / 146097 in let n := n mod 146097 in
  let n100 := n / 36524 in let n := n mod 36524 in
  let n4 := n / 1461 in let n := n mod 1461 in
  let n1 := n / 365 in let n := n mod 365 in
  let y := n400 * 400 + 1 + n100 * 100 + n4 * 4 + n1 in
  if (n1 =? 4) || (n100 =? 4) then mkdate (y - 1) 12 31
  else month_of_yday 11 y 1 n.

(** [d + timedelta(days=k)] *)
Definition add_days (d : date) (k : Z) : date := fromordinal (toordinal d + k).

(** [d.isoformat()], which is also [str(d)] *)
Definition isoformat (d : date) : string :=
  Text.zfill 4 (Z.to_N (year d)) ++ "-" ++ Text.zfill 2 (Z.to_N (month d))
  ++ "-" ++ Text.zfill 2 (Z.to_N (day d)).

Definition eqb (a b : date) : bool :=
  (year a =? year b) && (month a =? month b) && (day a =? day b).

End Date.

(** ** Raw cell values *)

(** What a spreadsheet cell holds before normalization: a [str], an [int],
    a [float], or a null ([None]; a [float] NaN is null too). *)
Inductive RawValue : Type :=
| Text (s : string)
| Integer (z : Z)
| Float (x : F64.float)
| Null.

(** [pd.isna(value)] *)
Definition isna (v : RawValue) : bool :=
  match v with
  | Null | Float F64.NaN => true
  | _ => false
  end.

(** [str(value)] *)
Definition str_of_raw (v : RawValue) : string :=
  match v with
  | Text s => s
  | Integer z => Text.str_of_Z z
  | Float x => F64.repr x
  | Null => "None"
  end.

(** ** [format_parser.py]: [FormatParser] *)

Module FormatParser.
Import Text Re Py.

(** the character class "[€$₹£¥]": one symbol, that is one of five byte runs *)
Definition currency_symbol : regex :=
  alts [lit "€"; lit "$"; lit "₹"; lit "£"; lit "¥"].

(** [self.amount_patterns] *)
Definition parentheses : pattern :=
  re_compile "^\((.*)\)$" false
    (seq [Chr "("; Grp 1 (Star dot); Chr ")"; Eos]).
Definition trailing_minus : pattern :=
  re_compile "^(.*)-$" false
    (seq [Grp 1 (Star dot); Chr "-"; Eos]).
Definition currency_prefix : pattern :=
  re_compile "^[€$₹£¥](.+)$" false
    (seq [currency_symbol; Grp 1 (Plus dot); Eos]).
Definition currency_suffix : pattern :=
  re_compile "^(.+)[€$₹£¥]$" false
    (seq [Grp 1 (Plus dot); currency_symbol; Eos]).
Definition abbreviated : pattern :=
  re_compile "^([+-]?\d*\.?\d+)\s*([kmb])$" true
    (seq [Grp 1 (seq [Opt (oneof "+-"); Star digit; Opt (Chr "."); Plus digit]);
          Star space; Grp 2 (oneof "kmb"); Eos]).

(** [self.date_patterns] *)
Definition mm_dd_yyyy : pattern :=
  re_compile "^(\d{1,2})/(\d{1,2})/(\d{4})$" false
    (seq [Grp 1 (Range 1 2 digit); Chr "/"; Grp 2 (Range 1 2 digit); Chr "/";
          Grp 3 (Rep 4 digit); Eos]).
Definition yyyy_mm_dd : pattern :=
  re_compile "^(\d{4})-(\d{1,2})-(\d{1,2})$" false
    (seq [Grp 1 (Rep 4 digit); Chr "-"; Grp 2 (Range 1 2 digit); Chr "-";
          Grp 3 (Range 1 2 digit); Eos]).
Definition dd_mon_yyyy : pattern :=
  re_compile "^(\d{1,2})-([A-Za-z]{3})-(\d{4})$" false
    (seq [Grp 1 (Range 1 2 digit); Chr "-"; Grp 2 (Rep 3 (Cls isalpha)); Chr "-";
          Grp 3 (Rep 4 digit); Eos]).
Definition mon_yyyy : pattern :=
  re_compile "^([A-Za-z]+) (\d{4})$" false
    (seq [Grp 1 (Plus (Cls isalpha)); Chr " "; Grp 2 (Rep 4 digit); Eos]).
Definition quarter : pattern :=
  re_compile "^(Q[1-4])\s*[-\s]?\s*(\d{2,4})$" true
    (seq [Grp 1 (Cat (Chr "Q") (span "1" "4")); Star space;
          Opt (Cls (fun c => Ascii.eqb c "-" || isspace c)); Star space;
          Grp 2 (Range 2 4 digit); Eos]).
Definition quarter_full : pattern :=
  re_compile "^Quarter ([1-4]) (\d{4})$" true
    (seq [lit "Quarter "; Grp 1 (span "1" "4"); Chr " "; Grp 2 (Rep 4 digit); Eos]).

(** [self.month_map.get(mon)] *)
Definition month_map (mon : string) : option Z :=
  if String.eqb mon "jan" then Some 1 else if String.eqb mon "feb" then Some 2
  else if String.eqb mon "mar" then Some 3 else if String.eqb mon "apr" then Some 4
  else if String.eqb mon "may" then Some 5 else if String.eqb mon "jun" then Some 6
  else if String.eqb mon "jul" then Some 7 else if String.eqb mon "aug" then Some 8
  else if String.eqb mon "sep" then Some 9 else if String.eqb mon "oct" then Some 10
  else if String.eqb mon "nov" then Some 11 else if String.eqb mon "dec" then Some 12
  else None.

(** a character kept by [re.sub(r'[^\d\.\-+]', '', s)] *)
Definition numeric_char (c : ascii) : bool := isdigit c || contains c ".-+".

Definition keep_numeric (s : string) : string := sfilter numeric_char s.

(** [_clean_and_parse_number]; [None] is Python's [None]. *)
Definition _clean_and_parse_number (s : string) : option Dec.Decimal :=
  let s := strip s in
  if String.eqb s "" then None
  else
    let cleaned := keep_numeric s in
    let cleaned :=
      if contains "." cleaned && contains "," s then
        keep_numeric (replace "," "." (remove "." s))
      else if contains "," s then remove "," s
      else cleaned in
    Dec.of_str cleaned.

(** [return -result if result is not None else None] *)
Definition negated (r : option Dec.Decimal) : result (option Dec.Decimal) :=
  match r with
  | Some d => d' <- Dec.neg d ;; Ok (Some d')
  | None => Ok None
  end.

(** the dictionary lookup [{'k': 1_000, 'm': 1_000_000, 'b': 1_000_000_000}.get(suffix, 1)] *)
Definition multiplier (suffix : string) : Z :=
  if String.eqb suffix "k" then 1000
  else if String.eqb suffix "m" then 1000000
  else if String.eqb suffix "b" then 1000000000
  else 1.

(** [parse_amount] *)
Definition parse_amount (value : RawValue) : result (option Dec.Decimal) :=
  if isna value then Ok None
  else
    match value with
    | Integer _ | Float _ => Ok (Dec.of_str (str_of_raw value))
    | _ =>
        let original := strip (str_of_raw value) in
        let s := lower original in
        match pmatch parentheses s with
        | Some m => negated (_clean_and_parse_number (grp 1 m))
        | None =>
        match pmatch trailing_minus s with
        | Some m => negated (_clean_and_parse_number (grp 1 m))
        | None =>
        match pmatch abbreviated s with
        | Some m =>
            let num := F64.of_str (grp 1 m) in
            let suffix := lower (grp 2 m) in
            Ok (Dec.of_str (F64.repr (F64.mul_int num (multiplier suffix))))
        | None =>
        match pmatch currency_prefix original with
        | Some m => Ok (_clean_and_parse_number (grp 1 m))
        | None =>
        match pmatch currency_suffix original with
        | Some m => Ok (_clean_and_parse_number (grp 1 m))
        | None => Ok (_clean_and_parse_number s)
        end end end end end
    end.

(** [parse_date]; [None] is Python's [None].  A [ValueError] of [date(...)]
    is the [None] of [Date.make], after which the next pattern is tried. *)
Definition parse_date (value : RawValue) : option Date.date :=
  if isna value then None
  else
    let serial_date :=
      match value with
      | Integer serial =>
          if (1 <=? serial) && (serial <=? 2958465)
          then Some (Date.add_days (Date.mkdate 1899 12 30) serial) else None
      | _ => None
      end in
    match serial_date with
    | Some d => Some d
    | None =>
    let s := strip (str_of_raw value) in
    let by_slash :=
      match pmatch mm_dd_yyyy s with
      | Some m =>
          let month := int_of_digits (grp 1 m) in
          let day := int_of_digits (grp 2 m) in
          let year := int_of_digits (grp 3 m) in
          if 12 <? day then Date.make year month day
          else Date.make year month day
      | None => None
      end in
    match by_slash with Some d => Some d | None =>
    let by_iso :=
      match pmatch yyyy_mm_dd s with
      | Some m =>
          Date.make (int_of_digits (grp 1 m)) (int_of_digits (grp 2 m)) (int_of_digits (grp 3 m))
      | None => None
      end in
    match by_iso with Some d => Some d | None =>
    let by_mon :=
      match pmatch dd_mon_yyyy s with
      | Some m =>
          match month_map (lower (grp 2 m)) with
          | Some month => Date.make (int_of_digits (grp 3 m)) month (int_of_digits (grp 1 m))
          | None => None
          end
      | None => None
      end in
    match by_mon with Some d => Some d | None =>
    let by_month_year :=
      match pmatch mon_yyyy s with
      | Some m =>
          match month_map (lower (take 3 (grp 1 m))) with
          | Some month => Date.make (int_of_digits (grp 2 m)) month 1
          | None => None
          end
      | None => None
      end in
    match by_month_year with Some d => Some d | None =>
    let by_quarter :=
      match pmatch quarter s with
      | Some m =>
          let q := int_of_digits (String.substring 1 1 (grp 1 m)) in
          let year := int_of_digits (grp 2 m) in
          let year :=
            if Nat.eqb (slen (str_of_Z year)) 2
            then year + (if year <? 50 then 2000 else 1900) else year in
          Date.make year ((q - 1) * 3 + 1) 1
      | None => None
      end in
    match by_quarter with Some d => Some d | None =>
    match pmatch quarter_full s with
    | Some m =>
        let q := int_of_digits (grp 1 m) in
        Date.make (int_of_digits (grp 2 m)) ((q - 1) * 3 + 1) 1
    | None => None
    end end end end end end end.

End FormatParser.

(** ** [datetime.strptime] *)

Module Strptime.
Import Text Re.

Definition g_d := 1%nat.
Definition g_m := 2%nat.
Definition g_Y := 3%nat.
Definition g_b := 4%nat.
Definition g_B := 5%nat.

Definition month_abbr : list string :=
  ["jan"; "feb"; "mar"; "apr"; "may"; "jun"; "jul"; "aug"; "sep"; "oct"; "nov"; "dec"].
Definition month_name : list string :=
  ["january"; "february"; "march"; "april"; "may"; "june"; "july"; "august";
   "september"; "october"; "november"; "december"].

(** The pattern of a directive, as the C locale gives it:
    %d "3[0-1]|[1-2]\d|0[1-9]|[1-9]| [1-9]", %m "1[0-2]|0[1-9]|[1-9]",
    %Y "\d\d\d\d", %b and %B the month names, longest first. *)
Definition directive (c : ascii) : regex :=
  if Ascii.eqb c "d" then
    Grp g_d (alts [Cat (Chr "3") (span "0" "1"); Cat (span "1" "2") digit;
                   Cat (Chr "0") (span "1" "9"); span "1" "9";
                   Cat (Chr " ") (span "1" "9")])
  else if Ascii.eqb c "m" then
    Grp g_m (alts [Cat (Chr "1") (span "0" "2"); Cat (Chr "0") (span "1" "9"); span "1" "9"])
  else if Ascii.eqb c "Y" then Grp g_Y (Rep 4 digit)
  else if Ascii.eqb c "b" then Grp g_b (alts (map lit month_abbr))
  else if Ascii.eqb c "B" then
    Grp g_B (alts (map lit ["september"; "february"; "november"; "december"; "january";
                            "october"; "august"; "march"; "april"; "june"; "july"; "may"]))
  else Cls (fun _ => false).

(** The pattern of a format: a directive after each [%], one or more blanks
    for a blank, every other character for itself. *)
Fixpoint format_regex (fmt : string) : regex :=
  match fmt with
  | EmptyString => Eps
  | String "%" (String c rest) => Cat (directive c) (format_regex rest)
  | String c rest =>
      if isspace c then Cat (Plus space) (format_regex rest)
      else Cat (Chr c) (format_regex rest)
  end.

Fixpoint position (x : string) (l : list string) (i : Z) : option Z :=
  match l with
  | [] => None
  | y :: l' => if String.eqb x y then Some i else position x l' (i + 1)
  end.

(** [datetime.strptime(value, fmt).date()]; [None] stands for
    [ValueError]: no match, text left over after the match, or no such day. *)
Definition strptime (value fmt : string) : option Date.date :=
  match rmatch_rest true (format_regex fmt) value with
  | Some (EmptyString, m) =>
      let year := match group g_Y m with Some y => int_of_digits y | None => 1900 end in
      let month :=
        match group g_m m, group g_b m, group g_B m with
        | Some t, _, _ => Some (int_of_digits t)
        | None, Some t, _ => position (lower t) month_abbr 1
        | None, None, Some t => position (lower t) month_name 1
        | None, None, None => Some 1
        end in
      let day := match group g_d m with Some t => int_of_digits (strip t) | None => 1 end in
      match month with
      | Some mo => Date.make year mo day
      | None => None
      end
  | _ => None
  end.

End Strptime.

(** ** [type_detector.py]: [DataTypeDetector] *)

Module DataTypeDetector.
Import Text Re.

(** [self.date_patterns], each compiled with [re.IGNORECASE] *)
Definition date_patterns : list pattern :=
  [ re_compile "^\d{1,2}/\d{1,2}/\d{4}$" true
      (seq [Range 1 2 digit; Chr "/"; Range 1 2 digit; Chr "/"; Rep 4 digit; Eos]);
    re_compile "^\d{4}-\d{2}-\d{2}$" true
      (seq [Rep 4 digit; Chr "-"; Rep 2 digit; Chr "-"; Rep 2 digit; Eos]);
    re_compile "^\d{1,2}-[A-Z]{3}-\d{4}$" true
      (seq [Range 1 2 digit; Chr "-"; Rep 3 (span "A" "Z"); Chr "-"; Rep 4 digit; Eos]);
    re_compile "^(Jan|Feb|Mar|Apr|May|Jun|Jul|Aug|Sep|Oct|Nov|Dec)[ -]\d{4}$" true
      (seq [alts (map lit ["Jan"; "Feb"; "Mar"; "Apr"; "May"; "Jun"; "Jul"; "Aug";
                           "Sep"; "Oct"; "Nov"; "Dec"]);
            oneof " -"; Rep 4 digit; Eos]);
    re_compile "^(January|February|March|April|May|June|July|August|September|October|November|December) \d{4}$" true
      (seq [alts (map lit ["January"; "February"; "March"; "April"; "May"; "June"; "July";
                           "August"; "September"; "October"; "November"; "December"]);
            Chr " "; Rep 4 digit; Eos]);
    re_compile "^Q[1-4] ?[-\s]?[0-9]{2,4}$" true
      (seq [Chr "Q"; span "1" "4"; Opt (Chr " ");
            Opt (Cls (fun c => Ascii.eqb c "-" || isspace c));
            Range 2 4 (span "0" "9"); Eos]);
    re_compile "^Quarter [1-4] \d{4}$" true
      (seq [lit "Quarter "; span "1" "4"; Chr " "; Rep 4 digit; Eos]) ].

(** [pd.Timedelta] counts nanoseconds in 64 bits: [pd.Timedelta(days=n)]
    raises beyond this many days (pandas 2; with a coarser resolution the
    bound moves, see [Vocabulary.settled_text]). *)
Definition Timedelta_max_days : Z := 106751.

(** The serial-date test of [detect_date_format], for ASCII text: the bare
    [except] turns a failing [pd.Timedelta] into no match.  [int(value)] is
    outside the [try]: where it raises (a digit beyond ASCII that is no
    decimal digit, more than 4300 digits) the detector raises, which is no
    outcome here. *)
Definition excel_serial (value : string) : bool :=
  if negb (String.eqb value "") && sforall isdigit value then
    let serial := int_of_digits value in
    if (1 <=? serial) && (serial <=? 2958465) then
      if serial <=? Timedelta_max_days then
        let dt := Date.add_days (Date.mkdate 1899 12 30) serial in
        (1900 <=? Date.year dt) && (Date.year dt <=? 9999)
      else false
    else false
  else false.

(** [date_formats] of [detect_date_format] *)
Definition date_formats : list (string * string) :=
  [ ("%m/%d/%Y", "MM/DD/YYYY"); ("%d/%m/%Y", "DD/MM/YYYY"); ("%Y-%m-%d", "YYYY-MM-DD");
    ("%d-%b-%Y", "DD-MON-YYYY"); ("%b %Y", "MON YYYY"); ("%B %Y", "MONTH YYYY") ].

Fixpoint first_format (value : string) (fs : list (string * string)) : option string :=
  match fs with
  | [] => None
  | (fmt, hint) :: fs' =>
      match Strptime.strptime value fmt with
      | Some _ => Some hint
      | None => first_format value fs'
      end
  end.

(** [detect_date_format]: [Some format] when [is_match] is true. *)
Definition detect_date_format (value : string) : option string :=
  let value := strip value in
  if excel_serial value then Some "ExcelSerial"
  else if existsb (fun p => match pmatch p value with Some _ => true | None => false end)
                  date_patterns
  then Some "PatternMatch"
  else first_format value date_formats.

(** a character outside "[\d\-\+\.]" *)
Definition non_numeric (c : ascii) : bool := negb (FormatParser.numeric_char c).

Definition abbrev : pattern :=
  re_compile "^([+-]?\d*\.?\d+)\s*([kmb])$" false
    (seq [Grp 1 (seq [Opt (oneof "+-"); Star digit; Opt (Chr "."); Plus digit]);
          Star space; Grp 2 (oneof "kmb"); Eos]).

Definition number_chars : regex := Cls (fun c => Ascii.eqb c " " || isdigit c || Ascii.eqb c ",").

Definition currency_pattern : pattern :=
  re_compile "^[€$₹£¥]([ \d,]+\.?\d*)$|([ \d,]+\.?\d*)[€$₹£¥]$" false
    (Alt (seq [FormatParser.currency_symbol;
               Grp 1 (seq [Plus number_chars; Opt (Chr "."); Star digit]); Eos])
         (seq [Grp 2 (seq [Plus number_chars; Opt (Chr "."); Star digit]);
               FormatParser.currency_symbol; Eos])).

(** [re.sub(r'[,\s]', '', s)] *)
Definition drop_separators (s : string) : string :=
  sfilter (fun c => negb (Ascii.eqb c "," || isspace c)) s.

Definition currency_name (value : string) : string :=
  if contains_str "€" value then "Euro" else if contains_str "$" value then "USD"
  else if contains_str "₹" value then "INR" else if contains_str "£" value then "GBP"
  else if contains_str "¥" value then "JPY" else "Other".

(** [detect_number_format]: [Some (format, value)] when [is_match] is true. *)
Definition detect_number_format (value : string) : option (string * Dec.Decimal) :=
  let value := lower (strip value) in
  if String.eqb value "" then None
  else
    let cleaned := lstrip_with non_numeric value in
    let cleaned := rstrip_with non_numeric cleaned in
    if String.eqb cleaned "" then None
    else
      let cleaned :=
        if startswith "(" value && endswith_char ")" value then
          "-" ++ FormatParser.keep_numeric (remove ")" (remove "(" cleaned))
        else if endswith_char "-" value then
          "-" ++ FormatParser.keep_numeric (drop_last value)
        else cleaned in
      let num_str := drop_separators cleaned in
      let abbreviated :=
        match pmatch abbrev num_str with
        | Some m =>
            let num := F64.of_str (grp 1 m) in
            let suffix := grp 2 m in
            match Dec.of_str (F64.repr (F64.mul_int num (FormatParser.multiplier suffix))) with
            | Some d => Some ("Abbreviated-" ++ smap upper_char suffix, d)
            | None => None
            end
        | None => None
        end in
      match abbreviated with
      | Some r => Some r
      | None =>
      match Dec.of_str num_str with
      | Some d => Some ("Decimal", d)
      | None =>
      match pmatch currency_pattern value with
      | Some m =>
          let num_part :=
            match group 1 m with
            | Some t => if String.eqb t "" then grp 2 m else t
            | None => grp 2 m
            end in
          match Dec.of_str (drop_separators num_part) with
          | Some d => Some ("Currency-" ++ currency_name value, d)
          | None => None
          end
      | None => None
      end end end.

(** An entry of a column: a raw value, or an object of another type that
    [dropna] keeps (a date, a decimal number, a [bool], a numpy scalar).  A
    null of another type ([NaT], a decimal NaN) is a [Raw Null]. *)
Inductive Entry : Type :=
| Raw (v : RawValue)
| Object.

Definition notna (e : Entry) : bool :=
  match e with
  | Raw v => negb (isna v)
  | Object => true
  end.

Record Detection : Type := mkDetection {
  type : string;
  confidence : F64.float;
  format_hint : option string
}.

(** the running state of the loop over the sample *)
Record Tally : Type := mkTally {
  date_matches : Z;
  number_matches : Z;
  hint : option string
}.

Definition or_hint (h : option string) (f : string) : option string :=
  match h with
  | Some _ => h
  | None => if String.eqb f "" then None else Some f
  end.

(** one round of [for val in sample] *)
Definition visit (t : Tally) (val : Entry) : Tally :=
  match val with
  | Object | Raw Null => t
  | Raw v =>
      let str_val := match v with Text s => strip s | _ => str_of_raw v end in
      match detect_date_format str_val with
      | Some f => mkTally (date_matches t + 1) (number_matches t) (or_hint (hint t) f)
      | None =>
          match detect_number_format str_val with
          | Some (f, _) => mkTally (date_matches t) (number_matches t + 1) (or_hint (hint t) f)
          | None => t
          end
      end
  end.

Definition one : F64.float := F64.Fin false 1 0.
Definition threshold : F64.float := F64.of_str "0.7".

(** [detect_column_type] *)
Definition detect_column_type (column : list Entry) : Detection :=
  let non_null := List.filter notna column in
  if Nat.eqb (length non_null) 0 then mkDetection "String" one (Some "empty_or_null")
  else
    let sample := firstn 1000 non_null in
    let t := fold_left visit sample (mkTally 0 0 None) in
    let date_score := F64.div_int (date_matches t) (Z.of_nat (length sample)) in
    let number_score := F64.div_int (number_matches t) (Z.of_nat (length sample)) in
    if F64.gtb date_score threshold then
      mkDetection "Date" (F64.round3 date_score) (hint t)
    else if F64.gtb number_score threshold then
      mkDetection "Number" (F64.round3 number_score) (hint t)
    else
      mkDetection "String" (F64.round3 (F64.one_minus (F64.fmax date_score number_score))) None.

End DataTypeDetector.

(** ** [data_storage.py]: [FinancialDataStore] *)

Module Store.
Import Text Py.

(** A normalized cell: [None], a [str], a [datetime.date] or a [Decimal]. *)
Inductive value : Type :=
| VNone
| VText (s : string)
| VDate (d : Date.date)
| VAmount (d : Dec.Decimal).

(** [pd.notna(val)]: [None] and a decimal NaN ([val != val]) are null.
    On a signaling NaN the test itself raises [InvalidOperation], which is
    no outcome here: see [Vocabulary.signaling]. *)
Definition notna (v : value) : bool :=
  match v with
  | VNone => false
  | VAmount (Dec.NaN _ _ _) => false
  | _ => true
  end.

(** [str(val)] *)
Definition py_str (v : value) : string :=
  match v with
  | VNone => "None"
  | VText s => s
  | VDate d => Date.isoformat d
  | VAmount d => Dec.to_str d
  end.

(** One cell of [df[col] == value]: a null on either side compares false,
    values of different types are different, decimals compare by number.
    The null test on a signaling NaN raises [InvalidOperation], which is no
    outcome here: see [Vocabulary.signaling]. *)
Definition py_eq (cell v : value) : bool :=
  match cell, v with
  | VText a, VText b => String.eqb a b
  | VDate a, VDate b => Date.eqb a b
  | VAmount a, VAmount b => Dec.eqb a b
  | _, _ => false
  end.

(** A [pd.DataFrame]: the row labels and the columns, in order. *)
Record DataFrame : Type := mkFrame {
  index : list nat;
  columns : list (string * list value)
}.

(** [len(df)], [df.columns], [col in df.columns], [df[col]] *)
Definition len (df : DataFrame) : nat := length (index df).
Definition column_names (df : DataFrame) : list string := map fst (columns df).
Definition has_column (df : DataFrame) (col : string) : bool :=
  existsb (String.eqb col) (column_names df).
Fixpoint lookup_column (cols : list (string * list value)) (col : string) : option (list value) :=
  match cols with
  | [] => None
  | (c, vs) :: cols' => if String.eqb col c then Some vs else lookup_column cols' col
  end.
Definition column (df : DataFrame) (col : string) : option (list value) :=
  lookup_column (columns df) col.

(** [pd.DataFrame()] and [pd.DataFrame(columns=names)] *)
Definition empty_frame : DataFrame := mkFrame [] [].
Definition empty_like (names : list string) : DataFrame :=
  mkFrame [] (map (fun c => (c, [])) names).

(** [df.iloc[positions]] *)
Definition iloc (df : DataFrame) (positions : list nat) : DataFrame :=
  mkFrame (map (fun p => nth p (index df) O) positions)
          (map (fun '(c, vs) => (c, map (fun p => nth p vs VNone) positions)) (columns df)).

(** [column_types]: the detector's verdict for each column, in the order
    of the dictionary. *)
Definition ColumnTypes := list (string * DataTypeDetector.Detection).

Fixpoint lookup_info (types : ColumnTypes) (col : string) : option DataTypeDetector.Detection :=
  match types with
  | [] => None
  | (c, info) :: types' => if String.eqb col c then Some info else lookup_info types' col
  end.

#[global] Instance date_eq_dec : EqDecision Date.date.
Proof. solve_decision. Defined.

#[global] Instance date_countable : Countable Date.date :=
  inj_countable' (fun d => (Date.year d, Date.month d, Date.day d))
                 (fun t => Date.mkdate t.1.1 t.1.2 t.2)
                 (fun d => match d with Date.mkdate _ _ _ => eq_refl end).

(** The dictionary [index_store] of [_create_indexes], without the
    [multi_index] entry that nothing reads. *)
Record IndexStore : Type := mkIndexStore {
  date_columns : list (string * gmap Date.date (list nat));
  numeric_columns : list (string * list (nat * value));
  category_columns : list (string * gmap string (list nat))
}.

Fixpoint assoc {A : Type} (l : list (string * A)) (k : string) : option A :=
  match l with
  | [] => None
  | (c, a) :: l' => if String.eqb k c then Some a else assoc l' k
  end.

(** [index[key].append(idx)], with the list created on first use *)
Definition index_add `{Countable K} (m : gmap K (list nat)) (key : K) (idx : nat)
    : gmap K (list nat) :=
  <[key := (default [] (m !! key) ++ [idx])%list]> m.

(** [enumerate(col)] *)
Definition enumerate {A : Type} (l : list A) : list (nat * A) :=
  combine (List.seq 0 (length l)) l.

Definition build_date_index (col : list value) : gmap Date.date (list nat) :=
  fold_left (fun m '(idx, val) =>
               match val with
               | VDate d => index_add m d idx
               | _ => m
               end) (enumerate col) ∅.

Definition build_category_index (col : list value) : gmap string (list nat) :=
  fold_left (fun m '(idx, val) =>
               if notna val then index_add m (py_str val) idx else m) (enumerate col) ∅.

Section Backend.

(** pandas and SQLite are not part of the repository.  The store is
    written against an arbitrary connection state [Conn] and the calls it
    makes to them: [df.to_sql(table, conn, if_exists='replace')],
    [pd.read_sql_query(query, conn)], [Series.sort_values()] on the labelled
    non-null entries of a column, and the pandas pipeline that ends
    [aggregate_data] (the widening of decimals to binary floating point,
    [select_dtypes], [groupby] and [agg]). *)
Variable Conn : Type.
Variable to_sql : string -> DataFrame -> Conn -> result Conn.
Variable read_sql_query : string -> Conn -> result DataFrame.
Variable sort_values : list (nat * value) -> result (list (nat * value)).
Variable aggregate_frame : DataFrame -> list string -> list string -> result DataFrame.

Record FinancialDataStore : Type := mkStore {
  data : gmap string DataFrame;
  metadata : gmap string ColumnTypes;
  indexes : gmap string IndexStore;
  sqlite_conn : Conn
}.

(** [df[col]] inside [_create_indexes]: a [KeyError] for a column
    that [column_types] names and the frame lacks. *)
Definition getitem (df : DataFrame) (col : string) : result (list value) :=
  match column df col with
  | Some vs => Ok vs
  | None => Raise (KeyError col)
  end.

Definition columns_of_type (types : ColumnTypes) (keep : string -> bool) : list string :=
  map fst (List.filter (fun '(_, info) => keep (DataTypeDetector.type info)) types).

Fixpoint date_indexes (df : DataFrame) (cols : list string)
    : result (list (string * gmap Date.date (list nat))) :=
  match cols with
  | [] => Ok []
  | col :: cols' =>
      vs <- getitem df col ;;
      rest <- date_indexes df cols' ;;
      Ok ((col, build_date_index vs) :: rest)
  end.

Fixpoint numeric_indexes (df : DataFrame) (cols : list string)
    : result (list (string * list (nat * value))) :=
  match cols with
  | [] => Ok []
  | col :: cols' =>
      vs <- getitem df col ;;
      let valid_vals := List.filter (fun '(_, v) => notna v) (combine (index df) vs) in
      match valid_vals with
      | [] => numeric_indexes df cols'
      | _ =>
          sorted_vals <- sort_values valid_vals ;;
          rest <- numeric_indexes df cols' ;;
          Ok ((col, sorted_vals) :: rest)
      end
  end.

Fixpoint category_indexes (df : DataFrame) (cols : list string)
    : result (list (string * gmap string (list nat))) :=
  match cols with
  | [] => Ok []
  | col :: cols' =>
      vs <- getitem df col ;;
      rest <- category_indexes df cols' ;;
      Ok ((col, build_category_index vs) :: rest)
  end.

(** [_create_indexes], up to the assignment to [self.indexes[name]] *)
Definition _create_indexes (df : DataFrame) (types : ColumnTypes) : result IndexStore :=
  let date_cols := columns_of_type types (String.eqb "Date") in
  let numeric_cols := columns_of_type types (String.eqb "Number") in
  let category_cols :=
    columns_of_type types (fun t => negb (String.eqb "Date" t || String.eqb "Number" t)) in
  d <- date_indexes df date_cols ;;
  n <- numeric_indexes df numeric_cols ;;
  c <- category_indexes df category_cols ;;
  Ok (mkIndexStore d n c).

(** [_sanitize_column_name], [_sanitize_table_name], for ASCII names:
    [str.isalnum] also keeps the letters and digits beyond ASCII, which
    [isalnum] here drops. *)
Definition _sanitize_column_name (name : string) : string :=
  strip_char "_" (sfilter (fun ch => isalnum ch || Ascii.eqb ch "_") name).
Definition _sanitize_table_name (name : string) : string :=
  strip_char "_" (sfilter (fun ch => isalnum ch || Ascii.eqb ch "_") name).

(** the two [apply] conversions of [_load_to_sqlite] *)
Definition iso_if_date (x : value) : value :=
  match x with VDate d => VText (Date.isoformat d) | _ => x end.
Definition str_if_decimal (x : value) : value :=
  match x with VAmount d => VText (Dec.to_str d) | _ => x end.

Definition convert_column (safe_col : string) (f : value -> value)
    (cols : list (string * list value)) : list (string * list value) :=
  map (fun '(c, vs) => if String.eqb c safe_col then (c, map f vs) else (c, vs)) cols.

Definition convert_for_sqlite (cols : list (string * list value)) (entry : string * DataTypeDetector.Detection)
    : list (string * list value) :=
  let safe_col := _sanitize_column_name entry.1 in
  if String.eqb (DataTypeDetector.type entry.2) "Date" then convert_column safe_col iso_if_date cols
  else if String.eqb (DataTypeDetector.type entry.2) "Number" then convert_column safe_col str_if_decimal cols
  else cols.

(** [_load_to_sqlite] *)
Definition _load_to_sqlite (conn : Conn) (name : string) (df : DataFrame) (types : ColumnTypes)
    : result Conn :=
  let renamed := map (fun '(c, vs) => (_sanitize_column_name c, vs)) (columns df) in
  let df_copy := mkFrame (index df) (fold_left convert_for_sqlite types renamed) in
  to_sql (_sanitize_table_name name) df_copy conn.

(** [add_dataset]: the store as the call leaves it, and how the call ends.
    The frame and its types are recorded first; an index build that raises
    leaves [self.indexes] as it was, a failing [to_sql] the connection. *)
Definition add_dataset (st : FinancialDataStore) (name : string) (df : DataFrame)
    (types : ColumnTypes) : FinancialDataStore * result unit :=
  let data' := <[name := df]> (data st) in
  let metadata' := <[name := types]> (metadata st) in
  match _create_indexes df types with
  | Raise e => (mkStore data' metadata' (indexes st) (sqlite_conn st), Raise e)
  | Ok index_store =>
      let indexes' := <[name := index_store]> (indexes st) in
      let loaded := _load_to_sqlite (sqlite_conn st) name df types in
      (mkStore data' metadata' indexes'
               (match loaded with Ok c => c | Raise _ => sqlite_conn st end),
       match loaded with Ok _ => Ok tt | Raise e => Raise e end)
  end.

(** the message [f"Dataset '{dataset_name}' not found."] *)
Definition not_found (dataset_name : string) : exn :=
  ValueError [Txt "Dataset '"; Txt dataset_name; Txt "' not found."].

(** [set(df[mask].index)] for [mask = df[col] == value] *)
Definition scan (df : DataFrame) (vs : list value) (v : value) : gset nat :=
  list_to_set (map fst (List.filter (fun '(_, cell) => py_eq cell v) (combine (index df) vs))).

(** [matching_indices] for one filter, by the branch the column's type
    and the indexes at hand select.  For a value that is no signaling NaN:
    with one, [date_idx.get] raises [TypeError] and the comparison of the
    scan [InvalidOperation]. *)
Definition matching_indices (df : DataFrame) (idx : option IndexStore)
    (col_type : string) (col : string) (v : value) : gset nat :=
  let date_idx :=
    if String.eqb col_type "Date" then assoc (from_option date_columns [] idx) col else None in
  let cat_idx :=
    if String.eqb col_type "String" then assoc (from_option category_columns [] idx) col else None in
  match date_idx, cat_idx with
  | Some date_idx, _ =>
      list_to_set (match v with
                   | VDate d => default [] (date_idx !! d)
                   | _ => []
                   end)
  | None, Some cat_idx =>
      list_to_set (default [] (cat_idx !! py_str v))
  | None, None =>
      scan df (default [] (column df col)) v
  end.

(** the body of [for col, value in filters.items()] *)
Definition apply_filter (df : DataFrame) (meta : result ColumnTypes) (idx : option IndexStore)
    (acc : result (gset nat)) (f : string * value) : result (gset nat) :=
  result_indices <- acc ;;
  if negb (has_column df f.1) then Ok result_indices
  else
    types <- meta ;;
    match lookup_info types f.1 with
    | None => Raise (KeyError f.1)
    | Some info =>
        Ok (result_indices ∩ matching_indices df idx (DataTypeDetector.type info) f.1 f.2)
    end.

(** [sorted(result_indices)] *)
Definition sorted (s : gset nat) : list nat := merge_sort Nat.le (elements s).

(** [query_by_criteria] *)
Definition query_by_criteria (st : FinancialDataStore) (dataset_name : string)
    (filters : list (string * value)) : result DataFrame :=
  match data st !! dataset_name with
  | None => Raise (not_found dataset_name)
  | Some df =>
      let idx := indexes st !! dataset_name in
      let meta :=
        match metadata st !! dataset_name with
        | Some types => Ok types
        | None => Raise (KeyError dataset_name)
        end in
      let all_rows : gset nat := list_to_set (List.seq 0 (len df)) in
      result_indices <- fold_left (apply_filter df meta idx) filters (Ok all_rows) ;;
      if bool_decide (result_indices = ∅) then Ok (empty_like (column_names df))
      else Ok (iloc df (sorted result_indices))
  end.

(** [query_sql]: [except Exception] turns every failure of the backend
    into an empty frame. *)
Definition query_sql (st : FinancialDataStore) (query : string) : result DataFrame :=
  match read_sql_query query (sqlite_conn st) with
  | Ok result_df => Ok result_df
  | Raise _ => Ok empty_frame
  end.

(** What [get_dataset_info] returns: the empty dictionary, or the five
    entries of the description. *)
Inductive DatasetInfo : Type :=
| NoInfo
| Info (rows : nat) (cols : list string) (column_types : ColumnTypes)
       (date_cols numeric_cols category_cols : list string).

(** [get_dataset_info] *)
Definition get_dataset_info (st : FinancialDataStore) (dataset_name : string) : result DatasetInfo :=
  match data st !! dataset_name with
  | None => Ok NoInfo
  | Some df =>
      let meta := default [] (metadata st !! dataset_name) in
      let idxs := indexes st !! dataset_name in
      Ok (Info (len df) (column_names df) meta
               (map fst (from_option date_columns [] idxs))
               (map fst (from_option numeric_columns [] idxs))
               (map fst (from_option category_columns [] idxs)))
  end.

(** the message [f"Missing columns: group_by={missing_group}, measures={missing_meas}"] *)
Definition missing_columns (missing_group missing_meas : list string) : exn :=
  ValueError [Txt "Missing columns: group_by="; ReprList missing_group;
              Txt ", measures="; ReprList missing_meas].

(** [[col for col in cols if col not in df.columns]] *)
Definition missing (df : DataFrame) (cols : list string) : list string :=
  List.filter (fun col => negb (has_column df col)) cols.

(** [aggregate_data] *)
Definition aggregate_data (st : FinancialDataStore) (dataset_name : string)
    (group_by measures : list string) : result DataFrame :=
  match data st !! dataset_name with
  | None => Raise (not_found dataset_name)
  | Some df =>
      let missing_group := missing df group_by in
      let missing_meas := missing df measures in
      match missing_group, missing_meas with
      | [], [] => aggregate_frame df group_by measures
      | _, _ => Raise (missing_columns missing_group missing_meas)
      end
  end.

End Backend.

Arguments mkStore {Conn}.
Arguments data {Conn}.
Arguments metadata {Conn}.
Arguments indexes {Conn}.
Arguments sqlite_conn {Conn}.
Arguments add_dataset {Conn}.
Arguments query_by_criteria {Conn}.
Arguments query_sql {Conn}.
Arguments get_dataset_info {Conn}.
Arguments aggregate_data {Conn}.
Arguments _load_to_sqlite {Conn}.

(** [FinancialDataStore()] on a fresh connection *)
Definition new_store {Conn : Type} (conn : Conn) : FinancialDataStore Conn :=
  mkStore ∅ ∅ ∅ conn.

End Store.

(** ** The usage example of [data_storage.py] *)

Module Demo.
Import Store.

Definition date (y m d : Z) : value := VDate (Date.mkdate y m d).

(** [Decimal('1234.56')], [Decimal('-2500.00')], [Decimal('999.99')] *)
Definition amount_1234_56 : Dec.Decimal := Dec.Finite false 123456 (-2).
Definition amount_m2500_00 : Dec.Decimal := Dec.Finite true 250000 (-2).
Definition amount_999_99 : Dec.Decimal := Dec.Finite false 99999 (-2).

Definition sample_data : DataFrame :=
  mkFrame [0; 1; 2]%nat
    [ ("Date", [date 2023 1 15; date 2023 2 20; date 2023 1 15]);
      ("Amount", [VAmount amount_1234_56; VAmount amount_m2500_00; VAmount amount_999_99]);
      ("Category", [VText "Revenue"; VText "Expense"; VText "Revenue"]);
      ("Description", [VText "Sales"; VText "Office Supplies"; VText "Consulting"]) ].

Definition typed (t : string) : DataTypeDetector.Detection :=
  DataTypeDetector.mkDetection t DataTypeDetector.one None.

Definition column_types : ColumnTypes :=
  [ ("Date", typed "Date"); ("Amount", typed "Number");
    ("Category", typed "String"); ("Description", typed "String") ].

(** A backend that stores nothing and answers no query, to run the example. *)
Definition no_sql (table : string) (df : DataFrame) (conn : unit) : Py.result unit := Py.Ok conn.
Definition no_query (query : string) (conn : unit) : Py.result DataFrame :=
  Py.Raise (Py.BackendError "no such table").
Definition no_sort (vals : list (nat * value)) : Py.result (list (nat * value)) := Py.Ok vals.
Definition no_aggregate (df : DataFrame) (group_by measures : list string) : Py.result DataFrame :=
  Py.Ok empty_frame.

(** [store.add_dataset("sample_transactions", sample_data, column_types)] *)
Definition store : FinancialDataStore unit :=
  (add_dataset no_sql no_sort (new_store tt) "sample_transactions" sample_data column_types).1.

End Demo.

(** ** [excel_processor.py]: [ExcelProcessor] *)

Module ExcelProcessor.
Import Store.

Section Sheets.

(** The frames [pd.read_excel] returns are kept as they are. *)
Variable Frame : Type.

(** [self.dataframes]: for each file key the sheets of the file by name,
    both in insertion order. *)
Definition Sheets := list (string * Frame).
Definition Dataframes := list (string * Sheets).

(** the loop of [extract_data] over all files *)
Fixpoint search (dataframes : Dataframes) (sheet_name : string) : option Frame :=
  match dataframes with
  | [] => None
  | (_, dfs) :: rest =>
      match assoc dfs sheet_name with
      | Some df => Some df
      | None => search rest sheet_name
      end
  end.

(** [extract_data]; [file_key] is [None] by default, and an empty key is
    as false as [None]. *)
Definition extract_data (dataframes : Dataframes) (sheet_name : string)
    (file_key : option string) : option Frame :=
  match file_key with
  | Some key =>
      if String.eqb key "" then search dataframes sheet_name
      else
        match assoc dataframes key with
        | Some dfs => assoc dfs sheet_name
        | None => None
        end
  | None => search dataframes sheet_name
  end.

End Sheets.

Arguments search {Frame}.
Arguments extract_data {Frame}.

End ExcelProcessor.

(** ** Vocabulary of the statements *)

Module Vocabulary.
Import Text DataTypeDetector.

(** The text the detector examines for a raw value. *)
Definition examined_text (v : RawValue) : string :=
  match v with Text s => strip s | _ => str_of_raw v end.

(** An entry of the sample counted as a date match. *)
Definition date_like (e : Entry) : bool :=
  match e with
  | Object | Raw Null => false
  | Raw v => match detect_date_format (examined_text v) with Some _ => true | None => false end
  end.

(** An entry of the sample the number matcher accepts. *)
Definition number_like (e : Entry) : bool :=
  match e with
  | Object | Raw Null => false
  | Raw v => match detect_number_format (examined_text v) with Some _ => true | None => false end
  end.

(** An entry counted as a number match: the date matcher has precedence. *)
Definition number_only (e : Entry) : bool := negb (date_like e) && number_like e.

Definition count (p : Entry -> bool) (l : list Entry) : Z := Z.of_nat (length (List.filter p l)).

(** The sample of a column: its first 1000 non-null entries. *)
Definition sample_of (column : list Entry) : list Entry := firstn 1000 (List.filter notna column).

(** One date among two unparseable texts. *)
Definition one_date_in_three : list Entry :=
  [Raw (Text "2023-01-01"); Raw (Text "abc"); Raw (Text "def")].

(** Eight ISO dates and two unparseable texts. *)
Definition eight_dates_in_ten : list Entry :=
  map (fun s => Raw (Text s))
    ["2023-01-15"; "2023-02-20"; "2023-03-05"; "2023-04-10"; "n/a"; "2023-05-31";
     "2023-06-01"; "unknown"; "2023-07-04"; "2023-08-09"].

(** the text "DD/MM/2024" of two numbers *)
Definition slashed (a b : nat) : string :=
  zfill 2 (N.of_nat a) ++ "/" ++ zfill 2 (N.of_nat b) ++ "/2024".

Import Store.

(** The cell of row [i] in column [col]; [None] where the column is short. *)
Definition cell (df : DataFrame) (col : string) (i : nat) : value :=
  nth i (default [] (column df col)) VNone.

(** The type the metadata records for a column. *)
Definition type_of (types : ColumnTypes) (col : string) : string :=
  from_option DataTypeDetector.type "" (lookup_info types col).



(** The same with the match sets of any state of the store. *)
Definition in_match_set (df : DataFrame) (types : ColumnTypes) (idx : option IndexStore)
    (i : nat) (f : string * value) : bool :=
  negb (has_column df f.1)
  || bool_decide (i ∈ matching_indices df idx (type_of types f.1) f.1 f.2).


(** The key under which a cell enters the date index and the category
    index; no key for a cell the index leaves out. *)
Definition date_key (v : value) : option Date.date :=
  match v with VDate d => Some d | _ => None end.
Definition text_key (v : value) : option string :=
  if notna v then Some (py_str v) else None.

(** The quotient of [num] by [den] rounded to the nearest integer, ties to
    even: the rounding step of [F64.round_ratio]. *)
Definition nearest_even (num den : Z) : Z :=
  let qt := num / den in
  let r := num mod den in
  if den <? 2 * r then qt + 1
  else if (2 * r =? den) && Z.odd qt then qt + 1
  else qt.

(** A column with a non-null cell in some row of the frame. *)
Definition has_value (df : DataFrame) (col : string) : bool :=
  match column df col with
  | Some vs =>
      match List.filter (fun '(_, v) => notna v) (combine (index df) vs) with
      | [] => false
      | _ => true
      end
  | None => false
  end.

(** A text of ASCII characters only. *)
Definition ascii_only (s : string) : bool := sforall (fun c => (code c <? 128)%N) s.

(** The cell [_load_to_sqlite] writes for a cell of a column of the given
    type: the ISO text of a date in a Date column, the text of a decimal in a
    Number column, the cell itself otherwise. *)
Definition stored_cell (col_type : string) (x : value) : value :=
  if String.eqb col_type "Date" then iso_if_date x
  else if String.eqb col_type "Number" then str_if_decimal x
  else x.

(** A whole number from 2 to 106751, the serial dates the detector accepts. *)
Definition serial_like (e : DataTypeDetector.Entry) : bool :=
  match e with
  | DataTypeDetector.Raw (Integer z) => (2 <=? z) && (z <=? DataTypeDetector.Timedelta_max_days)
  | _ => false
  end.

(** [p] is the row label of a row whose cell in the column [vs] equals [v]. *)
Definition labels_match (df : DataFrame) (vs : list value) (v : value) (p : nat) : bool :=
  existsb (fun '(l, c) => Nat.eqb l p && py_eq c v) (combine (index df) vs).

(** The usage example with its rows labelled 1, 2 and 0. *)
Definition relabelled : DataFrame := mkFrame [1; 2; 0]%nat (columns Demo.sample_data).

(** The text "ab/cd/wxyz" of eight characters. *)
Definition slashed_text (a b c d w x y z : ascii) : string :=
  String a (String b (String "/" (String c (String d (String "/"
    (String w (String x (String y (String z ""))))))))).

(** The positions, in ascending order, of the cells of a column that enter
    an index under the key [q]. *)
Definition positions_of {K : Type} `{EqDecision K} (key : value -> option K)
    (col : list value) (q : K) : list nat :=
  List.filter (fun i => bool_decide (key (nth i col VNone) = Some q)) (List.seq 0 (length col)).

(** A signaling NaN, [Decimal('sNaN')].  Comparing one raises
    [InvalidOperation], and so do [pd.notna] and [dropna] on one; hashing one
    raises [TypeError].  [notna], [py_eq] and [matching_indices] have no such
    outcome: what is stated through them is stated for frames and filter
    values without a signaling NaN. *)
Definition signaling (v : value) : bool :=
  match v with VAmount (Dec.NaN _ true _) => true | _ => false end.

(** A frame, and a list of filters, without a signaling NaN. *)
Definition quiet_frame (df : DataFrame) : bool :=
  forallb (fun c => forallb (fun v => negb (signaling v)) c.2) (columns df).
Definition quiet_filters (filters : list (string * value)) : bool :=
  forallb (fun f => negb (signaling f.2)) filters.


(** A text that the serial-date test of [detect_date_format] reads in one
    way whatever the versions of Python and pandas: ASCII characters only
    (beyond ASCII, [str.isdigit], [int], [\d], [\s] and [strip] know more
    digits and blanks than [isdigit] and [isspace] here, and [int] raises on
    a digit such as a superscript two); at most 4300 characters (the longest
    run of digits [int] and [str] convert); and no whole number from 106752
    to 2958465, a count of days that [pd.Timedelta] holds or refuses with its
    resolution. *)
Definition settled_text (t : string) : bool :=
  ascii_only t
  && (slen t <=? 4300)%nat
  && negb (sforall isdigit t
           && (DataTypeDetector.Timedelta_max_days <? int_of_digits t)
           && (int_of_digits t <=? 2958465)).

(** An entry whose examined text is settled; a null and an object of
    another type are not examined. *)
Definition settled (e : DataTypeDetector.Entry) : bool :=
  match e with
  | DataTypeDetector.Object | DataTypeDetector.Raw Null => true
  | DataTypeDetector.Raw v => settled_text (examined_text v)
  end.

End Vocabulary.

(** * Properties *)

Import Text Re Py Vocabulary.

(** ** Amounts: [parse_amount], [_clean_and_parse_number] *)

Lemma contains_sfilter (p : ascii -> bool) (c : ascii) (s : string) :
  p c = true -> contains c (sfilter p s) = contains c s.
Proof.
  intros Hp. induction s as [|d s IH]; simpl; [reflexivity|].
  destruct (p d) eqn:Hd; simpl.
  - now rewrite IH.
  - destruct (Ascii.eqb c d) eqn:Hcd; simpl; [|exact IH].
    apply Ascii.eqb_eq in Hcd. subst d. congruence.
Qed.

Lemma sfilter_all (p : ascii -> bool) (s : string) :
  sforall p s = true -> sfilter p s = s.
Proof.
  induction s as [|d s IH]; simpl; [reflexivity|].
  intros H. apply andb_prop in H as [Hd Hs]. rewrite Hd. now rewrite IH.
Qed.

Lemma contains_remove_self (c : ascii) (s : string) : contains c (remove c s) = false.
Proof.
  unfold remove. induction s as [|d s IH]; simpl; [reflexivity|].
  destruct (Ascii.eqb c d) eqn:Hcd; simpl; [exact IH|]. now rewrite Hcd.
Qed.

(** C1 (the code departs from the claim).  The two grouped US amounts of the
    specification's vectors contain both a point and a comma, so the cleaning
    reads them in the European convention: "$1,234.56" gives 1.23456, not
    1234.56, and "(2,500.00)" gives -2.50000, not -2500.00.  "1.5M" gives
    1500000.0, which equals 1500000. *)
Theorem parse_amount_spec_vectors :
  FormatParser.parse_amount (Text "$1,234.56") = Ok (Some (Dec.Finite false 123456 (-5)))
  /\ Dec.eqb (Dec.Finite false 123456 (-5)) Demo.amount_1234_56 = false
  /\ FormatParser.parse_amount (Text "(2,500.00)") = Ok (Some (Dec.Finite true 250000 (-5)))
  /\ Dec.eqb (Dec.Finite true 250000 (-5)) Demo.amount_m2500_00 = false
  /\ FormatParser.parse_amount (Text "1.5M") = Ok (Some (Dec.Finite false 15000000 (-1)))
  /\ Dec.eqb (Dec.Finite false 15000000 (-1)) (Dec.Finite false 1500000 0) = true.
Proof. repeat split; vm_compute; reflexivity. Qed.

(** C5.  For every ASCII text [s], the generic cleaning parses, after
    trimming: the text with its points removed and its commas turned into
    points when it holds both a point and a comma; the text with its commas
    removed when it holds commas only; and otherwise the text itself, less
    the characters that are no digit, sign or point (so a text of such
    characters only is parsed unchanged).  In particular "1.234,56" parses
    to 1234.56. *)
Theorem clean_and_parse_number_separators :
  (forall s : string,
     ascii_only s = true ->
     let t := strip s in
     FormatParser._clean_and_parse_number s =
       if String.eqb t "" then None
       else if contains "." t && contains "," t then
         Dec.of_str (FormatParser.keep_numeric (replace "," "." (remove "." t)))
       else if contains "," t then Dec.of_str (remove "," t)
       else Dec.of_str (FormatParser.keep_numeric t))
  /\ (forall t : string,
        sforall FormatParser.numeric_char t = true -> FormatParser.keep_numeric t = t)
  /\ (forall t : string, contains "." (remove "." t) = false)
  /\ FormatParser.parse_amount (Text "1.234,56") = Ok (Some Demo.amount_1234_56).
Proof.
  split; [|split; [|split]].
  - intros s _ t. unfold FormatParser._clean_and_parse_number. fold t.
    destruct (String.eqb t "") eqn:He; [reflexivity|].
    unfold FormatParser.keep_numeric at 1.
    rewrite (contains_sfilter FormatParser.numeric_char "." t) by reflexivity.
    destruct (contains "." t && contains "," t); [reflexivity|].
    destruct (contains "," t); reflexivity.
  - intros t Ht. now apply sfilter_all.
  - intros t. apply contains_remove_self.
  - vm_compute. reflexivity.
Qed.

Lemma clean_and_parse_number_separators_witness :
  ascii_only " 1.234,56 " = true
  /\ FormatParser._clean_and_parse_number " 1.234,56 " = Some Demo.amount_1234_56.
Proof.
  split; [reflexivity|].
  rewrite (proj1 clean_and_parse_number_separators " 1.234,56 " eq_refl).
  vm_compute. reflexivity.
Defined.

(** ** Dates: [parse_date] *)

(** C3 (the code departs from the claim).  Both branches of the heuristic
    build [date(year, month, day)] from the groups in month-first order, so a
    first group above 12 is never read as a day: "25/12/2023" and "13/01/2024"
    are unparseable, as is every "A/B/2024" with A from 13 to 31 and B from 1
    to 12.  A first group up to 12 is the month: every "A/B/2024" with A from
    1 to 12 and B from 1 to 28 is day B of month A, and "03/04/2024" is the
    fourth of March. *)
Theorem parse_date_first_group_above_12 :
  FormatParser.parse_date (Text "25/12/2023") = None
  /\ FormatParser.parse_date (Text "13/01/2024") = None
  /\ Forall (fun a => Forall (fun b => FormatParser.parse_date (Text (slashed a b)) = None)
                            (List.seq 1 12))
            (List.seq 13 19)
  /\ Forall (fun a => Forall (fun b => FormatParser.parse_date (Text (slashed a b))
                                       = Some (Date.mkdate 2024 (Z.of_nat a) (Z.of_nat b)))
                            (List.seq 1 28))
            (List.seq 1 12)
  /\ FormatParser.parse_date (Text "03/04/2024") = Some (Date.mkdate 2024 3 4).
Proof.
  split; [vm_compute; reflexivity|].
  split; [vm_compute; reflexivity|].
  split; [|split; [|vm_compute; reflexivity]].
  - assert (H : forallb (fun a => forallb (fun b =>
                  match FormatParser.parse_date (Text (slashed a b)) with
                  | None => true
                  | Some _ => false
                  end) (List.seq 1 12)) (List.seq 13 19) = true)
      by (vm_compute; reflexivity).
    apply Forall_forall. intros a Ha. apply Forall_forall. intros b Hb.
    apply list_elem_of_In in Ha, Hb.
    rewrite forallb_forall in H. specialize (H a Ha).
    rewrite forallb_forall in H. specialize (H b Hb).
    destruct (FormatParser.parse_date (Text (slashed a b))); [discriminate|reflexivity].
  - assert (H : forallb (fun a => forallb (fun b =>
                  match FormatParser.parse_date (Text (slashed a b)) with
                  | Some d => Date.eqb d (Date.mkdate 2024 (Z.of_nat a) (Z.of_nat b))
                  | None => false
                  end) (List.seq 1 28)) (List.seq 1 12) = true)
      by (vm_compute; reflexivity).
    apply Forall_forall. intros a Ha. apply Forall_forall. intros b Hb.
    apply list_elem_of_In in Ha, Hb.
    rewrite forallb_forall in H. specialize (H a Ha).
    rewrite forallb_forall in H. specialize (H b Hb).
    destruct (FormatParser.parse_date (Text (slashed a b))) as [d|]; [|discriminate].
    f_equal. destruct d as [y m dd]. unfold Date.eqb in H. simpl in H.
    apply andb_prop in H as [H Hd]. apply andb_prop in H as [Hy Hm].
    apply Z.eqb_eq in Hy, Hm, Hd. congruence.
Qed.

(** ** The store *)

Import Store.

Lemma StronglySorted_seq (k n : nat) : StronglySorted Nat.le (List.seq k n).
Proof.
  revert k. induction n as [|n IH]; intros k; simpl; constructor.
  - apply IH.
  - apply List.Forall_forall. intros x Hx. apply in_seq in Hx. lia.
Qed.

Lemma StronglySorted_list_filter {A : Type} (R : A -> A -> Prop) (p : A -> bool) (l : list A) :
  StronglySorted R l -> StronglySorted R (List.filter p l).
Proof.
  induction 1 as [|x l Hl IH Hx]; simpl; [constructor|].
  destruct (p x); [|exact IH].
  constructor; [exact IH|].
  apply List.Forall_forall. intros y Hy. apply filter_In in Hy as [Hy _].
  rewrite List.Forall_forall in Hx. now apply Hx.
Qed.

(** [sorted(s)] lists, in ascending order, the row ids below [n] that are in [s]. *)
Lemma sorted_range (s : gset nat) (n : nat) :
  (forall i, i ∈ s -> (i < n)%nat) ->
  sorted s = List.filter (fun i => bool_decide (i ∈ s)) (List.seq 0 n).
Proof.
  intros Hs. unfold sorted.
  apply (Sorted_unique Nat.le).
  - apply Sorted_merge_sort. intros x y. unfold Nat.le. lia.
  - apply StronglySorted_Sorted, StronglySorted_list_filter, StronglySorted_seq.
  - rewrite merge_sort_Permutation.
    apply NoDup_Permutation.
    + apply NoDup_elements.
    + apply NoDup_ListNoDup, List.NoDup_filter, seq_NoDup.
    + intros i. rewrite elem_of_elements, list_elem_of_In, filter_In, in_seq, bool_decide_eq_true.
      split; [intros Hi; split; [specialize (Hs i Hi); lia | exact Hi] | tauto].
Qed.

Lemma py_eq_none_l (v : value) : py_eq VNone v = false.
Proof. reflexivity. Qed.

(** [iloc] of no position is the empty frame with the same columns. *)
Lemma iloc_nil (df : DataFrame) : iloc df [] = empty_like (column_names df).
Proof.
  unfold iloc, empty_like, column_names. simpl. f_equal.
  rewrite List.map_map. apply List.map_ext. now intros [c vs].
Qed.



Section Queries.
Context {Conn : Type}.
Implicit Types (st : FinancialDataStore Conn) (df : DataFrame) (types : ColumnTypes).

(** The loop over the filters intersects the match sets of the filters
    whose column the frame has. *)
Lemma fold_apply_filter df types idx (filters : list (string * value)) :
  forall X : gset nat,
    (forall f, In f filters -> has_column df f.1 = true -> lookup_info types f.1 <> None) ->
    exists R : gset nat,
      fold_left (apply_filter df (Ok types) idx) filters (Ok X) = Ok R
      /\ forall i, i ∈ R <-> i ∈ X /\ forallb (in_match_set df types idx i) filters = true.
Proof.
  induction filters as [|f filters IH]; intros X Hc; simpl.
  - exists X. split; [reflexivity|]. intros i. tauto.
  - destruct (has_column df f.1) eqn:Hf; simpl.
    + destruct (lookup_info types f.1) as [info|] eqn:Hi;
        [|exfalso; apply (Hc f); [now left | exact Hf | exact Hi]].
      destruct (IH (X ∩ matching_indices df idx (DataTypeDetector.type info) f.1 f.2))
        as (R & HR & Hmem); [intros g Hg; apply Hc; now right|].
      exists R. split; [exact HR|]. intros i. rewrite Hmem, elem_of_intersection.
      unfold in_match_set at 2. rewrite Hf. simpl.
      unfold type_of. rewrite Hi. simpl.
      rewrite andb_true_iff, bool_decide_eq_true. tauto.
    + destruct (IH X) as (R & HR & Hmem); [intros g Hg; apply Hc; now right|].
      exists R. split; [exact HR|]. intros i. rewrite Hmem.
      unfold in_match_set at 2. rewrite Hf. simpl. tauto.
Qed.


(** What [query_by_criteria] returns once the row set is known. *)
Lemma materialize df (R : gset nat) (keep : nat -> bool) :
  (forall i, i ∈ R <-> (i < len df)%nat /\ keep i = true) ->
  (if bool_decide (R = ∅) then Ok (empty_like (column_names df)) else Ok (iloc df (sorted R)))
  = Ok (iloc df (List.filter keep (List.seq 0 (len df)))).
Proof.
  intros HR.
  assert (Hs : sorted R = List.filter keep (List.seq 0 (len df))).
  { rewrite (sorted_range R (len df)) by (intros i Hi; now apply HR in Hi).
    apply List.filter_ext_in. intros i Hi. apply in_seq in Hi.
    apply eq_true_iff_eq. rewrite bool_decide_eq_true, HR. split; [tauto|]. intros; split; [lia|assumption]. }
  case_bool_decide as He; [|now rewrite Hs].
  rewrite <- Hs, He. unfold sorted. rewrite elements_empty. simpl.
  now rewrite iloc_nil.
Qed.

(** The result of [query_by_criteria] in any state of the store: the rows,
    in ascending order, that lie in the match set of every filter on a
    column of the frame. *)
Lemma query_by_criteria_selects st name df types filters :
  data st !! name = Some df ->
  metadata st !! name = Some types ->
  (forall f, In f filters -> has_column df f.1 = true -> lookup_info types f.1 <> None) ->
  query_by_criteria st name filters =
    Ok (iloc df (List.filter
                   (fun i => forallb (in_match_set df types (indexes st !! name) i) filters)
                   (List.seq 0 (len df)))).
Proof.
  intros Hd Hm Hc. unfold query_by_criteria. rewrite Hd, Hm.
  destruct (fold_apply_filter df types (indexes st !! name) filters
              (list_to_set (List.seq 0 (len df))) Hc) as (R & HR & Hmem).
  rewrite HR. simpl. apply materialize.
  intros i. rewrite Hmem, elem_of_list_to_set, list_elem_of_In, in_seq. split; intros [? ?]; split; auto; lia.
Qed.

End Queries.

(** *** The indexes built at registration *)







Lemma has_column_lookup (df : DataFrame) (col : string) :
  has_column df col = true -> exists vs, column df col = Some vs.
Proof.
  unfold has_column, column, column_names. induction (columns df) as [|[c vs] cols IH]; simpl.
  - discriminate.
  - destruct (String.eqb col c); [eauto | exact IH].
Qed.

Lemma columns_of_type_In (types : ColumnTypes) (keep : string -> bool) (col : string)
    (info : DataTypeDetector.Detection) :
  lookup_info types col = Some info -> keep (DataTypeDetector.type info) = true ->
  In col (columns_of_type types keep).
Proof.
  unfold columns_of_type. induction types as [|[c i] types IH]; simpl; [discriminate|].
  destruct (String.eqb col c) eqn:Hc.
  - intros [= ->] Hk. rewrite Hk. simpl. left. symmetry. now apply String.eqb_eq.
  - intros Hl Hk. destruct (keep (DataTypeDetector.type i)); simpl; auto.
Qed.


Section Registered.
Context (sort_values : list (nat * value) -> result (list (nat * value))).

Lemma date_indexes_assoc (df : DataFrame) (cols : list string) :
  forall l col,
    date_indexes df cols = Ok l -> In col cols ->
    exists vs, column df col = Some vs /\ assoc l col = Some (build_date_index vs).
Proof.
  induction cols as [|c cols IH]; intros l col Hl Hin; [contradiction|].
  simpl in Hl. unfold getitem in Hl.
  destruct (column df c) as [vs|] eqn:Hc; simpl in Hl; [|discriminate].
  destruct (date_indexes df cols) as [rest|] eqn:Hr; simpl in Hl; [|discriminate].
  injection Hl as <-. simpl.
  destruct (String.eqb col c) eqn:He.
  - apply String.eqb_eq in He. subst c. eauto.
  - destruct Hin as [->|Hin]; [rewrite String.eqb_refl in He; discriminate|].
    now apply IH.
Qed.

Lemma category_indexes_assoc (df : DataFrame) (cols : list string) :
  forall l col,
    category_indexes df cols = Ok l -> In col cols ->
    exists vs, column df col = Some vs /\ assoc l col = Some (build_category_index vs).
Proof.
  induction cols as [|c cols IH]; intros l col Hl Hin; [contradiction|].
  simpl in Hl. unfold getitem in Hl.
  destruct (column df c) as [vs|] eqn:Hc; simpl in Hl; [|discriminate].
  destruct (category_indexes df cols) as [rest|] eqn:Hr; simpl in Hl; [|discriminate].
  injection Hl as <-. simpl.
  destruct (String.eqb col c) eqn:He.
  - apply String.eqb_eq in He. subst c. eauto.
  - destruct Hin as [->|Hin]; [rewrite String.eqb_refl in He; discriminate|].
    now apply IH.
Qed.


End Registered.

(** *** What the read operations return *)



Lemma add_dataset_registers {Conn : Type} to_sql sort_values
    (st st' : FinancialDataStore Conn) name df types :
  add_dataset to_sql sort_values st name df types = (st', Ok tt) ->
  data st' !! name = Some df /\ metadata st' !! name = Some types
  /\ exists idx, _create_indexes sort_values df types = Ok idx /\ indexes st' !! name = Some idx.
Proof.
  unfold add_dataset. destruct (_create_indexes sort_values df types) as [idx|e] eqn:Hi.
  - intros [= <- _]. simpl. rewrite !lookup_insert_eq. eauto.
  - intros [= _ ?].
Qed.






(** C4, as the code has it.  On a name that is not registered,
    [query_by_criteria] and [aggregate_data] raise the not-found error, and
    [get_dataset_info] returns the empty dictionary. *)
Theorem unregistered_dataset :
  forall (Conn : Type) aggregate_frame (st : FinancialDataStore Conn) (name : string)
         (filters : list (string * value)) (group_by measures : list string),
    data st !! name = None ->
    query_by_criteria st name filters = Raise (not_found name)
    /\ aggregate_data aggregate_frame st name group_by measures = Raise (not_found name)
    /\ get_dataset_info st name = Ok NoInfo.
Proof.
  intros Conn agg st name filters group_by measures Hd.
  unfold query_by_criteria, aggregate_data, get_dataset_info. rewrite Hd. auto.
Qed.

Lemma unregistered_dataset_witness :
  query_by_criteria Demo.store "ledger" [] = Raise (not_found "ledger")
  /\ aggregate_data Demo.no_aggregate Demo.store "ledger" ["Category"] ["Amount"]
     = Raise (not_found "ledger")
  /\ get_dataset_info Demo.store "ledger" = Ok NoInfo.
Proof.
  apply (unregistered_dataset unit Demo.no_aggregate Demo.store "ledger" [] ["Category"] ["Amount"]).
  vm_compute. reflexivity.
Defined.

(** C4, as stated, fails: on an unregistered name [get_dataset_info] raises
    nothing and returns the empty dictionary. *)
Lemma get_dataset_info_unregistered_returns :
  Py.raises (get_dataset_info (new_store tt) "ledger") = false
  /\ get_dataset_info (new_store tt) "ledger" = Ok NoInfo.
Proof. split; reflexivity. Qed.

(** C8.  [query_sql] raises nothing, whatever the backend does with the
    query: it returns the frame the backend returns, and the empty frame
    when the backend raises. *)
Theorem query_sql_never_raises :
  forall (Conn : Type) (read_sql_query : string -> Conn -> result DataFrame)
         (st : FinancialDataStore Conn) (query : string),
    Py.raises (query_sql read_sql_query st query) = false
    /\ (forall e, read_sql_query query (sqlite_conn st) = Raise e ->
                  query_sql read_sql_query st query = Ok empty_frame)
    /\ (forall r, read_sql_query query (sqlite_conn st) = Ok r ->
                  query_sql read_sql_query st query = Ok r).
Proof.
  intros Conn read st query. unfold query_sql.
  destruct (read query (sqlite_conn st)) as [r|e]; simpl.
  - split; [reflexivity|]. split; [discriminate | now intros r' [= ->]].
  - split; [reflexivity|]. split; [reflexivity | discriminate].
Qed.




(** *** Range access *)




(** *** Registration *)

Lemma add_dataset_data {Conn : Type} to_sql sort_values (st : FinancialDataStore Conn)
    name df types :
  data (add_dataset to_sql sort_values st name df types).1 = <[name := df]> (data st)
  /\ metadata (add_dataset to_sql sort_values st name df types).1 = <[name := types]> (metadata st).
Proof.
  unfold add_dataset. destruct (_create_indexes sort_values df types); simpl; auto.
Qed.

Lemma add_dataset_indexes {Conn : Type} to_sql sort_values (st : FinancialDataStore Conn)
    name df types :
  indexes (add_dataset to_sql sort_values st name df types).1 =
    match _create_indexes sort_values df types with
    | Ok idx => <[name := idx]> (indexes st)
    | Raise _ => indexes st
    end.
Proof.
  unfold add_dataset. destruct (_create_indexes sort_values df types); reflexivity.
Qed.

(** Two stores that agree on a dataset answer alike about it. *)
Lemma reads_agree {Conn : Type} (st st' : FinancialDataStore Conn) (name : string) :
  data st' !! name = data st !! name ->
  metadata st' !! name = metadata st !! name ->
  indexes st' !! name = indexes st !! name ->
  (forall filters, query_by_criteria st' name filters = query_by_criteria st name filters)
  /\ get_dataset_info st' name = get_dataset_info st name
  /\ (forall aggregate_frame group_by measures,
        aggregate_data aggregate_frame st' name group_by measures
        = aggregate_data aggregate_frame st name group_by measures).
Proof.
  intros Hd Hm Hi. unfold query_by_criteria, get_dataset_info, aggregate_data.
  unfold ColumnTypes in *. rewrite Hd, Hm, Hi. repeat split; intros; reflexivity.
Qed.

(** X1.  Registering a dataset, whether the call returns or raises, changes
    nothing that the store answers about a dataset of another name. *)
Theorem add_dataset_other_datasets :
  forall (Conn : Type) to_sql sort_values (st : FinancialDataStore Conn)
         (name other : string) (df : DataFrame) (types : ColumnTypes),
    other <> name ->
    let st' := (add_dataset to_sql sort_values st name df types).1 in
    (forall filters, query_by_criteria st' other filters = query_by_criteria st other filters)
    /\ get_dataset_info st' other = get_dataset_info st other
    /\ (forall aggregate_frame group_by measures,
          aggregate_data aggregate_frame st' other group_by measures
          = aggregate_data aggregate_frame st other group_by measures).
Proof.
  intros Conn to_sql sort_values st name other df types Hne st'.
  destruct (add_dataset_data to_sql sort_values st name df types) as [Hd Hm].
  pose proof (add_dataset_indexes to_sql sort_values st name df types) as Hi.
  apply reads_agree; unfold st'.
  - rewrite Hd. now apply lookup_insert_ne.
  - rewrite Hm. now apply lookup_insert_ne.
  - rewrite Hi. destruct (_create_indexes sort_values df types); [|reflexivity].
    now apply lookup_insert_ne.
Qed.

Lemma add_dataset_other_datasets_witness :
  get_dataset_info
    (add_dataset Demo.no_sql Demo.no_sort Demo.store "ledger" Demo.sample_data []).1
    "sample_transactions"
  = get_dataset_info Demo.store "sample_transactions".
Proof.
  destruct (add_dataset_other_datasets unit Demo.no_sql Demo.no_sort Demo.store
              "ledger" "sample_transactions" Demo.sample_data []) as (_ & H & _).
  - discriminate.
  - exact H.
Defined.

(** X2.  Registering the same frame with the same types a second time
    leaves the frames, the types and the indexes of the store as the first
    registration left them: every query, description and aggregation
    answers as before. *)
Theorem add_dataset_twice :
  forall (Conn : Type) to_sql sort_values (st st1 st2 : FinancialDataStore Conn)
         (name : string) (df : DataFrame) (types : ColumnTypes),
    add_dataset to_sql sort_values st name df types = (st1, Ok tt) ->
    add_dataset to_sql sort_values st1 name df types = (st2, Ok tt) ->
    data st2 = data st1 /\ metadata st2 = metadata st1 /\ indexes st2 = indexes st1
    /\ (forall n filters, query_by_criteria st2 n filters = query_by_criteria st1 n filters)
    /\ (forall n, get_dataset_info st2 n = get_dataset_info st1 n)
    /\ (forall aggregate_frame n group_by measures,
          aggregate_data aggregate_frame st2 n group_by measures
          = aggregate_data aggregate_frame st1 n group_by measures).
Proof.
  intros Conn to_sql sort_values st st1 st2 name df types H1 H2.
  assert (Hd : data st2 = data st1 /\ metadata st2 = metadata st1 /\ indexes st2 = indexes st1).
  { pose proof (add_dataset_data to_sql sort_values st name df types) as [Hd1 Hm1].
    pose proof (add_dataset_indexes to_sql sort_values st name df types) as Hi1.
    pose proof (add_dataset_data to_sql sort_values st1 name df types) as [Hd2 Hm2].
    pose proof (add_dataset_indexes to_sql sort_values st1 name df types) as Hi2.
    rewrite H1 in Hd1, Hm1, Hi1. rewrite H2 in Hd2, Hm2, Hi2. simpl in *.
    unfold add_dataset in H1. destruct (_create_indexes sort_values df types) as [idx|e];
      [|discriminate H1].
    rewrite Hd2, Hm2, Hi2, Hd1, Hm1, Hi1. rewrite !insert_insert_eq. auto. }
  destruct Hd as (Hd & Hm & Hi). split; [exact Hd|]. split; [exact Hm|]. split; [exact Hi|].
  split; [|split].
  - intros n filters. apply reads_agree; congruence.
  - intros n. apply reads_agree; congruence.
  - intros agg n g m. apply reads_agree; congruence.
Qed.

Lemma add_dataset_twice_witness :
  get_dataset_info
    (add_dataset Demo.no_sql Demo.no_sort Demo.store "sample_transactions"
       Demo.sample_data Demo.column_types).1 "sample_transactions"
  = get_dataset_info Demo.store "sample_transactions".
Proof.
  destruct (add_dataset_twice unit Demo.no_sql Demo.no_sort (new_store tt) Demo.store
              (add_dataset Demo.no_sql Demo.no_sort Demo.store "sample_transactions"
                 Demo.sample_data Demo.column_types).1
              "sample_transactions" Demo.sample_data Demo.column_types)
    as (_ & _ & _ & _ & H & _).
  - vm_compute. reflexivity.
  - vm_compute. reflexivity.
  - apply H.
Defined.

Section IndexBuild.
Context (sort_values : list (nat * value) -> result (list (nat * value))).

Lemma date_indexes_names (df : DataFrame) (cols : list string) :
  forall l, date_indexes df cols = Ok l ->
            map fst l = cols /\ Forall (fun c => has_column df c = true) cols.
Proof.
  induction cols as [|c cols IH]; intros l Hl; simpl in Hl.
  - injection Hl as <-. split; [reflexivity | constructor].
  - unfold getitem in Hl. destruct (column df c) as [vs|] eqn:Hc; simpl in Hl; [|discriminate].
    destruct (date_indexes df cols) as [rest|] eqn:Hr; simpl in Hl; [|discriminate].
    injection Hl as <-. destruct (IH rest eq_refl) as [Hn Hf]. simpl. split; [now f_equal|].
    constructor; [|exact Hf].
    unfold has_column, column_names, column in *.
    clear -Hc. induction (columns df) as [|[c' vs'] cs IHc]; simpl in *; [discriminate|].
    destruct (String.eqb c c'); [reflexivity | now apply IHc].
Qed.

Lemma category_indexes_names (df : DataFrame) (cols : list string) :
  forall l, category_indexes df cols = Ok l ->
            map fst l = cols /\ Forall (fun c => has_column df c = true) cols.
Proof.
  induction cols as [|c cols IH]; intros l Hl; simpl in Hl.
  - injection Hl as <-. split; [reflexivity | constructor].
  - unfold getitem in Hl. destruct (column df c) as [vs|] eqn:Hc; simpl in Hl; [|discriminate].
    destruct (category_indexes df cols) as [rest|] eqn:Hr; simpl in Hl; [|discriminate].
    injection Hl as <-. destruct (IH rest eq_refl) as [Hn Hf]. simpl. split; [now f_equal|].
    constructor; [|exact Hf].
    unfold has_column, column_names, column in *.
    clear -Hc. induction (columns df) as [|[c' vs'] cs IHc]; simpl in *; [discriminate|].
    destruct (String.eqb c c'); [reflexivity | now apply IHc].
Qed.

Lemma numeric_indexes_names (df : DataFrame) (cols : list string) :
  forall l, numeric_indexes sort_values df cols = Ok l ->
            map fst l = List.filter (has_value df) cols
            /\ Forall (fun c => has_column df c = true) cols.
Proof.
  induction cols as [|c cols IH]; intros l Hl; simpl in Hl.
  - injection Hl as <-. split; [reflexivity | constructor].
  - unfold getitem in Hl. destruct (column df c) as [vs|] eqn:Hc; simpl in Hl; [|discriminate].
    assert (Hcol : has_column df c = true).
    { unfold has_column, column_names, column in *.
      clear -Hc. induction (columns df) as [|[c' vs'] cs IHc]; simpl in *; [discriminate|].
      destruct (String.eqb c c'); [reflexivity | now apply IHc]. }
    simpl. unfold has_value at 1. rewrite Hc.
    destruct (List.filter (fun '(_, v) => notna v) (combine (index df) vs)) as [|x xs] eqn:Hv.
    + destruct (IH l Hl) as [Hn Hf]. split; [exact Hn | constructor; assumption].
    + destruct (sort_values (x :: xs)) as [sorted_vals|]; simpl in Hl; [|discriminate].
      destruct (numeric_indexes sort_values df cols) as [rest|] eqn:Hr; simpl in Hl; [|discriminate].
      injection Hl as <-. destruct (IH rest eq_refl) as [Hn Hf]. simpl.
      split; [now f_equal | constructor; assumption].
Qed.

End IndexBuild.

Lemma columns_of_type_partition (types : ColumnTypes) (col : string) :
  In col (map fst types) ->
  In col (columns_of_type types (String.eqb "Date"))
  \/ In col (columns_of_type types (String.eqb "Number"))
  \/ In col (columns_of_type types
               (fun t => negb (String.eqb "Date" t || String.eqb "Number" t))).
Proof.
  unfold columns_of_type. intros Hin.
  apply List.in_map_iff in Hin as [[c info] [<- Hin]].
  destruct (String.eqb "Date" (DataTypeDetector.type info)) eqn:Hd;
    [|destruct (String.eqb "Number" (DataTypeDetector.type info)) eqn:Hn];
    [left | right; left | right; right];
    apply List.in_map_iff; exists (c, info); (split; [reflexivity|]);
    apply List.filter_In; (split; [assumption|]); simpl fst; cbv beta iota;
    rewrite ?Hd, ?Hn; reflexivity.
Qed.

(** X3.  When [column_types] names a column that the frame lacks,
    [add_dataset] raises; the frame and the types are recorded under the name
    all the same, while the indexes and the SQL mirror stay as they were. *)
Theorem add_dataset_missing_column :
  forall (Conn : Type) to_sql sort_values (st : FinancialDataStore Conn)
         (name : string) (df : DataFrame) (types : ColumnTypes) (col : string),
    In col (map fst types) ->
    has_column df col = false ->
    let r := add_dataset to_sql sort_values st name df types in
    Py.raises r.2 = true
    /\ data r.1 !! name = Some df
    /\ metadata r.1 !! name = Some types
    /\ indexes r.1 = indexes st
    /\ sqlite_conn r.1 = sqlite_conn st.
Proof.
  intros Conn to_sql sort_values st name df types col Hin Hcol r.
  assert (Hfail : exists e, _create_indexes sort_values df types = Raise e).
  { destruct (_create_indexes sort_values df types) as [idx|e] eqn:Hi; [exfalso|eauto].
    unfold _create_indexes in Hi.
    destruct (date_indexes df _) as [d|] eqn:Hd; simpl in Hi; [|discriminate].
    destruct (numeric_indexes sort_values df _) as [n|] eqn:Hn; simpl in Hi; [|discriminate].
    destruct (category_indexes df _) as [c|] eqn:Hc; simpl in Hi; [|discriminate].
    apply date_indexes_names in Hd as [_ Hd].
    apply numeric_indexes_names in Hn as [_ Hn].
    apply category_indexes_names in Hc as [_ Hc].
    rewrite List.Forall_forall in Hd, Hn, Hc.
    destruct (columns_of_type_partition types col Hin) as [H|[H|H]];
      [apply Hd in H | apply Hn in H | apply Hc in H]; congruence. }
  destruct Hfail as [e He]. unfold r, add_dataset. rewrite He. simpl.
  rewrite !lookup_insert_eq. auto.
Qed.

Lemma add_dataset_missing_column_witness :
  Py.raises (add_dataset Demo.no_sql Demo.no_sort (new_store tt) "ledger" Demo.sample_data
               [("Posted", Demo.typed "Date")]).2 = true
  /\ data (add_dataset Demo.no_sql Demo.no_sort (new_store tt) "ledger" Demo.sample_data
             [("Posted", Demo.typed "Date")]).1 !! "ledger" = Some Demo.sample_data.
Proof.
  destruct (add_dataset_missing_column unit Demo.no_sql Demo.no_sort (new_store tt) "ledger"
              Demo.sample_data [("Posted", Demo.typed "Date")] "Posted") as (H1 & H2 & _).
  - simpl. auto.
  - reflexivity.
  - split; [exact H1 | exact H2].
Defined.

(** X4.  After a registration that returns, the description of the dataset
    gives the row count and the column names of the frame, the types as
    given, the Date columns and the columns of every other type but Number in
    the order of [column_types], and of the Number columns those with a
    non-null cell: a column of [None] and NaN only has no numeric index.  The
    frame holds no signaling NaN, on which [dropna] and [pd.notna] raise. *)
Theorem get_dataset_info_registered :
  forall (Conn : Type) to_sql sort_values (st st' : FinancialDataStore Conn)
         (name : string) (df : DataFrame) (types : ColumnTypes),
    add_dataset to_sql sort_values st name df types = (st', Ok tt) ->
    quiet_frame df = true ->
    get_dataset_info st' name =
      Ok (Info (len df) (column_names df) types
               (columns_of_type types (String.eqb "Date"))
               (List.filter (has_value df) (columns_of_type types (String.eqb "Number")))
               (columns_of_type types
                  (fun t => negb (String.eqb "Date" t || String.eqb "Number" t)))).
Proof.
  intros Conn to_sql sort_values st st' name df types Hadd _.
  destruct (add_dataset_registers _ _ _ _ _ _ _ Hadd) as (Hd & Hm & idx & Hidx & Hi).
  unfold get_dataset_info. unfold ColumnTypes in *. rewrite Hd, Hm, Hi. simpl.
  unfold _create_indexes in Hidx.
  destruct (date_indexes df _) as [d|] eqn:Ed; simpl in Hidx; [|discriminate].
  destruct (numeric_indexes sort_values df _) as [n|] eqn:En; simpl in Hidx; [|discriminate].
  destruct (category_indexes df _) as [c|] eqn:Ec; simpl in Hidx; [|discriminate].
  injection Hidx as <-. simpl.
  apply date_indexes_names in Ed as [-> _].
  apply numeric_indexes_names in En as [-> _].
  apply category_indexes_names in Ec as [-> _].
  reflexivity.
Qed.

Lemma get_dataset_info_registered_witness :
  get_dataset_info
    (add_dataset Demo.no_sql Demo.no_sort (new_store tt) "ledger"
       (mkFrame [0; 1]%nat
          [ ("Due", [VAmount (Dec.NaN false false 0); VNone]);
            ("Paid", [VAmount Demo.amount_999_99; VNone]) ])
       [("Due", Demo.typed "Number"); ("Paid", Demo.typed "Number")]).1
    "ledger"
  = Ok (Info 2 ["Due"; "Paid"]
             [("Due", Demo.typed "Number"); ("Paid", Demo.typed "Number")]
             [] ["Paid"] []).
Proof.
  rewrite (get_dataset_info_registered unit Demo.no_sql Demo.no_sort (new_store tt) _ "ledger"
             (mkFrame [0; 1]%nat
                [ ("Due", [VAmount (Dec.NaN false false 0); VNone]);
                  ("Paid", [VAmount Demo.amount_999_99; VNone]) ])
             [("Due", Demo.typed "Number"); ("Paid", Demo.typed "Number")]).
  - reflexivity.
  - vm_compute. reflexivity.
  - reflexivity.
Defined.

(** *** Queries in any state of the store *)

Section QueryShape.
Context {Conn : Type}.
Implicit Types (st : FinancialDataStore Conn) (df : DataFrame).

Lemma fold_apply_filter_raise df meta idx (filters : list (string * value)) (e : exn) :
  fold_left (apply_filter df meta idx) filters (Raise e) = Raise e.
Proof. induction filters as [|f filters IH]; simpl; [reflexivity | exact IH]. Qed.

(** The loop over the filters only removes rows from the set it starts with. *)
Lemma fold_apply_filter_subset df meta idx (filters : list (string * value)) :
  forall X R : gset nat,
    fold_left (apply_filter df meta idx) filters (Ok X) = Ok R -> R ⊆ X.
Proof.
  induction filters as [|f filters IH]; intros X R; simpl.
  - now intros [= ->].
  - destruct (has_column df f.1); simpl; [|apply IH].
    destruct meta as [types|e]; simpl; [|now rewrite fold_apply_filter_raise].
    destruct (lookup_info types f.1) as [info|]; [|now rewrite fold_apply_filter_raise].
    intros HR i Hi. apply (IH _ _ HR), elem_of_intersection in Hi. tauto.
Qed.

End QueryShape.

Lemma forallb_Permutation {A : Type} (p : A -> bool) (l l' : list A) :
  Permutation l l' -> forallb p l = forallb p l'.
Proof.
  induction 1 as [|x l l' _ IH|x y l|l l' l'' _ IH1 _ IH2]; simpl.
  - reflexivity.
  - now rewrite IH.
  - destruct (p x), (p y); reflexivity.
  - congruence.
Qed.

(** X5.  A filter on a column the frame has and the recorded types lack
    makes [query_by_criteria] raise [KeyError] with the name of the column:
    the first such filter decides, whatever follows it.  The frame and the
    filters before it hold no signaling NaN, on which the lookups and the
    scan raise first. *)
Theorem query_by_criteria_untyped_column :
  forall (Conn : Type) (st : FinancialDataStore Conn) (name : string) (df : DataFrame)
         (types : ColumnTypes) (before after : list (string * value))
         (col : string) (v : value),
    data st !! name = Some df ->
    metadata st !! name = Some types ->
    quiet_frame df = true ->
    quiet_filters before = true ->
    (forall f, In f before -> has_column df f.1 = true -> lookup_info types f.1 <> None) ->
    has_column df col = true ->
    lookup_info types col = None ->
    query_by_criteria st name (before ++ (col, v) :: after) = Raise (KeyError col).
Proof.
  intros Conn st name df types before after col v Hd Hm _ _ Hc Hcol Hinfo.
  destruct (fold_apply_filter df types (indexes st !! name) before
              (list_to_set (List.seq 0 (len df))) Hc) as (R & HR & _).
  unfold query_by_criteria. unfold ColumnTypes in *. rewrite Hd, Hm.
  cbv beta iota zeta. rewrite fold_left_app, HR. simpl. rewrite Hcol. simpl. unfold ColumnTypes in *. rewrite Hinfo.
  now rewrite fold_apply_filter_raise.
Qed.

Lemma query_by_criteria_untyped_column_witness :
  query_by_criteria
    (add_dataset Demo.no_sql Demo.no_sort (new_store tt) "ledger" Demo.sample_data
       [("Date", Demo.typed "Date")]).1
    "ledger" [("Date", Demo.date 2023 1 15); ("Category", VText "Revenue"); ("Amount", VNone)]
  = Raise (KeyError "Category").
Proof.
  apply (query_by_criteria_untyped_column unit _ "ledger" Demo.sample_data
           [("Date", Demo.typed "Date")] [("Date", Demo.date 2023 1 15)] [("Amount", VNone)]
           "Category" (VText "Revenue")).
  - vm_compute. reflexivity.
  - vm_compute. reflexivity.
  - reflexivity.
  - reflexivity.
  - intros f [<-|[]] _. vm_compute. discriminate.
  - reflexivity.
  - reflexivity.
Defined.

(** X6.  Whatever the state of the store and the filters, a result of
    [query_by_criteria] is made of rows of the stored frame: some of its
    positions, each at most once and in ascending order, with every column of
    the frame.  So the result has the columns of the frame and no more rows
    than the frame. *)
Theorem query_by_criteria_rows_of_frame :
  forall (Conn : Type) (st : FinancialDataStore Conn) (name : string)
         (filters : list (string * value)) (r : DataFrame),
    query_by_criteria st name filters = Ok r ->
    exists (df : DataFrame) (keep : nat -> bool),
      data st !! name = Some df
      /\ r = iloc df (List.filter keep (List.seq 0 (len df)))
      /\ column_names r = column_names df
      /\ (len r <= len df)%nat.
Proof.
  intros Conn st name filters r. unfold query_by_criteria.
  destruct (data st !! name) as [df|] eqn:Hd; [|discriminate].
  set (meta := match metadata st !! name with Some t => Ok t | None => Raise (KeyError name) end).
  destruct (fold_left _ filters _) as [R|e] eqn:HR; simpl; [|discriminate].
  apply fold_apply_filter_subset in HR.
  rewrite (materialize df R (fun i => bool_decide (i ∈ R))).
  - intros [= <-]. exists df, (fun i => bool_decide (i ∈ R)).
    split; [reflexivity|]. split; [reflexivity|]. split.
    + unfold iloc, column_names. simpl. rewrite List.map_map.
      apply List.map_ext. now intros [c vs].
    + unfold iloc, len. simpl. rewrite length_map.
      etransitivity; [apply List.filter_length_le|]. now rewrite length_seq.
  - intros i. rewrite bool_decide_eq_true. split; [|tauto].
    intros Hi. split; [|exact Hi].
    apply HR in Hi. rewrite elem_of_list_to_set, list_elem_of_In, in_seq in Hi. lia.
Qed.

Lemma query_by_criteria_rows_of_frame_witness :
  exists (df : DataFrame) (keep : nat -> bool),
    data Demo.store !! "sample_transactions" = Some df
    /\ iloc Demo.sample_data [1]%nat = iloc df (List.filter keep (List.seq 0 (len df)))
    /\ column_names (iloc Demo.sample_data [1]%nat) = column_names df
    /\ (len (iloc Demo.sample_data [1]%nat) <= len df)%nat.
Proof.
  apply (query_by_criteria_rows_of_frame unit Demo.store "sample_transactions"
           [("Category", VText "Expense")]).
  vm_compute. reflexivity.
Defined.

(** X7.  The order of the filters does not matter: when the columns they
    name in the frame all have a recorded type, two lists of the same filters
    in different orders give the same result.  The frame and the filters
    hold no signaling NaN: with two of them among the values, the order
    decides which error is raised. *)
Theorem query_by_criteria_filter_order :
  forall (Conn : Type) (st : FinancialDataStore Conn) (name : string) (df : DataFrame)
         (types : ColumnTypes) (filters filters' : list (string * value)),
    data st !! name = Some df ->
    metadata st !! name = Some types ->
    quiet_frame df = true ->
    quiet_filters filters = true ->
    (forall f, In f filters -> has_column df f.1 = true -> lookup_info types f.1 <> None) ->
    Permutation filters filters' ->
    query_by_criteria st name filters' = query_by_criteria st name filters.
Proof.
  intros Conn st name df types filters filters' Hd Hm _ _ Hc Hp.
  rewrite (query_by_criteria_selects st name df types filters Hd Hm Hc).
  rewrite (query_by_criteria_selects st name df types filters' Hd Hm).
  - do 2 f_equal. apply List.filter_ext. intros i. symmetry. now apply forallb_Permutation.
  - intros f Hf. apply Hc. apply (Permutation_in f (Permutation_sym Hp) Hf).
Qed.

Lemma query_by_criteria_filter_order_witness :
  query_by_criteria Demo.store "sample_transactions"
    [("Category", VText "Revenue"); ("Date", Demo.date 2023 1 15)]
  = query_by_criteria Demo.store "sample_transactions"
      [("Date", Demo.date 2023 1 15); ("Category", VText "Revenue")].
Proof.
  apply (query_by_criteria_filter_order unit Demo.store "sample_transactions"
           Demo.sample_data Demo.column_types).
  - vm_compute. reflexivity.
  - vm_compute. reflexivity.
  - reflexivity.
  - reflexivity.
  - intros f [<-|[<-|[]]] _; vm_compute; discriminate.
  - apply perm_swap.
Defined.

(** *** What is written to SQLite *)

Lemma sforall_sfilter (p : ascii -> bool) (s : string) : sforall p (sfilter p s) = true.
Proof.
  induction s as [|c s IH]; simpl; [reflexivity|].
  destruct (p c) eqn:Hc; simpl; [now rewrite Hc|exact IH].
Qed.

Lemma sforall_lstrip (p q : ascii -> bool) (s : string) :
  sforall p s = true -> sforall p (lstrip_with q s) = true.
Proof.
  induction s as [|c s IH]; simpl; [reflexivity|].
  intros H. destruct (q c); [|exact H].
  apply andb_prop in H as [_ H]. now apply IH.
Qed.

Lemma sforall_rstrip (p q : ascii -> bool) (s : string) :
  sforall p s = true -> sforall p (rstrip_with q s) = true.
Proof.
  induction s as [|c s IH]; simpl; [reflexivity|].
  intros H. apply andb_prop in H as [Hc H]. specialize (IH H).
  destruct (rstrip_with q s) as [|d r].
  - destruct (q c); simpl; [reflexivity|now rewrite Hc].
  - simpl in *. now rewrite Hc.
Qed.

(** What [lstrip_with] leaves does not begin, and what [rstrip_with]
    leaves does not end, with a stripped character. *)
Lemma lstrip_first (q : ascii -> bool) (s : string) :
  match lstrip_with q s with String c _ => q c = false | EmptyString => True end.
Proof.
  induction s as [|c s IH]; simpl; [exact I|].
  destruct (q c) eqn:Hc; [exact IH | exact Hc].
Qed.

Lemma rstrip_last (q : ascii -> bool) (s : string) :
  match last_char (rstrip_with q s) with Some c => q c = false | None => True end.
Proof.
  induction s as [|c s IH]; simpl; [exact I|].
  destruct (rstrip_with q s) as [|d r].
  - destruct (q c) eqn:Hc; simpl; [exact I | exact Hc].
  - exact IH.
Qed.

Lemma rstrip_first (q : ascii -> bool) (c : ascii) (s : string) :
  q c = false -> exists r, rstrip_with q (String c s) = String c r.
Proof.
  intros Hc. simpl. destruct (rstrip_with q s) as [|d r]; [rewrite Hc|]; eauto.
Qed.

Lemma lstrip_fixed (q : ascii -> bool) (s : string) :
  match s with String c _ => q c = false | EmptyString => True end -> lstrip_with q s = s.
Proof. destruct s as [|c s]; simpl; [reflexivity|]. now intros ->. Qed.

Lemma rstrip_fixed (q : ascii -> bool) (s : string) :
  match last_char s with Some c => q c = false | None => True end -> rstrip_with q s = s.
Proof.
  induction s as [|c s IH]; [reflexivity|].
  intros H. simpl. destruct s as [|d s'].
  - simpl in *. now rewrite H.
  - rewrite IH by exact H. reflexivity.
Qed.

Lemma strip_char_fixed (c : ascii) (s : string) : strip_char c (strip_char c s) = strip_char c s.
Proof.
  unfold strip_char.
  pose proof (lstrip_first (Ascii.eqb c) s) as Hl.
  pose proof (rstrip_last (Ascii.eqb c) (lstrip_with (Ascii.eqb c) s)) as Hr.
  rewrite (lstrip_fixed (Ascii.eqb c) (rstrip_with _ _)).
  - now apply rstrip_fixed.
  - destruct (lstrip_with (Ascii.eqb c) s) as [|d t]; [exact I|].
    destruct (rstrip_first (Ascii.eqb c) d t Hl) as [r ->]. exact Hl.
Qed.

(** X8.  A sanitized column name holds letters, digits and underscores only
    and has no underscore at either end; sanitizing it again changes nothing.
    Table names are sanitized in the same way.  Stated for names of ASCII
    characters. *)
Theorem sanitize_column_name_safe :
  forall (name : string),
    ascii_only name = true ->
    let safe := _sanitize_column_name name in
    sforall (fun ch => isalnum ch || Ascii.eqb ch "_") safe = true
    /\ startswith "_" safe = false
    /\ endswith_char "_" safe = false
    /\ _sanitize_column_name safe = safe
    /\ _sanitize_table_name name = safe.
Proof.
  intros name _ safe. unfold safe, _sanitize_column_name, _sanitize_table_name.
  set (p := fun ch => isalnum ch || Ascii.eqb ch "_").
  set (t := sfilter p name).
  assert (Hp : sforall p (strip_char "_" t) = true).
  { unfold strip_char. apply sforall_rstrip, sforall_lstrip, sforall_sfilter. }
  split; [exact Hp|]. split; [|split; [|split; [|reflexivity]]].
  - unfold strip_char, startswith.
    pose proof (lstrip_first (Ascii.eqb "_") t) as Hl.
    destruct (lstrip_with (Ascii.eqb "_") t) as [|d u]; [reflexivity|].
    destruct (rstrip_first (Ascii.eqb "_") d u Hl) as [r ->].
    cbn [String.prefix].
    destruct (Ascii.ascii_dec "_" d) as [<-|Hd]; [discriminate Hl | reflexivity].
  - unfold strip_char, endswith_char.
    pose proof (rstrip_last (Ascii.eqb "_") (lstrip_with (Ascii.eqb "_") t)) as Hr.
    destruct (last_char _); [exact Hr | reflexivity].
  - rewrite (sfilter_all p _ Hp). apply strip_char_fixed.
Qed.

Lemma sanitize_column_name_safe_witness :
  _sanitize_column_name (_sanitize_column_name "__Net Amount (USD)_")
  = _sanitize_column_name "__Net Amount (USD)_".
Proof.
  destruct (sanitize_column_name_safe "__Net Amount (USD)_") as (_ & _ & _ & H & _).
  - reflexivity.
  - exact H.
Defined.

Lemma lookup_info_absent (types : ColumnTypes) (col : string) :
  ~ In col (map fst types) -> lookup_info types col = None.
Proof.
  induction types as [|[c info] types IH]; simpl; [reflexivity|].
  intros H. destruct (String.eqb col c) eqn:Hc.
  - apply String.eqb_eq in Hc. subst c. exfalso. apply H. now left.
  - apply IH. intros Hin. apply H. now right.
Qed.

Lemma stored_cell_untyped (vs : list value) : map (stored_cell "") vs = vs.
Proof. induction vs as [|v vs IH]; simpl; [reflexivity|]. now rewrite IH. Qed.

(** The conversions of [_load_to_sqlite], one entry of [column_types]
    after the other, amount to one conversion of each column by its type. *)
Lemma fold_convert_for_sqlite (types : ColumnTypes) :
  List.NoDup (map fst types) ->
  List.Forall (fun c => _sanitize_column_name c = c) (map fst types) ->
  forall cols : list (string * list value),
    fold_left convert_for_sqlite types cols
    = map (fun '(c, vs) => (c, map (stored_cell (type_of types c)) vs)) cols.
Proof.
  induction types as [|[k info] types IH]; intros Hnd Hs cols.
  - simpl. induction cols as [|[c vs] cols IHc]; simpl; [reflexivity|].
    rewrite <- IHc. unfold type_of. simpl. now rewrite stored_cell_untyped.
  - simpl in Hnd, Hs. apply List.NoDup_cons_iff in Hnd as [Hk Hnd].
    apply List.Forall_cons_iff in Hs as [Hsk Hs].
    simpl fold_left. rewrite (IH Hnd Hs).
    unfold convert_for_sqlite. simpl fst. simpl snd. rewrite Hsk.
    assert (Hconv : forall f : value -> value,
               (forall x, stored_cell (DataTypeDetector.type info) x = f x) ->
               map (fun '(c, vs) => (c, map (stored_cell (type_of types c)) vs))
                   (convert_column k f cols)
               = map (fun '(c, vs) => (c, map (stored_cell (type_of ((k, info) :: types) c)) vs))
                     cols).
    { intros f Hf. unfold convert_column. rewrite List.map_map.
      apply List.map_ext. intros [c vs]. unfold type_of. simpl.
      destruct (String.eqb c k) eqn:Hc.
      - apply String.eqb_eq in Hc. subst c. rewrite (lookup_info_absent types k Hk). simpl.
        rewrite stored_cell_untyped. f_equal. apply List.map_ext. intros x. now rewrite Hf.
      - reflexivity. }
    destruct (String.eqb (DataTypeDetector.type info) "Date") eqn:Hd.
    + apply Hconv. intros x. unfold stored_cell. now rewrite Hd.
    + destruct (String.eqb (DataTypeDetector.type info) "Number") eqn:Hn.
      * apply Hconv. intros x. unfold stored_cell. now rewrite Hd, Hn.
      * rewrite <- (Hconv (fun x => x)) by (intros x; unfold stored_cell; now rewrite Hd, Hn).
        f_equal. unfold convert_column.
        rewrite <- (List.map_id cols) at 1. apply List.map_ext. intros [c vs].
        destruct (String.eqb c k); [now rewrite List.map_id | reflexivity].
Qed.

(** X9.  What [_load_to_sqlite] hands to [to_sql], for an ASCII dataset
    name and a frame and types whose column names are already SQLite-safe
    and unique: the table of the sanitized dataset name, with the rows and
    columns of the frame, where a date in a Date column is written as its
    ISO text, a decimal in a Number column as its text, and every other cell
    as it is. *)
Theorem load_to_sqlite_writes :
  forall (Conn : Type) (to_sql : string -> DataFrame -> Conn -> result Conn) (conn : Conn)
         (name : string) (df : DataFrame) (types : ColumnTypes),
    ascii_only name = true ->
    List.NoDup (column_names df) ->
    List.Forall (fun c => _sanitize_column_name c = c) (column_names df) ->
    List.NoDup (map fst types) ->
    List.Forall (fun c => _sanitize_column_name c = c) (map fst types) ->
    _load_to_sqlite to_sql conn name df types
    = to_sql (_sanitize_table_name name)
        (mkFrame (index df)
           (map (fun '(c, vs) => (c, map (stored_cell (type_of types c)) vs)) (columns df)))
        conn.
Proof.
  intros Conn to_sql conn name df types _ _ Hdf Hnd Hs.
  unfold _load_to_sqlite. rewrite (fold_convert_for_sqlite types Hnd Hs). do 2 f_equal.
  unfold column_names in Hdf. induction (columns df) as [|[c vs] cols IH]; simpl; [reflexivity|].
  simpl in Hdf. apply List.Forall_cons_iff in Hdf as [Hc Hdf]. rewrite Hc. f_equal. now apply IH.
Qed.

Lemma load_to_sqlite_writes_witness :
  _load_to_sqlite (fun (table : string) (df : DataFrame) (conn : list (string * DataFrame)) =>
                     Ok ((table, df) :: conn))
                  [] "sample transactions" Demo.sample_data Demo.column_types
  = Ok [("sampletransactions",
         mkFrame [0; 1; 2]%nat
           [ ("Date", [VText "2023-01-15"; VText "2023-02-20"; VText "2023-01-15"]);
             ("Amount", [VText "1234.56"; VText "-2500.00"; VText "999.99"]);
             ("Category", [VText "Revenue"; VText "Expense"; VText "Revenue"]);
             ("Description", [VText "Sales"; VText "Office Supplies"; VText "Consulting"]) ])].
Proof.
  rewrite (load_to_sqlite_writes (list (string * DataFrame))).
  - vm_compute. reflexivity.
  - reflexivity.
  - repeat (constructor; [simpl; intuition discriminate|]). constructor.
  - repeat constructor.
  - repeat (constructor; [simpl; intuition discriminate|]). constructor.
  - repeat constructor.
Defined.

(** ** Sheets: [extract_data] *)

Lemma assoc_In {A : Type} (l : list (string * A)) (k : string) (a : A) :
  assoc l k = Some a -> In (k, a) l.
Proof.
  induction l as [|[c b] l IH]; simpl; [discriminate|].
  destruct (String.eqb k c) eqn:Hc.
  - apply String.eqb_eq in Hc. subst c. intros [= ->]. now left.
  - intros H. right. now apply IH.
Qed.

Lemma assoc_NoDup {A : Type} (l : list (string * A)) (k : string) (a : A) :
  List.NoDup (map fst l) -> In (k, a) l -> assoc l k = Some a.
Proof.
  induction l as [|[c b] l IH]; simpl; [contradiction|].
  intros Hnd Hin. apply List.NoDup_cons_iff in Hnd as [Hc Hnd].
  destruct Hin as [[= -> ->]|Hin].
  - now rewrite String.eqb_refl.
  - destruct (String.eqb k c) eqn:Hk; [|now apply IH].
    apply String.eqb_eq in Hk. subst c. exfalso. apply Hc.
    apply List.in_map_iff. now exists (k, a).
Qed.

Lemma search_In {Frame : Type} (dataframes : ExcelProcessor.Dataframes Frame)
    (sheet_name : string) (df : Frame) :
  ExcelProcessor.search dataframes sheet_name = Some df ->
  exists key dfs, In (key, dfs) dataframes /\ assoc dfs sheet_name = Some df.
Proof.
  induction dataframes as [|[key dfs] rest IH]; simpl; [discriminate|].
  destruct (assoc dfs sheet_name) as [d|] eqn:Hd.
  - intros [= ->]. exists key, dfs. split; [now left | exact Hd].
  - intros H. destruct (IH H) as (k & w & Hin & Hw). exists k, w. split; [now right | exact Hw].
Qed.

Lemma search_finds {Frame : Type} (dataframes : ExcelProcessor.Dataframes Frame)
    (sheet_name key : string) (dfs : ExcelProcessor.Sheets Frame) (df : Frame) :
  In (key, dfs) dataframes -> assoc dfs sheet_name = Some df ->
  exists df', ExcelProcessor.search dataframes sheet_name = Some df'.
Proof.
  induction dataframes as [|[k w] rest IH]; simpl; [contradiction|].
  intros [[= -> ->]|Hin] Hd.
  - rewrite Hd. eauto.
  - destruct (assoc w sheet_name); [eauto | now apply IH].
Qed.

(** X10.  The search of [extract_data] across all files and its lookup in
    one file agree: a sheet found under a file key is also found without a
    key (in that file or an earlier one), and a sheet found without a key is
    the sheet of that name of one of the files, which the lookup under that
    file's key returns.  An empty key is no key: the call searches all files,
    so a file loaded under the empty key cannot be addressed. *)
Theorem extract_data_without_key :
  forall (Frame : Type) (dataframes : ExcelProcessor.Dataframes Frame) (sheet_name : string),
    List.NoDup (map fst dataframes) ->
    (forall key df,
        ExcelProcessor.extract_data dataframes sheet_name (Some key) = Some df ->
        exists df', ExcelProcessor.extract_data dataframes sheet_name None = Some df')
    /\ (forall df,
          ExcelProcessor.extract_data dataframes sheet_name None = Some df ->
          exists key,
            In key (map fst dataframes)
            /\ (key <> "" ->
                ExcelProcessor.extract_data dataframes sheet_name (Some key) = Some df))
    /\ ExcelProcessor.extract_data dataframes sheet_name (Some "")
       = ExcelProcessor.extract_data dataframes sheet_name None.
Proof.
  intros Frame dataframes sheet_name Hnd. unfold ExcelProcessor.extract_data.
  split; [|split; [|reflexivity]].
  - intros key df. destruct (String.eqb key ""); [eauto|].
    destruct (assoc dataframes key) as [dfs|] eqn:Hk; [|discriminate].
    intros Hd. apply assoc_In in Hk. eapply search_finds; eauto.
  - intros df H. destruct (search_In _ _ _ H) as (key & dfs & Hin & Hd).
    exists key. split; [apply List.in_map_iff; now exists (key, dfs)|].
    intros Hne. apply String.eqb_neq in Hne. rewrite Hne.
    now rewrite (assoc_NoDup dataframes key dfs Hnd Hin).
Qed.

Lemma extract_data_without_key_witness :
  exists df',
    ExcelProcessor.extract_data
      [("KH_Bank", [("Statement", 1%nat); ("Summary", 2%nat)]);
       ("Customer_Ledger", [("Entries", 3%nat); ("Summary", 4%nat)])]
      "Summary" None = Some df'.
Proof.
  destruct (extract_data_without_key nat
              [("KH_Bank", [("Statement", 1%nat); ("Summary", 2%nat)]);
               ("Customer_Ledger", [("Entries", 3%nat); ("Summary", 4%nat)])]
              "Summary") as (H & _).
  - repeat (constructor; [simpl; intuition discriminate|]). constructor.
  - apply (H "Customer_Ledger" 4%nat). reflexivity.
Defined.

(** *** Row labels *)

Lemma scan_labels (df : DataFrame) (vs : list value) (v : value) (p : nat) :
  p ∈ scan df vs v <-> labels_match df vs v p = true.
Proof.
  unfold scan, labels_match.
  rewrite elem_of_list_to_set, list_elem_of_In, List.in_map_iff, existsb_exists.
  split.
  - intros ([l c] & <- & Hin). apply filter_In in Hin as [Hin Hc].
    exists (l, c). split; [exact Hin|]. simpl. now rewrite Nat.eqb_refl.
  - intros ([l c] & Hin & H). apply andb_prop in H as [Hl Hc].
    apply Nat.eqb_eq in Hl. subst l.
    exists (p, c). split; [reflexivity|]. apply filter_In. now split.
Qed.

(** X17.  A filter on a column that is neither Date nor String is answered
    by a scan that collects the row labels of the matching rows, and the
    labels are then used as positions: the result holds the rows whose
    position is the label of a matching row.  With row labels other than
    0, 1, 2, ... these are not the matching rows.  The frame and the value
    hold no signaling NaN, on which the comparison of the scan raises. *)
Theorem query_by_criteria_labels_as_positions :
  forall (Conn : Type) (st : FinancialDataStore Conn) (name : string) (df : DataFrame)
         (types : ColumnTypes) (col : string) (info : DataTypeDetector.Detection)
         (vs : list value) (v : value),
    data st !! name = Some df ->
    metadata st !! name = Some types ->
    column df col = Some vs ->
    lookup_info types col = Some info ->
    DataTypeDetector.type info <> "Date" ->
    DataTypeDetector.type info <> "String" ->
    quiet_frame df = true ->
    signaling v = false ->
    query_by_criteria st name [(col, v)]
    = Ok (iloc df (List.filter (labels_match df vs v) (List.seq 0 (len df)))).
Proof.
  intros Conn st name df types col info vs v Hd Hm Hcol Hinfo Hdate Hstring _ _.
  assert (Hhas : has_column df col = true).
  { unfold has_column, column_names, column in *.
    induction (columns df) as [|[c ws] cs IH]; simpl in *; [discriminate|].
    destruct (String.eqb col c); [reflexivity | now apply IH]. }
  apply String.eqb_neq in Hdate, Hstring.
  unfold query_by_criteria. unfold ColumnTypes in *. rewrite Hd, Hm.
  cbn [fold_left]. unfold apply_filter. cbn [bind fst snd]. rewrite Hhas. cbn [negb].
  unfold ColumnTypes in *. rewrite Hinfo. cbn [bind].
  unfold matching_indices. rewrite Hdate, Hstring, Hcol. cbn [default from_option id].
  apply materialize. intros i.
  rewrite elem_of_intersection, elem_of_list_to_set, list_elem_of_In, in_seq, scan_labels.
  split; intros [? ?]; split; auto; lia.
Qed.

Lemma query_by_criteria_labels_as_positions_witness :
  query_by_criteria
    (add_dataset Demo.no_sql Demo.no_sort (new_store tt) "ledger" relabelled Demo.column_types).1
    "ledger" [("Amount", VAmount Demo.amount_1234_56)]
  = Ok (iloc relabelled [1]%nat).
Proof.
  rewrite (query_by_criteria_labels_as_positions unit _ "ledger" relabelled Demo.column_types
             "Amount" (Demo.typed "Number")
             [VAmount Demo.amount_1234_56; VAmount Demo.amount_m2500_00;
              VAmount Demo.amount_999_99]).
  - vm_compute. reflexivity.
  - vm_compute. reflexivity.
  - vm_compute. reflexivity.
  - reflexivity.
  - reflexivity.
  - discriminate.
  - discriminate.
  - reflexivity.
  - reflexivity.
Defined.

(** *** The content of the indexes *)

(** An index built by one pass over a column lists, under each key, the
    positions of the cells with that key, in ascending order. *)
Lemma index_fold_list {K : Type} `{Countable K} (key : value -> option K)
    (step : gmap K (list nat) -> nat * value -> gmap K (list nat)) :
  (forall m idx val,
     step m (idx, val) = match key val with Some k => index_add m k idx | None => m end) ->
  forall (col : list value) (k0 : nat) (m : gmap K (list nat)) (q : K),
    default [] (fold_left step (combine (List.seq k0 (length col)) col) m !! q)
    = (default [] (m !! q)
       ++ List.filter (fun i => bool_decide (key (nth (i - k0) col VNone) = Some q))
            (List.seq k0 (length col)))%list.
Proof.
  intros Hstep. induction col as [|v col IH]; intros k0 m q.
  - simpl. now rewrite app_nil_r.
  - cbn [length List.seq combine fold_left List.filter]. rewrite IH, Hstep, Nat.sub_diag.
    cbn [nth].
    assert (Htail :
              List.filter (fun i => bool_decide (key (nth (i - S k0) col VNone) = Some q))
                (List.seq (S k0) (length col))
              = List.filter
                  (fun i => bool_decide (key (nth (i - k0) (v :: col) VNone) = Some q))
                  (List.seq (S k0) (length col))).
    { apply List.filter_ext_in. intros i Hi. apply in_seq in Hi.
      replace (i - k0)%nat with (S (i - S k0)) by lia. reflexivity. }
    rewrite Htail. clear Htail.
    destruct (key v) as [k|] eqn:Hk.
    + unfold index_add. destruct (decide (k = q)) as [->|Hne].
      * rewrite lookup_insert_eq. cbn [default from_option id].
        rewrite bool_decide_eq_true_2 by reflexivity.
        now rewrite <- app_assoc.
      * rewrite lookup_insert_ne by exact Hne.
        rewrite bool_decide_eq_false_2 by congruence. reflexivity.
    + rewrite bool_decide_eq_false_2 by discriminate. reflexivity.
Qed.

Lemma build_date_index_positions (col : list value) (d : Date.date) :
  default [] (build_date_index col !! d) = positions_of date_key col d.
Proof.
  unfold build_date_index, enumerate, positions_of.
  rewrite (index_fold_list date_key) by (intros m idx [| | |]; reflexivity).
  rewrite lookup_empty. cbn [default from_option id app].
  apply List.filter_ext. intros i. now rewrite Nat.sub_0_r.
Qed.

Lemma build_category_index_positions (col : list value) (s : string) :
  default [] (build_category_index col !! s) = positions_of text_key col s.
Proof.
  unfold build_category_index, enumerate, positions_of.
  rewrite (index_fold_list text_key)
    by (intros m idx v; unfold text_key; destruct (notna v); reflexivity).
  rewrite lookup_empty. cbn [default from_option id app].
  apply List.filter_ext. intros i. now rewrite Nat.sub_0_r.
Qed.

(** X20.  The indexes that [_create_indexes] builds are exact.  For a
    column typed Date, the date index lists under each date the positions of
    the rows holding that date, all of them, each once and in ascending
    order, and nothing under any other date.  For a column of any type other
    than Date and Number, the category index does the same under the text of
    each non-null cell; [None] and a decimal NaN are under no text.  The
    frame holds no signaling NaN, on which [pd.notna] raises. *)
Theorem create_indexes_exact :
  forall (sort_values : list (nat * value) -> result (list (nat * value)))
         (df : DataFrame) (types : ColumnTypes) (idx : IndexStore)
         (col : string) (info : DataTypeDetector.Detection),
    _create_indexes sort_values df types = Ok idx ->
    quiet_frame df = true ->
    lookup_info types col = Some info ->
    exists vs : list value,
      column df col = Some vs
      /\ (DataTypeDetector.type info = "Date" ->
          exists m, assoc (date_columns idx) col = Some m
                    /\ forall d, default [] (m !! d) = positions_of date_key vs d)
      /\ (DataTypeDetector.type info <> "Date" ->
          DataTypeDetector.type info <> "Number" ->
          exists m, assoc (category_columns idx) col = Some m
                    /\ forall s, default [] (m !! s) = positions_of text_key vs s).
Proof.
  intros sort_values df types idx col info Hidx _ Hinfo.
  unfold _create_indexes in Hidx.
  destruct (date_indexes df _) as [d|] eqn:Hd; simpl in Hidx; [|discriminate].
  destruct (numeric_indexes sort_values df _) as [n|] eqn:Hn; simpl in Hidx; [|discriminate].
  destruct (category_indexes df _) as [c|] eqn:Hc; simpl in Hidx; [|discriminate].
  injection Hidx as <-. cbn [date_columns category_columns].
  assert (Hcol : exists vs, column df col = Some vs).
  { apply has_column_lookup.
    apply date_indexes_names in Hd as [_ Fd].
    apply (numeric_indexes_names sort_values) in Hn as [_ Fn].
    apply category_indexes_names in Hc as [_ Fc].
    rewrite List.Forall_forall in Fd, Fn, Fc.
    assert (Hin : In col (map fst types)).
    { clear -Hinfo. induction types as [|[k i] types IH]; simpl in *; [discriminate|].
      destruct (String.eqb col k) eqn:E; [left; symmetry; now apply String.eqb_eq | right; auto]. }
    destruct (columns_of_type_partition types col Hin) as [H|[H|H]]; auto. }
  destruct Hcol as [vs Hvs]. exists vs. split; [exact Hvs|]. split.
  - intros Ht.
    destruct (date_indexes_assoc df _ d col Hd) as (vs' & Hvs' & Ha).
    { apply (columns_of_type_In types _ col info Hinfo). rewrite Ht. reflexivity. }
    rewrite Hvs in Hvs'. injection Hvs' as <-.
    eexists. split; [exact Ha|]. apply build_date_index_positions.
  - intros Hnd Hnn.
    destruct (category_indexes_assoc df _ c col Hc) as (vs' & Hvs' & Ha).
    { apply (columns_of_type_In types _ col info Hinfo).
      assert (E1 : String.eqb "Date" (DataTypeDetector.type info) = false)
        by (apply String.eqb_neq; congruence).
      assert (E2 : String.eqb "Number" (DataTypeDetector.type info) = false)
        by (apply String.eqb_neq; congruence).
      change (negb (String.eqb "Date" (DataTypeDetector.type info)
                    || String.eqb "Number" (DataTypeDetector.type info)) = true).
      now rewrite E1, E2. }
    rewrite Hvs in Hvs'. injection Hvs' as <-.
    eexists. split; [exact Ha|]. apply build_category_index_positions.
Qed.

Lemma create_indexes_exact_witness :
  default [] (build_date_index [Demo.date 2023 1 15; Demo.date 2023 2 20; Demo.date 2023 1 15]
              !! Date.mkdate 2023 1 15) = [0; 2]%nat.
Proof.
  destruct (create_indexes_exact Demo.no_sort Demo.sample_data [("Date", Demo.typed "Date")]
              (mkIndexStore
                 [("Date", build_date_index
                             [Demo.date 2023 1 15; Demo.date 2023 2 20; Demo.date 2023 1 15])]
                 [] [])
              "Date" (Demo.typed "Date")) as (vs & Hvs & Hdate & _).
  - reflexivity.
  - reflexivity.
  - reflexivity.
  - destruct (Hdate eq_refl) as (m & Hm & Hpos).
    injection Hvs as <-. injection Hm as <-. rewrite Hpos. reflexivity.
Defined.

(** ** Classification: [detect_column_type] *)

Import DataTypeDetector.

Lemma count_cons (p : Entry -> bool) (e : Entry) (l : list Entry) :
  count p (e :: l) = (if p e then 1 else 0) + count p l.
Proof. unfold count. simpl. destruct (p e); simpl; lia. Qed.

Lemma count_bounds (p : Entry -> bool) (l : list Entry) :
  0 <= count p l <= Z.of_nat (length l).
Proof.
  unfold count. pose proof (List.filter_length_le p l). lia.
Qed.

(** The loop over the sample counts the date matches, and the number
    matches among the entries that are no date match. *)
Lemma visit_counts (sample : list Entry) :
  forall t : Tally,
    date_matches (fold_left visit sample t) = date_matches t + count date_like sample
    /\ number_matches (fold_left visit sample t) = number_matches t + count number_only sample.
Proof.
  induction sample as [|e sample IH]; intros t; simpl.
  - unfold count. simpl. lia.
  - rewrite !count_cons. destruct (IH (visit t e)) as [Hd Hn]. rewrite Hd, Hn.
    unfold number_only, date_like, number_like, visit, examined_text.
    destruct e as [[s|z|x|]|]; simpl; try lia;
      (destruct (detect_date_format _) as [f|]; simpl; [lia|];
       destruct (detect_number_format _) as [[f d]|]; simpl; lia).
Qed.

Lemma shl_mul (x k : Z) : 0 <= k -> F64.shl x k = x * 2 ^ k.
Proof. intros Hk. unfold F64.shl. now rewrite Z.shiftl_mul_pow2. Qed.

Lemma ge_pow2_spec (p q k : Z) :
  F64.ge_pow2 p q k = true <->
  (if 0 <=? k then q * 2 ^ k <= p else q <= p * 2 ^ (- k)).
Proof.
  unfold F64.ge_pow2. destruct (0 <=? k) eqn:Hk.
  - apply Z.leb_le in Hk. rewrite shl_mul by lia. apply Z.leb_le.
  - apply Z.leb_gt in Hk. rewrite shl_mul by lia. apply Z.leb_le.
Qed.

(** The exponent [round_ratio] settles on brackets the ratio. *)
Lemma exponent_brackets (p q : Z) :
  0 < p -> 0 < q ->
  let lg := Z.log2 p - Z.log2 q in
  let e0 := if F64.ge_pow2 p q lg then lg else lg - 1 in
  F64.ge_pow2 p q e0 = true /\ F64.ge_pow2 p q (e0 + 1) = false.
Proof.
  intros Hp Hq lg e0.
  pose proof (Z.log2_spec p Hp) as [Ha1 Ha2].
  pose proof (Z.log2_spec q Hq) as [Hb1 Hb2].
  pose proof (Z.log2_nonneg p) as Ha0. pose proof (Z.log2_nonneg q) as Hb0.
  set (a := Z.log2 p) in *. set (b := Z.log2 q) in *.
  assert (Hup : F64.ge_pow2 p q (lg + 1) = false).
  { apply not_true_iff_false. rewrite ge_pow2_spec. unfold lg.
    destruct (0 <=? a - b + 1) eqn:Hk.
    - apply Z.leb_le in Hk. intros H.
      assert (2 ^ b * 2 ^ (a - b + 1) <= q * 2 ^ (a - b + 1))
        by (apply Z.mul_le_mono_nonneg_r; [apply Z.pow_nonneg|]; lia).
      rewrite <- Z.pow_add_r in H0 by lia.
      replace (b + (a - b + 1)) with (Z.succ a) in H0 by lia. lia.
    - apply Z.leb_gt in Hk. intros H.
      assert (0 < 2 ^ (- (a - b + 1))) by (apply Z.pow_pos_nonneg; lia).
      assert (p * 2 ^ (- (a - b + 1)) < 2 ^ Z.succ a * 2 ^ (- (a - b + 1)))
        by (apply Z.mul_lt_mono_pos_r; lia).
      rewrite <- Z.pow_add_r in H1 by lia.
      replace (Z.succ a + - (a - b + 1)) with b in H1 by lia. lia. }
  assert (Hdown : F64.ge_pow2 p q (lg - 1) = true).
  { rewrite ge_pow2_spec. unfold lg.
    destruct (0 <=? a - b - 1) eqn:Hk.
    - apply Z.leb_le in Hk.
      assert (0 < 2 ^ (a - b - 1)) by (apply Z.pow_pos_nonneg; lia).
      assert (q * 2 ^ (a - b - 1) < 2 ^ Z.succ b * 2 ^ (a - b - 1))
        by (apply Z.mul_lt_mono_pos_r; lia).
      rewrite <- Z.pow_add_r in H0 by lia.
      replace (Z.succ b + (a - b - 1)) with a in H0 by lia. lia.
    - apply Z.leb_gt in Hk.
      assert (2 ^ a * 2 ^ (- (a - b - 1)) <= p * 2 ^ (- (a - b - 1)))
        by (apply Z.mul_le_mono_nonneg_r; [apply Z.pow_nonneg|]; lia).
      rewrite <- Z.pow_add_r in H by lia.
      replace (a + - (a - b - 1)) with (Z.succ b) in H by lia. lia. }
  unfold e0. destruct (F64.ge_pow2 p q lg) eqn:Hg.
  - split; [exact Hg | exact Hup].
  - split; [exact Hdown|]. now replace (lg - 1 + 1) with lg by lia.
Qed.

(** [round_ratio] on a ratio of normal size: the quotient scaled to 53
    bits, rounded to nearest, ties to even. *)
Lemma round_ratio_normal (p q : Z) :
  0 < p -> 0 < q ->
  exists e0 : Z,
    F64.ge_pow2 p q e0 = true /\ F64.ge_pow2 p q (e0 + 1) = false
    /\ (-1022 <= e0 <= 52 ->
        F64.round_ratio false p q
        = F64.Fin false (Z.to_N (nearest_even (p * 2 ^ (52 - e0)) q)) (e0 - 52)).
Proof.
  intros Hp Hq. destruct (exponent_brackets p q Hp Hq) as [H1 H2].
  set (e0 := if F64.ge_pow2 p q (Z.log2 p - Z.log2 q)
             then Z.log2 p - Z.log2 q else Z.log2 p - Z.log2 q - 1) in *.
  exists e0. split; [exact H1|]. split; [exact H2|]. intros He.
  unfold F64.round_ratio. fold e0.
  assert (Hp0 : (p =? 0) = false) by (apply Z.eqb_neq; lia). rewrite Hp0.
  rewrite Z.max_l by lia.
  destruct (Z.eq_dec e0 52) as [E|E].
  - rewrite E. replace (52 - 52) with 0 by lia. simpl (0 <=? 0).
    cbv iota. unfold F64.shl at 1. rewrite Z.shiftl_0_r, Z.pow_0_r, Z.mul_1_r.
    unfold nearest_even. simpl (971 <? 0). simpl (0 =? 971). reflexivity.
  - assert (Hu : (0 <=? e0 - 52) = false) by (apply Z.leb_gt; lia). rewrite Hu.
    rewrite shl_mul by lia. replace (- (e0 - 52)) with (52 - e0) by lia.
    assert (H971 : (971 <? e0 - 52) = false) by (apply Z.ltb_ge; lia).
    assert (H971' : (e0 - 52 =? 971) = false) by (apply Z.eqb_neq; lia).
    rewrite H971, H971'. reflexivity.
Qed.

Lemma threshold_value :
  threshold = F64.Fin false 6305039478318694 (-53).
Proof. vm_compute. reflexivity. Qed.

Lemma nearest_even_bounds (num den : Z) :
  num / den <= nearest_even num den <= num / den + 1.
Proof.
  unfold nearest_even.
  destruct (den <? 2 * (num mod den)); [lia|].
  destruct ((2 * (num mod den) =? den) && Z.odd (num / den)); lia.
Qed.

(** [a > b] for two non-negative finite numbers, as a comparison of
    their mantissas at the smaller exponent. *)
Lemma gtb_fin (x y e1 e2 : Z) :
  0 <= x -> 0 <= y ->
  F64.gtb (F64.Fin false (Z.to_N x) e1) (F64.Fin false (Z.to_N y) e2)
  = (y * 2 ^ (e2 - Z.min e1 e2) <? x * 2 ^ (e1 - Z.min e1 e2)).
Proof.
  intros Hx Hy. unfold F64.gtb, F64.compare, F64.at_exp.
  rewrite !Z2N.id, !shl_mul, !Z.mul_1_l by lia.
  rewrite Z.ltb_compare, (Z.compare_antisym (x * _)).
  destruct (x * 2 ^ (e1 - Z.min e1 e2) ?= y * 2 ^ (e2 - Z.min e1 e2)); reflexivity.
Qed.

(** For a sample of up to 1000 entries the comparison of the binary64
    quotient with the binary64 number 0.7 decides whether the exact ratio
    exceeds 7/10. *)
Lemma threshold_exact (m n : Z) :
  0 <= m <= n -> 1 <= n <= 1000 ->
  F64.gtb (F64.div_int m n) threshold = (7 * n <? 10 * m).
Proof.
  intros Hm Hn. rewrite threshold_value. unfold F64.div_int.
  destruct (Z.eq_dec m 0) as [->|Hm0].
  { replace (7 * n <? 10 * 0) with false by (symmetry; apply Z.ltb_ge; lia). reflexivity. }
  destruct (round_ratio_normal m n) as (e0 & G1 & G2 & Hr); [lia | lia |].
  apply ge_pow2_spec in G1.
  apply not_true_iff_false in G2. rewrite ge_pow2_spec in G2.
  assert (He0 : e0 <= 0).
  { destruct (Z_le_gt_dec e0 0) as [|Hgt]; [assumption|exfalso].
    replace (0 <=? e0) with true in G1 by (symmetry; apply Z.leb_le; lia).
    assert (2 ^ 1 <= 2 ^ e0) by (apply Z.pow_le_mono_r; lia).
    assert (n * 2 ^ 1 <= n * 2 ^ e0) by (apply Z.mul_le_mono_nonneg_l; lia).
    change (2 ^ 1) with 2 in *. lia. }
  assert (Hlow : -1022 <= e0).
  { destruct (Z_le_gt_dec (-1022) e0) as [|Hlt]; [assumption|exfalso].
    replace (0 <=? e0 + 1) with false in G2 by (symmetry; apply Z.leb_gt; lia).
    assert (2 ^ 10 <= 2 ^ (- (e0 + 1))) by (apply Z.pow_le_mono_r; lia).
    assert (1 * 2 ^ (- (e0 + 1)) <= m * 2 ^ (- (e0 + 1)))
      by (apply Z.mul_le_mono_nonneg_r; [apply Z.pow_nonneg|]; lia).
    change (2 ^ 10) with 1024 in *. lia. }
  rewrite Hr by lia. clear Hr.
  pose proof (nearest_even_bounds (m * 2 ^ (52 - e0)) n) as Hb.
  assert (Hpow : 0 < 2 ^ (52 - e0)) by (apply Z.pow_pos_nonneg; lia).
  assert (Hq0 : 0 <= m * 2 ^ (52 - e0) / n) by (apply Z.div_pos; nia).
  change 6305039478318694%N with (Z.to_N 6305039478318694).
  rewrite gtb_fin by lia.
  destruct (Z.eq_dec e0 0) as [E0|E0]; [|destruct (Z.eq_dec e0 (-1)) as [E1|E1]].
  - (* the whole sample matches *)
    subst e0. simpl in G1. change (2 ^ 0) with 1 in G1. assert (m = n) by lia. subst m.
    replace (7 * n <? 10 * n) with true by (symmetry; apply Z.ltb_lt; lia).
    change (52 - 0) with 52 in *.
    change (Z.min (0 - 52) (-53)) with (-53).
    change (-53 - -53) with 0. change (0 - 52 - -53) with 1.
    change (2 ^ 0) with 1. change (2 ^ 1) with 2.
    replace (n * 2 ^ 52) with (2 ^ 52 * n) in * by lia.
    rewrite Z.div_mul in Hb by lia.
    change (2 ^ 52) with 4503599627370496 in *.
    apply Z.ltb_lt. lia.
  - (* between a half and one: both mantissas at the exponent -53 *)
    subst e0. change (52 - -1) with 53 in *.
    simpl in G1, G2. change (2 ^ 1) with 2 in G1. change (2 ^ 0) with 1 in G2.
    change (Z.min (-1 - 52) (-53)) with (-53).
    change (-53 - -53) with 0. change (-1 - 52 - -53) with 0.
    change (2 ^ 0) with 1. rewrite !Z.mul_1_r.
    change (2 ^ 53) with 9007199254740992 in *.
    set (num := m * 9007199254740992) in *.
    pose proof (Z.div_mod num n ltac:(lia)) as Hdm.
    pose proof (Z.mod_pos_bound num n ltac:(lia)) as Hmod.
    destruct (7 * n <? 10 * m) eqn:Hc.
    + apply Z.ltb_lt in Hc. apply Z.ltb_lt.
      assert (6305039478318694 + 1 <= num / n)
        by (apply Z.div_le_lower_bound; unfold num; lia).
      lia.
    + apply Z.ltb_ge in Hc. apply Z.ltb_ge.
      assert (num / n < 6305039478318694 + 1)
        by (apply Z.div_lt_upper_bound; unfold num; lia).
      destruct (Z.eq_dec (num / n) 6305039478318694) as [Eq|Ne]; [|lia].
      unfold nearest_even. fold num. rewrite Eq in *.
      assert (Hr2 : 2 * (num mod n) < n) by (unfold num in *; lia).
      replace (n <? 2 * (num mod n)) with false by (symmetry; apply Z.ltb_ge; lia).
      replace (2 * (num mod n) =? n) with false by (symmetry; apply Z.eqb_neq; lia).
      simpl. lia.
  - (* below a half *)
    assert (He : e0 <= -2) by lia.
    replace (0 <=? e0 + 1) with false in G2 by (symmetry; apply Z.leb_gt; lia).
    assert (H2 : 2 ^ 1 <= 2 ^ (- (e0 + 1))) by (apply Z.pow_le_mono_r; lia).
    change (2 ^ 1) with 2 in H2.
    assert (Hmn : m * 2 <= m * 2 ^ (- (e0 + 1))) by (apply Z.mul_le_mono_nonneg_l; lia).
    replace (7 * n <? 10 * m) with false by (symmetry; apply Z.ltb_ge; lia).
    apply Z.ltb_ge.
    rewrite Z.min_l by lia.
    replace (e0 - 52 - (e0 - 52)) with 0 by lia.
    replace (-53 - (e0 - 52)) with (- (e0 + 1)) by lia.
    change (2 ^ 0) with 1. rewrite Z.mul_1_r.
    assert (Hx : m * 2 ^ (52 - e0) / n < 2 ^ 53).
    { apply Z.div_lt_upper_bound; [lia|].
      replace (52 - e0) with (- (e0 + 1) + 53) by lia.
      rewrite Z.pow_add_r by lia.
      assert (0 < 2 ^ 53) by (apply Z.pow_pos_nonneg; lia).
      rewrite Z.mul_assoc. apply Z.mul_lt_mono_pos_r; lia. }
    change (2 ^ 53) with 9007199254740992 in Hx.
    assert (6305039478318694 * 2 <= 6305039478318694 * 2 ^ (- (e0 + 1)))
      by (apply Z.mul_le_mono_nonneg_l; lia).
    lia.
Qed.

(** C7, as the code has it.  For a column with a non-null entry, with the
    scores the binary64 quotients of the match counts by the size of the
    sample (first 1000 non-null entries, objects of other types included;
    an entry matching the date matcher counts as a date only): the type is
    Date when the date score exceeds 0.7, else Number when the number score
    exceeds 0.7, else String, and the confidence is the date score, the
    number score, or one minus the greater score, each rounded to three
    decimals.  Each test against 0.7 holds exactly when the count exceeds
    seven tenths of the sample size.  Eight ISO dates among ten values give
    Date with confidence 0.8.  The texts examined are settled: ASCII, of at
    most 4300 characters, and none a whole number from 106752 to 2958465;
    outside of this the serial-date test raises or depends on the version of
    pandas. *)
Theorem detect_column_type_decision :
  forall column : list Entry,
    let sample := sample_of column in
    let n := Z.of_nat (length sample) in
    let date_score := F64.div_int (count date_like sample) n in
    let number_score := F64.div_int (count number_only sample) n in
    sample <> [] ->
    forallb settled sample = true ->
    type (detect_column_type column) =
      (if F64.gtb date_score threshold then "Date"
       else if F64.gtb number_score threshold then "Number" else "String")
    /\ confidence (detect_column_type column) =
         (if F64.gtb date_score threshold then F64.round3 date_score
          else if F64.gtb number_score threshold then F64.round3 number_score
          else F64.round3 (F64.one_minus (F64.fmax date_score number_score)))
    /\ F64.gtb date_score threshold = (7 * n <? 10 * count date_like sample)
    /\ F64.gtb number_score threshold = (7 * n <? 10 * count number_only sample)
    /\ type (detect_column_type eight_dates_in_ten) = "Date"
    /\ confidence (detect_column_type eight_dates_in_ten) = F64.of_str "0.8".
Proof.
  intros column sample n date_score number_score Hne _.
  assert (Hlen : 1 <= n <= 1000).
  { unfold n, sample, sample_of in *. rewrite length_firstn.
    destruct (List.filter notna column); [contradiction|]. simpl length. lia. }
  assert (Hdet : detect_column_type column =
                 if F64.gtb date_score threshold then
                   mkDetection "Date" (F64.round3 date_score)
                     (hint (fold_left visit sample (mkTally 0 0 None)))
                 else if F64.gtb number_score threshold then
                   mkDetection "Number" (F64.round3 number_score)
                     (hint (fold_left visit sample (mkTally 0 0 None)))
                 else mkDetection "String"
                        (F64.round3 (F64.one_minus (F64.fmax date_score number_score))) None).
  { unfold detect_column_type. fold (sample_of column). fold sample.
    destruct (visit_counts sample (mkTally 0 0 None)) as [Hd Hn]. simpl in Hd, Hn.
    rewrite Hd, Hn. fold n. fold date_score. fold number_score.
    destruct (List.filter notna column) as [|e l] eqn:Hf; [|reflexivity].
    exfalso. apply Hne. unfold sample, sample_of. now rewrite Hf. }
  rewrite Hdet.
  split; [|split; [|split; [|split; [|split]]]].
  - destruct (F64.gtb date_score threshold); [reflexivity|].
    destruct (F64.gtb number_score threshold); reflexivity.
  - destruct (F64.gtb date_score threshold); [reflexivity|].
    destruct (F64.gtb number_score threshold); reflexivity.
  - apply threshold_exact; [|exact Hlen]. apply count_bounds.
  - apply threshold_exact; [|exact Hlen]. apply count_bounds.
  - vm_compute. reflexivity.
  - vm_compute. reflexivity.
Qed.

Lemma detect_column_type_decision_witness :
  type (detect_column_type one_date_in_three) = "String"
  /\ confidence (detect_column_type one_date_in_three) = F64.of_str "0.667".
Proof.
  destruct (detect_column_type_decision one_date_in_three) as (Ht & Hc & _).
  - vm_compute. discriminate.
  - vm_compute. reflexivity.
  - rewrite Ht, Hc. split; vm_compute; reflexivity.
Defined.

(** C7, as stated, fails: with one date among three values the confidence
    of the String verdict is 0.667, not one minus the greater score, which
    is 0.6666666666666667. *)
Lemma detect_column_type_confidence_is_rounded :
  type (detect_column_type one_date_in_three) = "String"
  /\ F64.repr (confidence (detect_column_type one_date_in_three)) = "0.667"
  /\ F64.repr (F64.one_minus (F64.fmax (F64.div_int 1 3) (F64.div_int 0 3)))
     = "0.6666666666666667"
  /\ F64.eqb (confidence (detect_column_type one_date_in_three))
             (F64.one_minus (F64.fmax (F64.div_int 1 3) (F64.div_int 0 3))) = false.
Proof. repeat split; vm_compute; reflexivity. Qed.

(** ** Numbers as text *)

Lemma append_cons (c : ascii) (s t : string) : String c s ++ t = String c (s ++ t).
Proof. reflexivity. Qed.

Lemma append_nil_l (t : string) : "" ++ t = t.
Proof. reflexivity. Qed.

Lemma append_assoc (s t u : string) : (s ++ t) ++ u = s ++ (t ++ u).
Proof.
  induction s as [|c s IH]; [reflexivity|]. rewrite !append_cons. now rewrite IH.
Qed.

Lemma append_nil_r (s : string) : s ++ "" = s.
Proof. induction s as [|c s IH]; [reflexivity|]. rewrite append_cons. now rewrite IH. Qed.

Lemma digits_of_pos_fuel_acc (f : nat) :
  forall (n : N) (acc : string),
    digits_of_pos_fuel f n acc = digits_of_pos_fuel f n "" ++ acc.
Proof.
  induction f as [|f IH]; intros n acc; simpl; [reflexivity|].
  destruct (n <? 10)%N; [reflexivity|].
  rewrite (IH _ (String _ acc)), (IH _ (String _ "")).
  now rewrite append_assoc.
Qed.

Lemma digits_value_app (s t : string) :
  forall a : N, digits_value a (s ++ t) = digits_value (digits_value a s) t.
Proof.
  induction s as [|c s IH]; intros a; [reflexivity|]. rewrite append_cons. simpl. apply IH.
Qed.

Lemma digit_code (n : N) : (n < 10)%N -> code (ascii_of_N (48 + n)) = (48 + n)%N.
Proof. intros H. unfold code. apply N_ascii_embedding. lia. Qed.

Lemma digits_of_pos_fuel_value (f : nat) :
  forall n : N, (n < 2 ^ N.of_nat f)%N -> digits_value 0 (digits_of_pos_fuel f n "") = n.
Proof.
  induction f as [|f IH]; intros n Hn.
  - simpl in *. lia.
  - cbn [digits_of_pos_fuel].
    assert (Hm : (n mod 10 < 10)%N) by (apply N.mod_lt; lia).
    destruct (n <? 10)%N eqn:H10.
    + apply N.ltb_lt in H10. simpl. rewrite digit_code by exact Hm.
      rewrite N.mod_small by exact H10. set (r := n) in *. lia.
    + apply N.ltb_ge in H10.
      rewrite digits_of_pos_fuel_acc, digits_value_app, IH.
      * simpl. rewrite digit_code by exact Hm.
        pose proof (N.div_mod' n 10) as Hdm.
        set (q := (n / 10)%N) in *. set (r := (n mod 10)%N) in *. lia.
      * rewrite Nat2N.inj_succ, N.pow_succ_r' in Hn.
        apply N.Div0.div_lt_upper_bound. lia.
Qed.

(** [int(str(n)) == n] *)
Lemma str_of_N_value (n : N) : digits_value 0 (str_of_N n) = n.
Proof.
  unfold str_of_N. apply digits_of_pos_fuel_value.
  rewrite Nat2N.inj_succ, N2Nat.id.
  destruct n as [|p]; [reflexivity|]. apply N.log2_spec. lia.
Qed.

Lemma isdigit_digit (n : N) : (n < 10)%N -> isdigit (ascii_of_N (48 + n)) = true.
Proof.
  intros H. unfold isdigit, between. rewrite digit_code by exact H.
  change (code "0") with 48%N. change (code "9") with 57%N.
  apply andb_true_intro. split; apply N.leb_le; lia.
Qed.

Lemma digits_of_pos_fuel_digits (f : nat) :
  forall (n : N) (acc : string),
    sforall isdigit acc = true -> sforall isdigit (digits_of_pos_fuel f n acc) = true.
Proof.
  induction f as [|f IH]; intros n acc Hacc; simpl; [exact Hacc|].
  assert (Hd : sforall isdigit (String (ascii_of_N (48 + n mod 10)) acc) = true).
  { simpl. rewrite isdigit_digit by (apply N.mod_lt; lia). exact Hacc. }
  destruct (n <? 10)%N; [exact Hd | now apply IH].
Qed.

Lemma digits_of_pos_fuel_nonempty (f : nat) :
  forall (n : N) (acc : string), acc <> "" -> digits_of_pos_fuel f n acc <> "".
Proof.
  induction f as [|f IH]; intros n acc Hacc; simpl; [exact Hacc|].
  destruct (n <? 10)%N; [discriminate | apply IH; discriminate].
Qed.

Lemma str_of_N_digits (n : N) : sforall isdigit (str_of_N n) = true.
Proof. apply digits_of_pos_fuel_digits. reflexivity. Qed.

Lemma str_of_N_nonempty (n : N) : str_of_N n <> "".
Proof.
  unfold str_of_N. cbn [digits_of_pos_fuel].
  destruct (n <? 10)%N; [discriminate | apply digits_of_pos_fuel_nonempty; discriminate].
Qed.

Lemma isdigit_not_space (c : ascii) : isdigit c = true -> isspace c = false.
Proof.
  unfold isdigit, between, isspace. change (code "0") with 48%N. change (code "9") with 57%N.
  intros H. apply andb_prop in H as [H1 H2]. apply N.leb_le in H1, H2.
  apply orb_false_intro; apply andb_false_iff.
  - right. apply N.leb_gt. lia.
  - right. apply N.leb_gt. lia.
Qed.

Lemma sforall_last (p : ascii -> bool) (s : string) :
  sforall p s = true ->
  match last_char s with Some c => p c = true | None => True end.
Proof.
  induction s as [|c s IH]; simpl; [trivial|].
  intros H. apply andb_prop in H as [Hc H].
  destruct s as [|d s']; [exact Hc | now apply IH].
Qed.

(** a run of digits has no blank to trim *)
Lemma strip_digits (s : string) : sforall isdigit s = true -> strip s = s.
Proof.
  intros H. unfold strip.
  rewrite (lstrip_fixed isspace s).
  - apply rstrip_fixed. pose proof (sforall_last _ _ H) as Hl.
    destruct (last_char s); [now apply isdigit_not_space | exact I].
  - destruct s as [|c s']; [exact I|]. simpl in H.
    apply andb_prop in H as [Hc _]. now apply isdigit_not_space.
Qed.

(** ** The calendar *)

Lemma month_of_yday_year (f : nat) :
  forall y m n, Date.year (Date.month_of_yday f y m n) = y.
Proof.
  induction f as [|f IH]; intros y m n; simpl; [reflexivity|].
  destruct (n <? Date.days_in_month y m); [reflexivity | apply IH].
Qed.

Lemma february (y : Z) : 28 <= Date.days_in_month y 2 <= 29.
Proof. unfold Date.days_in_month. simpl. destruct (Date.is_leap y); lia. Qed.

(** The day [r] of the year [y], counted from 0, is a day of the calendar,
    and as many days lie before it in the year. *)
Lemma month_of_yday_spec (y r : Z) :
  1 <= y <= 9999 -> 0 <= r <= 364 ->
  let d := Date.month_of_yday 11 y 1 r in
  Date.make (Date.year d) (Date.month d) (Date.day d) = Some d
  /\ Date.days_before_month y (Date.month d) + Date.day d = r + 1.
Proof.
  intros Hy Hr d. unfold d. clear d.
  pose proof (february y) as F.
  pose proof (eq_refl : Date.days_in_month y 1 = 31) as M1.
  pose proof (eq_refl : Date.days_in_month y 3 = 31) as M3.
  pose proof (eq_refl : Date.days_in_month y 4 = 30) as M4.
  pose proof (eq_refl : Date.days_in_month y 5 = 31) as M5.
  pose proof (eq_refl : Date.days_in_month y 6 = 30) as M6.
  pose proof (eq_refl : Date.days_in_month y 7 = 31) as M7.
  pose proof (eq_refl : Date.days_in_month y 8 = 31) as M8.
  pose proof (eq_refl : Date.days_in_month y 9 = 30) as M9.
  pose proof (eq_refl : Date.days_in_month y 10 = 31) as M10.
  pose proof (eq_refl : Date.days_in_month y 11 = 30) as M11.
  pose proof (eq_refl : Date.days_in_month y 12 = 31) as M12.
  pose proof (eq_refl : Date.days_before_month y 1 = 0) as B1.
  pose proof (eq_refl : Date.days_before_month y 2 = Date.days_in_month y 1 + 0) as B2.
  pose proof (eq_refl : Date.days_before_month y 3
                        = Date.days_in_month y 1 + (Date.days_in_month y 2 + 0)) as B3.
  pose proof (eq_refl : Date.days_before_month y 4 = Date.days_in_month y 1
      + (Date.days_in_month y 2 + (Date.days_in_month y 3 + 0))) as B4.
  pose proof (eq_refl : Date.days_before_month y 5 = Date.days_in_month y 1
      + (Date.days_in_month y 2 + (Date.days_in_month y 3 + (Date.days_in_month y 4 + 0)))) as B5.
  pose proof (eq_refl : Date.days_before_month y 6 = Date.days_in_month y 1
      + (Date.days_in_month y 2 + (Date.days_in_month y 3 + (Date.days_in_month y 4
      + (Date.days_in_month y 5 + 0))))) as B6.
  pose proof (eq_refl : Date.days_before_month y 7 = Date.days_in_month y 1
      + (Date.days_in_month y 2 + (Date.days_in_month y 3 + (Date.days_in_month y 4
      + (Date.days_in_month y 5 + (Date.days_in_month y 6 + 0)))))) as B7.
  pose proof (eq_refl : Date.days_before_month y 8 = Date.days_in_month y 1
      + (Date.days_in_month y 2 + (Date.days_in_month y 3 + (Date.days_in_month y 4
      + (Date.days_in_month y 5 + (Date.days_in_month y 6
      + (Date.days_in_month y 7 + 0))))))) as B8.
  pose proof (eq_refl : Date.days_before_month y 9 = Date.days_in_month y 1
      + (Date.days_in_month y 2 + (Date.days_in_month y 3 + (Date.days_in_month y 4
      + (Date.days_in_month y 5 + (Date.days_in_month y 6
      + (Date.days_in_month y 7 + (Date.days_in_month y 8 + 0)))))))) as B9.
  pose proof (eq_refl : Date.days_before_month y 10 = Date.days_in_month y 1
      + (Date.days_in_month y 2 + (Date.days_in_month y 3 + (Date.days_in_month y 4
      + (Date.days_in_month y 5 + (Date.days_in_month y 6
      + (Date.days_in_month y 7 + (Date.days_in_month y 8
      + (Date.days_in_month y 9 + 0))))))))) as B10.
  pose proof (eq_refl : Date.days_before_month y 11 = Date.days_in_month y 1
      + (Date.days_in_month y 2 + (Date.days_in_month y 3 + (Date.days_in_month y 4
      + (Date.days_in_month y 5 + (Date.days_in_month y 6
      + (Date.days_in_month y 7 + (Date.days_in_month y 8
      + (Date.days_in_month y 9 + (Date.days_in_month y 10 + 0)))))))))) as B11.
  pose proof (eq_refl : Date.days_before_month y 12 = Date.days_in_month y 1
      + (Date.days_in_month y 2 + (Date.days_in_month y 3 + (Date.days_in_month y 4
      + (Date.days_in_month y 5 + (Date.days_in_month y 6
      + (Date.days_in_month y 7 + (Date.days_in_month y 8
      + (Date.days_in_month y 9 + (Date.days_in_month y 10
      + (Date.days_in_month y 11 + 0))))))))))) as B12.
  change (Date.month_of_yday 11 y 1 r) with
    (if r <? Date.days_in_month y 1 then Date.mkdate y 1 (r + 1) else
     let r := r - Date.days_in_month y 1 in
     if r <? Date.days_in_month y 2 then Date.mkdate y 2 (r + 1) else
     let r := r - Date.days_in_month y 2 in
     if r <? Date.days_in_month y 3 then Date.mkdate y 3 (r + 1) else
     let r := r - Date.days_in_month y 3 in
     if r <? Date.days_in_month y 4 then Date.mkdate y 4 (r + 1) else
     let r := r - Date.days_in_month y 4 in
     if r <? Date.days_in_month y 5 then Date.mkdate y 5 (r + 1) else
     let r := r - Date.days_in_month y 5 in
     if r <? Date.days_in_month y 6 then Date.mkdate y 6 (r + 1) else
     let r := r - Date.days_in_month y 6 in
     if r <? Date.days_in_month y 7 then Date.mkdate y 7 (r + 1) else
     let r := r - Date.days_in_month y 7 in
     if r <? Date.days_in_month y 8 then Date.mkdate y 8 (r + 1) else
     let r := r - Date.days_in_month y 8 in
     if r <? Date.days_in_month y 9 then Date.mkdate y 9 (r + 1) else
     let r := r - Date.days_in_month y 9 in
     if r <? Date.days_in_month y 10 then Date.mkdate y 10 (r + 1) else
     let r := r - Date.days_in_month y 10 in
     if r <? Date.days_in_month y 11 then Date.mkdate y 11 (r + 1) else
     let r := r - Date.days_in_month y 11 in
     Date.mkdate y 12 (r + 1)).
  cbv zeta.
  repeat lazymatch goal with
         | |- context [if ?a <? ?b then Date.mkdate _ _ _ else _] =>
             let E := fresh "E" in
             destruct (a <? b) eqn:E; [apply Z.ltb_lt in E | apply Z.ltb_ge in E]
         end;
    cbn [Date.year Date.month Date.day];
    (split; [| lia]);
    unfold Date.make;
    lazymatch goal with
    | |- (if ?c then _ else _) = _ =>
        replace c with true; [reflexivity|];
        symmetry; rewrite !andb_true_iff, !Z.leb_le; lia
    end.
Qed.

(** The cycles of 400, 100, 4 and 1 years that [fromordinal] counts off. *)
Ltac ordinal_cycles n :=
  unfold Date.fromordinal; cbv zeta;
  set (a := n - 1);
  set (q1 := a / 146097); set (r1 := a mod 146097);
  set (q2 := r1 / 36524); set (r2 := r1 mod 36524);
  set (q3 := r2 / 1461); set (r3 := r2 mod 1461);
  set (q4 := r3 / 365); set (r4 := r3 mod 365);
  assert (H1 : a = 146097 * q1 + r1 /\ 0 <= r1 < 146097)
    by (unfold q1, r1; split; [apply Z.div_mod | apply Z.mod_pos_bound]; lia);
  assert (H2 : r1 = 36524 * q2 + r2 /\ 0 <= r2 < 36524)
    by (unfold q2, r2; split; [apply Z.div_mod | apply Z.mod_pos_bound]; lia);
  assert (H3 : r2 = 1461 * q3 + r3 /\ 0 <= r3 < 1461)
    by (unfold q3, r3; split; [apply Z.div_mod | apply Z.mod_pos_bound]; lia);
  assert (H4 : r3 = 365 * q4 + r4 /\ 0 <= r4 < 365)
    by (unfold q4, r4; split; [apply Z.div_mod | apply Z.mod_pos_bound]; lia);
  assert (Ha : a = n - 1) by reflexivity;
  clearbody a q1 r1 q2 r2 q3 r3 q4 r4;
  set (y := q1 * 400 + 1 + q2 * 100 + q3 * 4 + q4);
  assert (Hy : y = q1 * 400 + 1 + q2 * 100 + q3 * 4 + q4) by reflexivity;
  clearbody y.

(** [date.fromordinal(n)] is a day of the calendar and [toordinal] takes
    it back to [n]. *)
Lemma fromordinal_spec (n : Z) :
  1 <= n <= 3652059 ->
  let d := Date.fromordinal n in
  Date.make (Date.year d) (Date.month d) (Date.day d) = Some d /\ Date.toordinal d = n.
Proof.
  intros Hn. ordinal_cycles n.
  destruct ((q4 =? 4) || (q2 =? 4)) eqn:Hlast.
  - (* the last day of a leap year *)
    cbn [Date.year Date.month Date.day].
    assert (Hleap : Date.is_leap (y - 1) = true).
    { unfold Date.is_leap. apply orb_true_iff in Hlast.
      apply andb_true_intro. split.
      - apply Z.eqb_eq. destruct Hlast as [E|E]; apply Z.eqb_eq in E;
          Z.div_mod_to_equations; lia.
      - apply orb_true_iff. destruct Hlast as [E|E]; apply Z.eqb_eq in E.
        + left. apply negb_true_iff, Z.eqb_neq. Z.div_mod_to_equations. lia.
        + right. apply Z.eqb_eq. Z.div_mod_to_equations. lia. }
    assert (HF : Date.days_in_month (y - 1) 2 = 29)
      by (unfold Date.days_in_month; simpl; now rewrite Hleap).
    split.
    + unfold Date.make.
      change (Date.days_in_month (y - 1) 12) with 31.
      replace ((1 <=? y - 1) && (y - 1 <=? 9999)) with true; [reflexivity|].
      symmetry. apply orb_true_iff in Hlast.
      rewrite andb_true_iff, !Z.leb_le.
      destruct Hlast as [E|E]; apply Z.eqb_eq in E; lia.
    + unfold Date.toordinal. cbn [Date.year Date.month Date.day].
      change (Date.days_before_month (y - 1) 12) with
        (31 + (Date.days_in_month (y - 1) 2 + (31 + (30 + (31 + (30 + (31 + (31 + (30 + (31
         + (30 + 0))))))))))).
      rewrite HF. unfold Date.days_before_year. cbv zeta.
      apply orb_true_iff in Hlast.
      destruct Hlast as [E|E]; apply Z.eqb_eq in E; Z.div_mod_to_equations; lia.
  - apply orb_false_iff in Hlast as [E4 E2]. apply Z.eqb_neq in E4, E2.
    assert (Hy' : 1 <= y <= 9999) by lia.
    assert (Hr : 0 <= r4 <= 364) by lia.
    destruct (month_of_yday_spec y r4 Hy' Hr) as [Hm Hd].
    split; [exact Hm|].
    unfold Date.toordinal. rewrite month_of_yday_year.
    rewrite <- Z.add_assoc, Hd. unfold Date.days_before_year. cbv zeta.
    Z.div_mod_to_equations. lia.
Qed.

Lemma fromordinal_year_1900 (n : Z) :
  693596 <= n -> 1900 <= Date.year (Date.fromordinal n).
Proof.
  intros Hn. ordinal_cycles n.
  destruct ((q4 =? 4) || (q2 =? 4)) eqn:Hlast.
  - cbn [Date.year]. apply orb_true_iff in Hlast.
    destruct Hlast as [E|E]; apply Z.eqb_eq in E; lia.
  - rewrite month_of_yday_year. apply orb_false_iff in Hlast as [E4 E2].
    apply Z.eqb_neq in E4, E2. lia.
Qed.

(** ** More on the classification *)

Lemma str_of_Z_nonneg (z : Z) : 0 <= z -> str_of_Z z = str_of_N (Z.to_N z).
Proof. intros H. unfold str_of_Z. now replace (z <? 0) with false by (symmetry; apply Z.ltb_ge; lia). Qed.

Lemma int_of_digits_str (z : Z) : 0 <= z -> int_of_digits (str_of_Z z) = z.
Proof.
  intros H. rewrite str_of_Z_nonneg by exact H. unfold int_of_digits.
  rewrite str_of_N_value. apply Z2N.id, H.
Qed.

(** A whole number from 2 to 106751, written out, is taken for a serial date. *)
Lemma detect_date_format_serial (z : Z) :
  2 <= z <= Timedelta_max_days -> detect_date_format (str_of_Z z) = Some "ExcelSerial".
Proof.
  unfold Timedelta_max_days. intros Hz. unfold detect_date_format.
  assert (Hd : sforall isdigit (str_of_Z z) = true)
    by (rewrite str_of_Z_nonneg by lia; apply str_of_N_digits).
  rewrite (strip_digits _ Hd). unfold excel_serial. rewrite Hd.
  assert (Hne : String.eqb (str_of_Z z) "" = false).
  { apply String.eqb_neq. rewrite str_of_Z_nonneg by lia. apply str_of_N_nonempty. }
  rewrite Hne, int_of_digits_str by lia. unfold Timedelta_max_days. cbn [negb andb].
  replace ((1 <=? z) && (z <=? 2958465)) with true
    by (symmetry; rewrite andb_true_iff, !Z.leb_le; lia).
  replace (z <=? 106751) with true by (symmetry; apply Z.leb_le; lia).
  unfold Date.add_days.
  change (Date.toordinal (Date.mkdate 1899 12 30)) with 693594.
  pose proof (fromordinal_year_1900 (693594 + z) ltac:(lia)) as Hlo.
  destruct (fromordinal_spec (693594 + z) ltac:(lia)) as [Hmk _].
  unfold Date.make in Hmk.
  destruct ((1 <=? Date.year _) && (Date.year _ <=? 9999) && _ && _ && _ && _) eqn:Hc in Hmk;
    [|discriminate].
  rewrite !andb_true_iff, !Z.leb_le in Hc.
  replace ((1900 <=? Date.year (Date.fromordinal (693594 + z)))
           && (Date.year (Date.fromordinal (693594 + z)) <=? 9999)) with true
    by (symmetry; rewrite andb_true_iff, !Z.leb_le; lia).
  reflexivity.
Qed.

Lemma date_like_serial (e : Entry) : serial_like e = true -> date_like e = true.
Proof.
  destruct e as [[s|z|x|]|]; try discriminate. simpl.
  intros H. apply andb_prop in H as [H1 H2]. apply Z.leb_le in H1, H2.
  now rewrite detect_date_format_serial by lia.
Qed.

Lemma visit_serial (t : Tally) (e : Entry) :
  serial_like e = true ->
  visit t e = mkTally (date_matches t + 1) (number_matches t) (or_hint (hint t) "ExcelSerial").
Proof.
  destruct e as [[s|z|x|]|]; try discriminate. simpl.
  intros H. apply andb_prop in H as [H1 H2]. apply Z.leb_le in H1, H2.
  now rewrite detect_date_format_serial by lia.
Qed.

Lemma hint_serial (sample : list Entry) :
  forallb serial_like sample = true ->
  forall t, hint t = Some "ExcelSerial" ->
            hint (fold_left visit sample t) = Some "ExcelSerial".
Proof.
  induction sample as [|e sample IH]; simpl; intros H t Ht; [exact Ht|].
  apply andb_prop in H as [He H]. apply (IH H).
  rewrite (visit_serial t e He). simpl. now rewrite Ht.
Qed.

Lemma count_all (p : Entry -> bool) (l : list Entry) :
  forallb p l = true -> count p l = Z.of_nat (length l).
Proof.
  unfold count. induction l as [|e l IH]; simpl; [reflexivity|].
  intros H. apply andb_prop in H as [He H]. rewrite He. simpl. specialize (IH H). lia.
Qed.

Lemma forallb_impl {A : Type} (p q : A -> bool) (l : list A) :
  (forall x, p x = true -> q x = true) -> forallb p l = true -> forallb q l = true.
Proof.
  intros Hpq. induction l as [|x l IH]; simpl; [reflexivity|].
  intros H. apply andb_prop in H as [Hx H]. now rewrite (Hpq x Hx), IH.
Qed.

Lemma forallb_firstn {A : Type} (p : A -> bool) (n : nat) (l : list A) :
  forallb p l = true -> forallb p (firstn n l) = true.
Proof.
  revert l. induction n as [|n IH]; intros [|x l]; simpl; try reflexivity.
  intros H. apply andb_prop in H as [Hx H]. now rewrite Hx, IH.
Qed.

Lemma forallb_list_filter {A : Type} (p q : A -> bool) (l : list A) :
  forallb p l = true -> forallb p (List.filter q l) = true.
Proof.
  induction l as [|x l IH]; simpl; [reflexivity|].
  intros H. apply andb_prop in H as [Hx H]. destruct (q x); simpl; [now rewrite Hx, IH | now apply IH].
Qed.

(** The quotient of a positive whole number by itself is 1.0. *)
Lemma div_int_self (n : Z) :
  1 <= n -> F64.div_int n n = F64.Fin false 4503599627370496 (-52).
Proof.
  intros Hn. unfold F64.div_int.
  destruct (round_ratio_normal n n) as (e0 & G1 & G2 & Hr); [lia | lia |].
  apply ge_pow2_spec in G1.
  apply not_true_iff_false in G2. rewrite ge_pow2_spec in G2.
  assert (He : e0 = 0).
  { destruct (Z.lt_trichotomy e0 0) as [Hlt|[Heq|Hgt]]; [exfalso | exact Heq | exfalso].
    - apply G2. destruct (0 <=? e0 + 1) eqn:Hk.
      + apply Z.leb_le in Hk. replace (e0 + 1) with 0 by lia. simpl. lia.
      + apply Z.leb_gt in Hk.
        assert (0 < 2 ^ (- (e0 + 1))) by (apply Z.pow_pos_nonneg; lia). nia.
    - replace (0 <=? e0) with true in G1 by (symmetry; apply Z.leb_le; lia).
      assert (2 ^ 1 <= 2 ^ e0) by (apply Z.pow_le_mono_r; lia).
      change (2 ^ 1) with 2 in *. nia. }
  subst e0. rewrite Hr by lia. change (52 - 0) with 52. change (0 - 52) with (-52).
  replace (n * 2 ^ 52) with (2 ^ 52 * n) by lia.
  unfold nearest_even. rewrite Z.div_mul, Z.mod_mul by lia.
  replace (n <? 2 * 0) with false by (symmetry; apply Z.ltb_ge; lia).
  replace (2 * 0 =? n) with false by (symmetry; apply Z.eqb_neq; lia).
  reflexivity.
Qed.

(** The verdict in terms of the match counts of the sample. *)
Lemma detect_column_type_counts (column : list Entry) :
  sample_of column <> [] ->
  let sample := sample_of column in
  let n := Z.of_nat (length sample) in
  let date_score := F64.div_int (count date_like sample) n in
  let number_score := F64.div_int (count number_only sample) n in
  detect_column_type column =
    if F64.gtb date_score threshold then
      mkDetection "Date" (F64.round3 date_score)
        (hint (fold_left visit sample (mkTally 0 0 None)))
    else if F64.gtb number_score threshold then
      mkDetection "Number" (F64.round3 number_score)
        (hint (fold_left visit sample (mkTally 0 0 None)))
    else mkDetection "String"
           (F64.round3 (F64.one_minus (F64.fmax date_score number_score))) None.
Proof.
  intros Hne sample n date_score number_score.
  unfold detect_column_type. fold (sample_of column). fold sample.
  destruct (visit_counts sample (mkTally 0 0 None)) as [Hd Hn]. simpl in Hd, Hn.
  rewrite Hd, Hn. fold n. fold date_score. fold number_score.
  destruct (List.filter notna column) as [|e l] eqn:Hf; [|reflexivity].
  exfalso. apply Hne. unfold sample_of. now rewrite Hf.
Qed.

(** X11.  A column of whole numbers, each from 2 to 106751, is classified
    as Date, with the hint ExcelSerial and confidence 1.0: quantities and
    whole amounts of that size are taken for serial dates. *)
Theorem detect_column_type_whole_numbers :
  forall column : list Entry,
    column <> [] ->
    forallb serial_like column = true ->
    type (detect_column_type column) = "Date"
    /\ format_hint (detect_column_type column) = Some "ExcelSerial"
    /\ F64.repr (confidence (detect_column_type column)) = "1.0".
Proof.
  intros column Hne Hall.
  assert (Hnn : List.filter notna column = column).
  { clear Hne. induction column as [|e l IH]; simpl; [reflexivity|].
    simpl in Hall. apply andb_prop in Hall as [He Hl].
    destruct e as [[s|z|x|]|]; try discriminate He. simpl. now rewrite IH. }
  assert (Hs : sample_of column = firstn 1000 column) by (unfold sample_of; now rewrite Hnn).
  assert (Hsne : sample_of column <> []).
  { rewrite Hs. destruct column; [contradiction | discriminate]. }
  assert (Hsall : forallb serial_like (sample_of column) = true)
    by (rewrite Hs; now apply forallb_firstn).
  assert (Hlen : 1 <= Z.of_nat (length (sample_of column)) <= 1000).
  { rewrite Hs, length_firstn. destruct column; [contradiction|]. simpl length. lia. }
  rewrite (detect_column_type_counts column Hsne). cbv zeta.
  rewrite (count_all date_like) by (eapply forallb_impl; [apply date_like_serial | exact Hsall]).
  rewrite threshold_exact by lia.
  replace (7 * Z.of_nat (length (sample_of column)) <? 10 * Z.of_nat (length (sample_of column)))
    with true by (symmetry; apply Z.ltb_lt; lia).
  cbn [type format_hint confidence]. split; [reflexivity|]. split.
  - destruct (sample_of column) as [|e l] eqn:E; [contradiction|].
    simpl in Hsall. apply andb_prop in Hsall as [He Hl].
    cbn [fold_left]. apply (hint_serial l Hl). now rewrite (visit_serial _ e He).
  - rewrite div_int_self by lia. vm_compute. reflexivity.
Qed.

Lemma detect_column_type_whole_numbers_witness :
  type (detect_column_type [Raw (Integer 12); Raw (Integer 250); Raw (Integer 40000)]) = "Date".
Proof.
  destruct (detect_column_type_whole_numbers
              [Raw (Integer 12); Raw (Integer 250); Raw (Integer 40000)]) as [H _].
  - discriminate.
  - reflexivity.
  - exact H.
Defined.

Lemma count_Permutation (p : Entry -> bool) (l l' : list Entry) :
  Permutation l l' -> count p l = count p l'.
Proof.
  induction 1 as [|x l l' _ IH|x y l|l l' l'' _ IH1 _ IH2].
  - reflexivity.
  - rewrite !count_cons. lia.
  - rewrite !count_cons. lia.
  - congruence.
Qed.

Lemma detect_column_type_no_sample (column : list Entry) :
  sample_of column = [] ->
  detect_column_type column = mkDetection "String" one (Some "empty_or_null").
Proof.
  unfold sample_of, detect_column_type.
  destruct (List.filter notna column) as [|e l]; [reflexivity | discriminate].
Qed.

(** X12.  The type and the confidence depend on the sample only, and not
    on its order: two columns whose first 1000 non-null entries are the same
    up to order get the same type and the same confidence, whatever nulls and
    later entries they hold. *)
Theorem detect_column_type_sample_order :
  forall column column' : list Entry,
    Permutation (sample_of column) (sample_of column') ->
    type (detect_column_type column') = type (detect_column_type column)
    /\ confidence (detect_column_type column') = confidence (detect_column_type column).
Proof.
  intros column column' Hp.
  destruct (sample_of column) as [|e l] eqn:Hs.
  - apply Permutation_nil in Hp.
    rewrite (detect_column_type_no_sample column Hs), (detect_column_type_no_sample column' Hp).
    split; reflexivity.
  - assert (Hne : sample_of column <> []) by (rewrite Hs; discriminate).
    assert (Hne' : sample_of column' <> []).
    { intros E. rewrite E in Hp. apply Permutation_sym, Permutation_nil in Hp. discriminate. }
    assert (E : forall (g1 g2 : bool) (c1 c2 c3 : F64.float) (h h' : option string),
               type (if g1 then mkDetection "Date" c1 h
                     else if g2 then mkDetection "Number" c2 h else mkDetection "String" c3 None)
               = type (if g1 then mkDetection "Date" c1 h'
                       else if g2 then mkDetection "Number" c2 h' else mkDetection "String" c3 None)
               /\ confidence (if g1 then mkDetection "Date" c1 h
                              else if g2 then mkDetection "Number" c2 h
                              else mkDetection "String" c3 None)
                  = confidence (if g1 then mkDetection "Date" c1 h'
                                else if g2 then mkDetection "Number" c2 h'
                                else mkDetection "String" c3 None))
      by (intros [] []; split; reflexivity).
    rewrite (detect_column_type_counts column Hne), (detect_column_type_counts column' Hne').
    cbv zeta. rewrite <- Hs in Hp.
    rewrite <- (count_Permutation date_like _ _ Hp), <- (count_Permutation number_only _ _ Hp).
    rewrite <- (Permutation_length Hp).
    apply E.
Qed.

Lemma detect_column_type_sample_order_witness :
  type (detect_column_type [Raw (Text "2023-01-01"); Raw (Text "abc")])
  = type (detect_column_type [Raw (Text "abc"); Raw Null; Raw (Text "2023-01-01")]).
Proof.
  destruct (detect_column_type_sample_order
              [Raw (Text "abc"); Raw Null; Raw (Text "2023-01-01")]
              [Raw (Text "2023-01-01"); Raw (Text "abc")]) as [H _].
  - apply perm_swap.
  - exact H.
Defined.

(** ** Serial dates: [parse_date] on whole numbers *)

(** X13.  For every whole number from 1 to 2958465, [parse_date] returns a
    date: the day of the calendar that lies that many days after 1899-12-30. *)
Theorem parse_date_excel_serial :
  forall serial : Z,
    1 <= serial <= 2958465 ->
    exists d : Date.date,
      FormatParser.parse_date (Integer serial) = Some d
      /\ Date.make (Date.year d) (Date.month d) (Date.day d) = Some d
      /\ Date.toordinal d = Date.toordinal (Date.mkdate 1899 12 30) + serial.
Proof.
  intros serial Hs. unfold FormatParser.parse_date. cbn [isna].
  replace ((1 <=? serial) && (serial <=? 2958465)) with true
    by (symmetry; rewrite andb_true_iff, !Z.leb_le; lia).
  unfold Date.add_days. change (Date.toordinal (Date.mkdate 1899 12 30)) with 693594.
  destruct (fromordinal_spec (693594 + serial) ltac:(lia)) as [Hv Ho].
  eexists. split; [reflexivity|]. split; [exact Hv | exact Ho].
Qed.

Lemma parse_date_excel_serial_witness :
  exists d : Date.date,
    FormatParser.parse_date (Integer 2958465) = Some d
    /\ Date.make (Date.year d) (Date.month d) (Date.day d) = Some d
    /\ Date.toordinal d = Date.toordinal (Date.mkdate 1899 12 30) + 2958465.
Proof. apply (parse_date_excel_serial 2958465). lia. Defined.

(** ** Where a match ends *)

(** A match hands the continuation a suffix of the subject. *)
Lemma run_reaches (r : regex) :
  forall (ic : bool) (s : string) (cs : captures)
         (k : string -> captures -> option captures) (c : captures),
    run ic r s cs k = Some c ->
    exists (p s' : string) (cs' : captures), s = p ++ s' /\ k s' cs' = Some c.
Proof.
  induction r as [|c0|p0|r1 IH1 r2 IH2|r1 IH1 r2 IH2|r1 IH1|r1 IH1|g r1 IH1|r1 IH1| |];
    intros ic s cs k c H.
  - exists "", s, cs. split; [reflexivity | exact H].
  - simpl in H. destruct s as [|d s1]; [discriminate|].
    destruct (chr_eq ic c0 d); [|discriminate].
    exists (String d ""), s1, cs. split; [reflexivity | exact H].
  - simpl in H. destruct s as [|d s1]; [discriminate|].
    destruct (cls_in ic p0 d); [|discriminate].
    exists (String d ""), s1, cs. split; [reflexivity | exact H].
  - simpl in H. apply IH1 in H as (p1 & s1 & cs1 & -> & H).
    apply IH2 in H as (p2 & s2 & cs2 & -> & H).
    exists (p1 ++ p2), s2, cs2. split; [now rewrite append_assoc | exact H].
  - simpl in H. destruct (run ic r1 s cs k) as [x|] eqn:E.
    + injection H as ->. now apply IH1 in E.
    + now apply IH2 in H.
  - simpl in H. destruct (run ic r1 s cs k) as [x|] eqn:E.
    + injection H as ->. now apply IH1 in E.
    + exists "", s, cs. split; [reflexivity | exact H].
  - simpl in H. revert H. generalize (slen s). intros n. revert s cs.
    induction n as [|n IHn]; intros s cs H.
    + exists "", s, cs. split; [reflexivity | exact H].
    + match type of H with
      | match ?m with Some _ => _ | None => _ end = _ => destruct m as [x|] eqn:E
      end.
      * injection H as ->. apply IH1 in E as (p1 & s1 & cs1 & -> & E).
        destruct (Nat.ltb _ _); [|discriminate].
        apply IHn in E as (p2 & s2 & cs2 & -> & E).
        exists (p1 ++ p2), s2, cs2. split; [now rewrite append_assoc | exact E].
      * exists "", s, cs. split; [reflexivity | exact H].
  - simpl in H. apply IH1 in H as (p1 & s1 & cs1 & -> & H). eauto.
  - simpl in H. destruct (run ic r1 s cs _); [|discriminate].
    exists "", s, cs. split; [reflexivity | exact H].
  - simpl in H. exists "", s, cs. split; [reflexivity|].
    destruct s as [|d [|e s2]]; [exact H | | discriminate].
    destruct (Ascii.eqb d "010"); [exact H | discriminate].
  - simpl in H. exists "", s, cs. split; [reflexivity|].
    destruct s; [exact H | discriminate].
Qed.

Lemma last_char_none (s : string) : last_char s = None -> s = "".
Proof.
  induction s as [|c s IH]; [reflexivity|]. cbn [last_char].
  destruct s as [|d u]; [discriminate|]. intros H. now apply IH in H.
Qed.

Lemma last_char_app (p t : string) : t <> "" -> last_char (p ++ t) = last_char t.
Proof.
  intros Ht. induction p as [|c p IH]; [reflexivity|].
  rewrite append_cons. cbn [last_char]. rewrite IH.
  destruct (p ++ t) as [|d u] eqn:E; [|reflexivity].
  destruct p; [now rewrite append_nil_l in E | discriminate E].
Qed.

(** A text the abbreviation pattern matches ends with a suffix letter, or
    with a line feed after it. *)
Lemma abbrev_last (s : string) (m : captures) :
  pmatch abbrev s = Some m ->
  exists d, last_char s = Some d /\ FormatParser.numeric_char d = false.
Proof.
  unfold pmatch, rmatch, abbrev. cbn [ignorecase compiled seq].
  intros H. change (run false (Cat ?a ?b) ?s ?cs ?k)
    with (run false a s cs (fun s' cs' => run false b s' cs' k)) in H.
  apply run_reaches in H as (p1 & s1 & cs1 & -> & H).
  change (run false (Cat ?a ?b) ?s ?cs ?k)
    with (run false a s cs (fun s' cs' => run false b s' cs' k)) in H.
  apply run_reaches in H as (p2 & s2 & cs2 & -> & H).
  rewrite <- append_assoc.
  destruct s2 as [|d s3]; [discriminate H|].
  cbn [run oneof cls_in] in H.
  destruct (contains d "kmb") eqn:Hd; [|discriminate H].
  assert (Hnum : FormatParser.numeric_char d = false).
  { cbn [contains] in Hd. rewrite !orb_true_iff in Hd.
    destruct Hd as [Hd|[Hd|[Hd|Hd]]]; [| | |discriminate Hd];
      apply Ascii.eqb_eq in Hd; subst d; reflexivity. }
  destruct s3 as [|e [|e' s4]]; [| |discriminate H].
  - exists d. split; [|exact Hnum]. now rewrite last_char_app by discriminate.
  - destruct (Ascii.eqb e "010") eqn:He; [|discriminate H].
    apply Ascii.eqb_eq in He. subst e. exists "010"%char. split; [|reflexivity].
    now rewrite last_char_app by discriminate.
Qed.

Lemma last_char_sfilter (q : ascii -> bool) (s : string) (c : ascii) :
  last_char s = Some c -> q c = true -> last_char (sfilter q s) = Some c.
Proof.
  induction s as [|d s IH]; [discriminate|].
  intros Hl Hq. destruct s as [|e s'].
  - injection Hl as ->. simpl. now rewrite Hq.
  - specialize (IH Hl Hq). cbn [sfilter] in *.
    destruct (q d); [|exact IH].
    cbn [last_char]. destruct (if q e then _ else _); [discriminate IH | exact IH].
Qed.

Lemma numeric_char_kept (c : ascii) :
  FormatParser.numeric_char c = true -> negb (Ascii.eqb c "," || isspace c) = true.
Proof.
  unfold FormatParser.numeric_char. intros H. apply orb_true_iff in H as [H|H].
  - rewrite (isdigit_not_space c H).
    destruct (Ascii.eqb c ",") eqn:E; [|reflexivity].
    apply Ascii.eqb_eq in E. subst c. discriminate H.
  - cbn [contains] in H. rewrite !orb_true_iff in H.
    destruct H as [H|[H|[H|H]]]; [| | |discriminate H];
      apply Ascii.eqb_eq in H; subst c; reflexivity.
Qed.

Lemma sforall_append (p : ascii -> bool) (s t : string) :
  sforall p s = true -> sforall p t = true -> sforall p (s ++ t) = true.
Proof.
  induction s as [|c s IH]; [now intros _ H|].
  intros H Ht. rewrite append_cons. simpl in *.
  apply andb_prop in H as [Hc H]. now rewrite Hc, IH.
Qed.

(** The text the detector parses as a number ends with a digit, a sign or
    a point. *)
Lemma signed_last (t : string) :
  exists c, last_char (drop_separators ("-" ++ FormatParser.keep_numeric t)) = Some c
            /\ FormatParser.numeric_char c = true.
Proof.
  assert (Hn : sforall FormatParser.numeric_char ("-" ++ FormatParser.keep_numeric t) = true)
    by (apply sforall_append; [reflexivity | apply sforall_sfilter]).
  unfold drop_separators. rewrite sfilter_all.
  - pose proof (sforall_last _ _ Hn) as Hl. rewrite append_cons in *.
    destruct (last_char _) as [c|] eqn:E; [eauto|].
    apply last_char_none in E. discriminate E.
  - clear -Hn. induction (_ ++ _) as [|c s IH]; [reflexivity|].
    simpl in *. apply andb_prop in Hn as [Hc Hn].
    now rewrite (numeric_char_kept c Hc), IH.
Qed.

(** X14.  [detect_number_format] never reports an abbreviated number: the
    suffix letter is stripped with the other characters around the number
    before the abbreviation pattern is tried, so the pattern cannot match.
    Every match is reported as Decimal or as a currency; "1.5k" is the
    Decimal 1.5. *)
Theorem detect_number_format_never_abbreviated :
  forall (value f : string) (d : Dec.Decimal),
    detect_number_format value = Some (f, d) ->
    f = "Decimal" \/ f = "Currency-" ++ currency_name (lower (strip value)).
Proof.
  intros value f d. unfold detect_number_format.
  set (v := lower (strip value)).
  destruct (String.eqb v ""); [discriminate|].
  set (cleaned := rstrip_with non_numeric (lstrip_with non_numeric v)).
  destruct (String.eqb cleaned "") eqn:Hc; [discriminate|].
  apply String.eqb_neq in Hc.
  set (cleaned' := if startswith "(" v && endswith_char ")" v then _
                   else if endswith_char "-" v then _ else cleaned).
  assert (Hlast : exists c, last_char (drop_separators cleaned') = Some c
                            /\ FormatParser.numeric_char c = true).
  { unfold cleaned'. destruct (startswith "(" v && endswith_char ")" v); [apply signed_last|].
    destruct (endswith_char "-" v); [apply signed_last|].
    pose proof (rstrip_last non_numeric (lstrip_with non_numeric v)) as Hr. fold cleaned in Hr.
    destruct (last_char cleaned) as [c|] eqn:E.
    - unfold non_numeric in Hr. apply negb_false_iff in Hr.
      exists c. split; [|exact Hr].
      apply last_char_sfilter; [exact E | now apply numeric_char_kept].
    - exfalso. now apply Hc, last_char_none. }
  destruct (pmatch abbrev (drop_separators cleaned')) as [m|] eqn:Ha.
  - exfalso. destruct Hlast as (c & Hl & Hn).
    apply abbrev_last in Ha as (c' & Hl' & Hn'). congruence.
  - destruct (Dec.of_str (drop_separators cleaned')) as [x|]; [intros [= <- _]; now left|].
    destruct (pmatch currency_pattern v) as [m|]; [|discriminate].
    destruct (Dec.of_str _) as [x|]; [|discriminate].
    intros [= <- _]. now right.
Qed.

Lemma detect_number_format_never_abbreviated_witness :
  "Decimal" = "Decimal" \/ "Decimal" = "Currency-" ++ currency_name (lower (strip "1.5k")).
Proof.
  apply (detect_number_format_never_abbreviated "1.5k" "Decimal" (Dec.Finite false 15 (-1))).
  vm_compute. reflexivity.
Defined.

(** ** Blank text *)

(** X15.  A text of blanks only, or the empty text, is no amount and no
    date: [parse_amount] and [parse_date] return [None] without raising, and
    neither matcher of the detector accepts it. *)
Theorem blank_text_is_no_value :
  forall s : string,
    strip s = "" ->
    FormatParser.parse_amount (Text s) = Ok None
    /\ FormatParser.parse_date (Text s) = None
    /\ detect_date_format s = None
    /\ detect_number_format s = None.
Proof.
  intros s Hs. unfold FormatParser.parse_amount, FormatParser.parse_date,
    detect_date_format, detect_number_format.
  cbn [isna str_of_raw]. rewrite Hs. repeat split; vm_compute; reflexivity.
Qed.

Lemma blank_text_is_no_value_witness :
  FormatParser.parse_amount (Text "   ") = Ok None.
Proof.
  destruct (blank_text_is_no_value "   ") as [H _].
  - reflexivity.
  - exact H.
Defined.

(** ** Dates as text *)

Lemma slen_append (s t : string) : slen (s ++ t) = (slen s + slen t)%nat.
Proof.
  induction s as [|c s IH]; [reflexivity|]. rewrite append_cons. unfold slen in *. simpl.
  now rewrite IH.
Qed.

Lemma slen_zeros (k : nat) : slen (zeros k) = k.
Proof. induction k as [|k IH]; [reflexivity|]. unfold slen in *. simpl. now rewrite IH. Qed.

Lemma zeros_digits (k : nat) : sforall isdigit (zeros k) = true.
Proof. induction k as [|k IH]; [reflexivity|]. simpl. exact IH. Qed.

Lemma digits_value_zeros (k : nat) (s : string) :
  digits_value 0 (zeros k ++ s) = digits_value 0 s.
Proof. induction k as [|k IH]; [reflexivity|]. simpl zeros. rewrite append_cons. exact IH. Qed.

Lemma zfill_value (w : nat) (n : N) : int_of_digits (zfill w n) = Z.of_N n.
Proof. unfold int_of_digits, zfill. now rewrite digits_value_zeros, str_of_N_value. Qed.

Lemma zfill_digits (w : nat) (n : N) : sforall isdigit (zfill w n) = true.
Proof. unfold zfill. apply sforall_append; [apply zeros_digits | apply str_of_N_digits]. Qed.

Lemma digits_of_pos_fuel_length (f : nat) :
  forall (n : N) (k : nat),
    (1 <= k)%nat -> (n < 10 ^ N.of_nat k)%N -> (slen (digits_of_pos_fuel f n "") <= k)%nat.
Proof.
  induction f as [|f IH]; intros n k Hk Hn; [simpl; lia|].
  cbn [digits_of_pos_fuel]. destruct (n <? 10)%N eqn:H10; [simpl; lia|].
  apply N.ltb_ge in H10. rewrite digits_of_pos_fuel_acc, slen_append.
  destruct k as [|[|k]]; [lia | simpl in Hn; lia |].
  assert (slen (digits_of_pos_fuel f (n / 10) "") <= S k)%nat; [|simpl; lia].
  apply IH; [lia|]. rewrite Nat2N.inj_succ, N.pow_succ_r' in Hn.
  apply N.Div0.div_lt_upper_bound. exact Hn.
Qed.

Lemma slen_zfill (w : nat) (n : N) :
  (1 <= w)%nat -> (n < 10 ^ N.of_nat w)%N -> slen (zfill w n) = w.
Proof.
  intros Hw Hn. unfold zfill. rewrite slen_append, slen_zeros.
  pose proof (digits_of_pos_fuel_length (S (N.to_nat (N.log2 n))) n w Hw Hn) as Hl.
  fold (str_of_N n) in Hl. lia.
Qed.

Lemma isdigit_not (c d : ascii) : isdigit c = true -> isdigit d = false -> Ascii.eqb d c = false.
Proof.
  intros Hc Hd. destruct (Ascii.eqb d c) eqn:E; [|reflexivity].
  apply Ascii.eqb_eq in E. congruence.
Qed.

(** a text that neither begins nor ends with a blank has nothing to trim *)
Lemma strip_fixed_ends (s : string) (a b : ascii) :
  match s with String c _ => Some c | EmptyString => None end = Some a ->
  last_char s = Some b ->
  isspace a = false /\ isspace b = false -> strip s = s.
Proof.
  intros Ha Hb [Sa Sb]. unfold strip. rewrite (lstrip_fixed isspace s).
  - apply rstrip_fixed. now rewrite Hb.
  - destruct s as [|c s']; [exact I|]. now injection Ha as ->.
Qed.

Lemma days_in_month_le (y m : Z) : Date.days_in_month y m <= 31.
Proof.
  unfold Date.days_in_month. destruct (m =? 2); [destruct (Date.is_leap y); lia|].
  destruct (_ || _); lia.
Qed.

(** The ISO text of a date: four digits, two digits and two digits. *)
Lemma isoformat_shape (d : Date.date) :
  Date.make (Date.year d) (Date.month d) (Date.day d) = Some d ->
  exists y1 y2 y3 y4 m1 m2 d1 d2 : ascii,
    Date.isoformat d
    = String y1 (String y2 (String y3 (String y4 (String "-" (String m1 (String m2
        (String "-" (String d1 (String d2 "")))))))))
    /\ sforall isdigit (String y1 (String y2 (String y3 (String y4
         (String m1 (String m2 (String d1 (String d2 "")))))))) = true
    /\ int_of_digits (String y1 (String y2 (String y3 (String y4 "")))) = Date.year d
    /\ int_of_digits (String m1 (String m2 "")) = Date.month d
    /\ int_of_digits (String d1 (String d2 "")) = Date.day d.
Proof.
  unfold Date.make. destruct d as [y m dd]. cbn [Date.year Date.month Date.day].
  destruct (_ && _) eqn:Hc; [intros _|discriminate].
  rewrite !andb_true_iff, !Z.leb_le in Hc. pose proof (days_in_month_le y m) as Hdm.
  unfold Date.isoformat. cbn [Date.year Date.month Date.day].
  pose proof (slen_zfill 4 (Z.to_N y) ltac:(lia) ltac:(simpl; lia)) as Ly.
  pose proof (slen_zfill 2 (Z.to_N m) ltac:(lia) ltac:(simpl; lia)) as Lm.
  pose proof (slen_zfill 2 (Z.to_N dd) ltac:(lia) ltac:(simpl; lia)) as Ld.
  pose proof (zfill_digits 4 (Z.to_N y)) as Dy. pose proof (zfill_value 4 (Z.to_N y)) as Vy.
  pose proof (zfill_digits 2 (Z.to_N m)) as Dm. pose proof (zfill_value 2 (Z.to_N m)) as Vm.
  pose proof (zfill_digits 2 (Z.to_N dd)) as Dd. pose proof (zfill_value 2 (Z.to_N dd)) as Vd.
  rewrite Z2N.id in Vy, Vm, Vd by lia.
  destruct (zfill 4 (Z.to_N y)) as [|y1 [|y2 [|y3 [|y4 [|? ?]]]]]; try discriminate Ly.
  destruct (zfill 2 (Z.to_N m)) as [|m1 [|m2 [|? ?]]]; try discriminate Lm.
  destruct (zfill 2 (Z.to_N dd)) as [|d1 [|d2 [|? ?]]]; try discriminate Ld.
  exists y1, y2, y3, y4, m1, m2, d1, d2.
  split; [reflexivity|]. split; [|auto].
  cbn [sforall] in *. rewrite !andb_true_iff in *. tauto.
Qed.

(** X16.  [parse_date] reads back the ISO text of every date: for a day
    [d] of the calendar, [parse_date(str(d))] is [d]. *)
Theorem parse_date_isoformat :
  forall d : Date.date,
    Date.make (Date.year d) (Date.month d) (Date.day d) = Some d ->
    FormatParser.parse_date (Text (Date.isoformat d)) = Some d.
Proof.
  intros d Hd.
  destruct (isoformat_shape d Hd) as (y1 & y2 & y3 & y4 & m1 & m2 & d1 & d2 & -> & Hdig & Vy & Vm & Vd).
  cbn [sforall] in Hdig. rewrite !andb_true_iff in Hdig.
  destruct Hdig as (Hy1 & Hy2 & Hy3 & Hy4 & Hm1 & Hm2 & Hd1 & Hd2 & _).
  assert (Hslash : forall c, isdigit c = true -> Ascii.eqb "/" c = false)
    by (intros c Hc; now apply isdigit_not).
  unfold FormatParser.parse_date. cbn [isna str_of_raw].
  match goal with
  | |- context [strip ?s] =>
      rewrite (strip_fixed_ends s y1 d2 eq_refl eq_refl) by (split; now apply isdigit_not_space)
  end.
  assert (Hslashed :
            pmatch FormatParser.mm_dd_yyyy
              (String y1 (String y2 (String y3 (String y4 (String "-" (String m1 (String m2
                 (String "-" (String d1 (String d2 "")))))))))) = None).
  { unfold pmatch, rmatch, FormatParser.mm_dd_yyyy.
    cbn [ignorecase compiled seq Rep UpTo Range Nat.sub run digit cls_in chr_eq].
    rewrite Hy1, Hy2. cbn [run chr_eq]. now rewrite (Hslash y3 Hy3), (Hslash y2 Hy2). }
  rewrite Hslashed.
  assert (Hiso :
            pmatch FormatParser.yyyy_mm_dd
              (String y1 (String y2 (String y3 (String y4 (String "-" (String m1 (String m2
                 (String "-" (String d1 (String d2 ""))))))))))
            = Some [(3%nat, String d1 (String d2 "")); (2%nat, String m1 (String m2 ""));
                    (1%nat, String y1 (String y2 (String y3 (String y4 ""))))]).
  { unfold pmatch, rmatch, FormatParser.yyyy_mm_dd.
    cbn [ignorecase compiled seq Rep UpTo Range Nat.sub run digit cls_in chr_eq].
    rewrite Hy1, Hy2, Hy3, Hy4, Ascii.eqb_refl, Hm1, Hm2, Hd1, Hd2. reflexivity. }
  rewrite Hiso. cbn [grp group Nat.eqb default from_option].
  unfold id. rewrite Vy, Vm, Vd, Hd. reflexivity.
Qed.

Lemma parse_date_isoformat_witness :
  FormatParser.parse_date (Text (Date.isoformat (Date.mkdate 2024 2 29)))
  = Some (Date.mkdate 2024 2 29).
Proof. apply (parse_date_isoformat (Date.mkdate 2024 2 29)). reflexivity. Defined.

(** ** Whole numbers as amounts *)

Lemma run_Alt_l (ic : bool) (r1 r2 : regex) (s : string) (cs : captures)
    (k : string -> captures -> option captures) (x : captures) :
  run ic r1 s cs k = Some x -> run ic (Alt r1 r2) s cs k = Some x.
Proof. intros H. cbn [run]. now rewrite H. Qed.

Lemma run_Opt_skip (ic : bool) (r : regex) (s : string) (cs : captures)
    (k : string -> captures -> option captures) :
  run ic r s cs k = None -> run ic (Opt r) s cs k = k s cs.
Proof. intros H. cbn [run]. now rewrite H. Qed.

Lemma digit_case (d : ascii) : isdigit d = true -> lower_char d = d /\ upper_char d = d.
Proof.
  unfold isdigit, lower_char, upper_char, isupper, islower, between.
  change (code "0") with 48%N. change (code "9") with 57%N.
  change (code "A") with 65%N. change (code "Z") with 90%N.
  change (code "a") with 97%N. change (code "z") with 122%N.
  intros H. apply andb_prop in H as [H1 H2]. apply N.leb_le in H1, H2.
  replace (65 <=? code d)%N with false by (symmetry; apply N.leb_gt; lia).
  replace (97 <=? code d)%N with false by (symmetry; apply N.leb_gt; lia).
  split; reflexivity.
Qed.

Lemma cls_in_digit (ic : bool) (d : ascii) : isdigit d = true -> cls_in ic isdigit d = true.
Proof. intros H. unfold cls_in. rewrite H. now destruct ic. Qed.

Lemma cls_in_sign_digit (ic : bool) (d : ascii) :
  isdigit d = true -> cls_in ic (fun c => contains c "-+") d = false.
Proof.
  intros H. destruct (digit_case d H) as [Hl Hu]. unfold cls_in. rewrite Hl, Hu.
  assert (Hc : contains d "-+" = false).
  { cbn [contains]. rewrite (Ascii.eqb_sym d "-"), (Ascii.eqb_sym d "+").
    rewrite (isdigit_not d "-" H eq_refl), (isdigit_not d "+" H eq_refl). reflexivity. }
  rewrite Hc. now destruct ic.
Qed.

(** The greedy star over digits takes a whole run of digits when the rest
    of the pattern accepts the end of the text. *)
Lemma star_digits (ic : bool) (k : string -> captures -> option captures) (x : captures) :
  forall (s : string) (cs : captures),
    sforall isdigit s = true ->
    (forall cs', k "" cs' = Some (x ++ cs')%list) ->
    run ic (Star digit) s cs k = Some (x ++ cs)%list.
Proof.
  intros s cs Hs Hk. cbn [run].
  assert (Hn : (slen s <= slen s)%nat) by lia. revert Hn.
  generalize (slen s) at 2 3. intros n. revert s cs Hs.
  induction n as [|n IH]; intros s cs Hs Hn.
  - destruct s; [apply Hk | simpl in Hn; lia].
  - destruct s as [|d s1].
    + cbn [run digit]. apply Hk.
    + simpl in Hs. apply andb_prop in Hs as [Hd Hs].
      cbn [run digit]. rewrite (cls_in_digit ic d Hd).
      replace (Nat.ltb (slen s1) (slen (String d s1))) with true
        by (symmetry; apply Nat.ltb_lt; simpl; lia).
      rewrite IH; [reflexivity | exact Hs | simpl in Hn; lia].
Qed.

Lemma run_digit (ic : bool) (d : ascii) (s : string) (cs : captures)
    (k : string -> captures -> option captures) :
  isdigit d = true -> run ic digit (String d s) cs k = k s cs.
Proof. intros H. cbn [run digit]. now rewrite (cls_in_digit ic d H). Qed.

Lemma run_Look (ic : bool) (r : regex) (s : string) (cs y : captures)
    (k : string -> captures -> option captures) :
  run ic r s cs (fun _ cs' => Some cs') = Some y -> run ic (Look r) s cs k = k s cs.
Proof. intros H. cbn [run]. now rewrite H. Qed.

Lemma take_all (s : string) : take (slen s) s = s.
Proof. induction s as [|c s IH]; [reflexivity|]. simpl. now rewrite IH. Qed.

(** A run of digits, after an optional sign, is a numeric string with the
    digits as its integer part. *)
Lemma numeric_string_digits (ds : string) (cs : captures) :
  ds <> "" -> sforall isdigit ds = true ->
  run true (match compiled Dec.numeric_string with Cat _ body => body | r => r end)
      ds cs (fun _ cs' => Some cs')
  = Some ((Dec.g_int, ds) :: cs).
Proof.
  intros Hne Hd. destruct ds as [|d ds1]; [contradiction|].
  pose proof Hd as Hd'. simpl in Hd'. apply andb_prop in Hd' as [Hd1 _].
  unfold Dec.numeric_string. cbn [compiled seq alts].
  change (run true (Cat ?a ?b) ?s ?c ?k)
    with (run true a s c (fun s' cs' => run true b s' cs' k)).
  apply run_Alt_l.
  change (run true (Cat ?a ?b) ?s ?c ?k)
    with (run true a s c (fun s' cs' => run true b s' cs' k)).
  rewrite (run_Look true _ _ _ cs) by (apply run_Alt_l; now rewrite run_digit).
  change (run true (Cat ?a ?b) ?s ?c ?k)
    with (run true a s c (fun s' cs' => run true b s' cs' k)).
  change (run true (Grp ?n ?r) ?s ?c ?k)
    with (run true r s c (fun s' cs' => k s' ((n, take (slen s - slen s') s) :: cs'))).
  rewrite (star_digits true _ [(Dec.g_int, String d ds1)]); [reflexivity | exact Hd |].
  intros cs'. cbn [run chr_eq]. rewrite Nat.sub_0_r, take_all. reflexivity.
Qed.

Lemma digits_no_underscore (s : string) :
  sforall isdigit s = true -> remove "_" s = s.
Proof.
  intros H. unfold remove. apply sfilter_all.
  induction s as [|c s IH]; [reflexivity|]. cbn [sforall] in *.
  apply andb_prop in H as [Hc H]. now rewrite (isdigit_not c "_" Hc eq_refl), IH.
Qed.

Lemma remove_other (c d : ascii) (s : string) :
  Ascii.eqb c d = false -> remove c (String d s) = String d (remove c s).
Proof. intros H. unfold remove. cbn [sfilter]. now rewrite H. Qed.

Lemma numeric_string_split :
  compiled Dec.numeric_string
  = Cat (Opt (Grp Dec.g_sign (oneof "-+")))
        (match compiled Dec.numeric_string with Cat _ body => body | r => r end).
Proof. reflexivity. Qed.

(** [Decimal] of a run of digits, and of one with a minus sign. *)
Lemma of_str_digits (ds : string) :
  ds <> "" -> sforall isdigit ds = true ->
  Dec.exp_in_range (digits_value 0 ds) 0 = true ->
  Dec.of_str ds = Some (Dec.Finite false (digits_value 0 ds) 0).
Proof.
  intros Hne Hd He. unfold Dec.of_str.
  rewrite (strip_digits ds Hd), (digits_no_underscore ds Hd).
  unfold pmatch, rmatch. rewrite numeric_string_split.
  change (ignorecase Dec.numeric_string) with true.
  change (run true (Cat ?a ?b) ?s ?c ?k)
    with (run true a s c (fun s' cs' => run true b s' cs' k)).
  rewrite run_Opt_skip.
  - rewrite (numeric_string_digits ds [] Hne Hd).
    cbn [group Nat.eqb Dec.g_sign Dec.g_int Dec.g_frac Dec.g_exp default from_option].
    unfold id. rewrite append_nil_r.
    change (Dec.int_of_signed "0" - Z.of_nat (slen "")) with 0. now rewrite He.
  - destruct ds as [|d ds1]; [reflexivity|]. simpl in Hd. apply andb_prop in Hd as [Hd1 _].
    cbn [run oneof]. now rewrite (cls_in_sign_digit true d Hd1).
Qed.

Lemma of_str_minus_digits (ds : string) :
  ds <> "" -> sforall isdigit ds = true ->
  Dec.exp_in_range (digits_value 0 ds) 0 = true ->
  Dec.of_str (String "-" ds) = Some (Dec.Finite true (digits_value 0 ds) 0).
Proof.
  intros Hne Hd He. unfold Dec.of_str.
  assert (Hlast : exists b, last_char (String "-" ds) = Some b /\ isspace b = false).
  { change (String "-" ds) with ("-" ++ ds). rewrite (last_char_app "-" ds Hne).
    pose proof (sforall_last _ _ Hd) as Hl.
    destruct (last_char ds) as [b|] eqn:E.
    - exists b. split; [reflexivity | now apply isdigit_not_space].
    - apply last_char_none in E. contradiction. }
  destruct Hlast as (b & Hb & Sb).
  rewrite (strip_fixed_ends (String "-" ds) "-" b eq_refl Hb) by (split; [reflexivity | exact Sb]).
  rewrite (remove_other "_" "-" ds eq_refl), (digits_no_underscore ds Hd).
  unfold pmatch, rmatch. rewrite numeric_string_split.
  change (ignorecase Dec.numeric_string) with true.
  change (run true (Cat ?a ?b) ?s ?c ?k)
    with (run true a s c (fun s' cs' => run true b s' cs' k)).
  cbn [run oneof].
  change (cls_in true (fun c => contains c "-+") "-") with true. cbv iota.
  rewrite (numeric_string_digits ds _ Hne Hd).
  cbn [group Nat.eqb Dec.g_sign Dec.g_int Dec.g_frac Dec.g_exp default from_option].
  unfold id.
  replace (slen (String "-" ds) - slen ds)%nat with 1%nat by (unfold slen; simpl; lia).
  cbn [take]. rewrite append_nil_r.
  change (Dec.int_of_signed "0" - Z.of_nat (slen "")) with 0. now rewrite He.
Qed.

Lemma exp_in_range_small (n : N) :
  (n < 10 ^ 19)%N -> Dec.exp_in_range n 0 = true.
Proof.
  intros Hn. unfold Dec.exp_in_range, ndigits.
  pose proof (digits_of_pos_fuel_length (S (N.to_nat (N.log2 n))) n 19 ltac:(lia) Hn) as Hl.
  fold (str_of_N n) in Hl.
  apply andb_true_intro. split; apply Z.leb_le; unfold Dec.MIN_ETINY, Dec.MAX_EMAX; lia.
Qed.

(** X18.  A whole number is an amount as it stands: for every 64-bit
    integer, [parse_amount] returns the decimal with that value and exponent
    0, never [None]. *)
Theorem parse_amount_whole_number :
  forall z : Z,
    - 2 ^ 63 <= z < 2 ^ 63 ->
    FormatParser.parse_amount (Integer z)
    = Ok (Some (Dec.Finite (z <? 0) (Z.to_N (Z.abs z)) 0)).
Proof.
  intros z Hz. unfold FormatParser.parse_amount. cbn [isna str_of_raw]. do 2 f_equal.
  assert (Hb : (Z.to_N (Z.abs z) < 10 ^ 19)%N).
  { change (2 ^ 63) with 9223372036854775808 in Hz.
    change (10 ^ 19)%N with 10000000000000000000%N. lia. }
  unfold str_of_Z. destruct (z <? 0) eqn:Hneg.
  - apply Z.ltb_lt in Hneg. replace (Z.abs z) with (- z) by lia.
    rewrite of_str_minus_digits.
    + now rewrite str_of_N_value.
    + apply str_of_N_nonempty.
    + apply str_of_N_digits.
    + rewrite str_of_N_value. apply exp_in_range_small.
      now replace (- z) with (Z.abs z) by lia.
  - apply Z.ltb_ge in Hneg. replace (Z.abs z) with z by lia.
    rewrite of_str_digits.
    + now rewrite str_of_N_value.
    + apply str_of_N_nonempty.
    + apply str_of_N_digits.
    + rewrite str_of_N_value. apply exp_in_range_small.
      now replace z with (Z.abs z) at 1 by lia.
Qed.

Lemma parse_amount_whole_number_witness :
  FormatParser.parse_amount (Integer (-2500)) = Ok (Some (Dec.Finite true 2500 0)).
Proof. apply (parse_amount_whole_number (-2500)). lia. Defined.

(** ** Slashed dates: the detector against the parser *)

Lemma isalpha_digit (c : ascii) : isdigit c = true -> isalpha c = false.
Proof.
  unfold isdigit, isalpha, isupper, islower, between.
  change (code "0") with 48%N. change (code "9") with 57%N.
  change (code "A") with 65%N. change (code "Z") with 90%N.
  change (code "a") with 97%N. change (code "z") with 122%N.
  intros H. apply andb_prop in H as [H1 H2]. apply N.leb_le in H1, H2.
  replace (65 <=? code c)%N with false by (symmetry; apply N.leb_gt; lia).
  replace (97 <=? code c)%N with false by (symmetry; apply N.leb_gt; lia).
  reflexivity.
Qed.

Lemma chr_eq_digit (ic : bool) (q c : ascii) :
  isdigit c = true -> isdigit q = false -> isdigit (lower_char q) = false ->
  chr_eq ic q c = false.
Proof.
  intros Hc Hq Hl. unfold chr_eq. destruct ic.
  - destruct (digit_case c Hc) as [-> _]. now apply isdigit_not.
  - now apply isdigit_not.
Qed.

(** X19.  The detector takes a text for a date by its shape alone: every
    text of two digits, a slash, two digits, a slash and four digits is a
    date match, whether such a day exists or not, while [parse_date] returns
    for it the day of the month-first reading and [None] when there is no
    such day.  So "99/99/9999" counts as a date and cannot be parsed. *)
Theorem slashed_text_detected_and_parsed :
  forall a b c d w x y z : ascii,
    sforall isdigit (String a (String b (String c (String d
      (String w (String x (String y (String z "")))))))) = true ->
    detect_date_format (slashed_text a b c d w x y z) = Some "PatternMatch"
    /\ FormatParser.parse_date (Text (slashed_text a b c d w x y z))
       = Date.make (int_of_digits (String w (String x (String y (String z "")))))
                   (int_of_digits (String a (String b "")))
                   (int_of_digits (String c (String d ""))).
Proof.
  intros a b c d w x y z Hdig. cbn [sforall] in Hdig. rewrite !andb_true_iff in Hdig.
  destruct Hdig as (Ha & Hb & Hc & Hd & Hw & Hx & Hy & Hz & _).
  assert (Hstrip : strip (slashed_text a b c d w x y z) = slashed_text a b c d w x y z).
  { apply (strip_fixed_ends (slashed_text a b c d w x y z) a z eq_refl eq_refl).
    split; now apply isdigit_not_space. }
  split.
  - unfold detect_date_format. rewrite Hstrip.
    assert (Hserial : excel_serial (slashed_text a b c d w x y z) = false).
    { unfold excel_serial, slashed_text. cbn [sforall]. rewrite Ha, Hb.
      change (isdigit "/") with false. cbn [andb]. now rewrite andb_false_r. }
    rewrite Hserial. unfold date_patterns. cbn [existsb].
    assert (Hm : exists m, pmatch
                   (re_compile "^\d{1,2}/\d{1,2}/\d{4}$" true
                      (seq [Range 1 2 digit; Chr "/"; Range 1 2 digit; Chr "/"; Rep 4 digit; Eos]))
                   (slashed_text a b c d w x y z) = Some m).
    { unfold pmatch, rmatch, slashed_text.
      cbn [ignorecase compiled seq Rep UpTo Range Nat.sub run digit].
      rewrite !cls_in_digit by assumption.
      change (chr_eq true "/" "/") with true. cbv iota. eauto. }
    destruct Hm as [m ->]. reflexivity.
  - unfold FormatParser.parse_date. cbn [isna str_of_raw]. rewrite Hstrip.
    assert (Hslashed : pmatch FormatParser.mm_dd_yyyy (slashed_text a b c d w x y z)
                       = Some [(3%nat, String w (String x (String y (String z ""))));
                               (2%nat, String c (String d ""));
                               (1%nat, String a (String b ""))]).
    { unfold pmatch, rmatch, FormatParser.mm_dd_yyyy, slashed_text.
      cbn [ignorecase compiled seq Rep UpTo Range Nat.sub run digit cls_in chr_eq].
      rewrite Ha, Hb, Ascii.eqb_refl, Hc, Hd, Hw, Hx, Hy, Hz. reflexivity. }
    rewrite Hslashed. cbn [grp group Nat.eqb default from_option]. unfold id.
    set (made := Date.make _ _ _).
    assert (Hrest : forall q : ascii, isdigit q = false -> isdigit (lower_char q) = false ->
                      chr_eq true q a = false)
      by (intros q H1 H2; now apply chr_eq_digit).
    assert (Hiso : pmatch FormatParser.yyyy_mm_dd (slashed_text a b c d w x y z) = None).
    { unfold pmatch, rmatch, FormatParser.yyyy_mm_dd, slashed_text.
      cbn [ignorecase compiled seq Rep UpTo Range Nat.sub run digit cls_in chr_eq].
      rewrite Ha, Hb. reflexivity. }
    assert (Hmon : pmatch FormatParser.dd_mon_yyyy (slashed_text a b c d w x y z) = None).
    { unfold pmatch, rmatch, FormatParser.dd_mon_yyyy, slashed_text.
      cbn [ignorecase compiled seq Rep UpTo Range Nat.sub run digit cls_in chr_eq].
      rewrite Ha, Hb. change (Ascii.eqb "-" "/") with false. cbv iota.
      now rewrite (isdigit_not b "-" Hb eq_refl). }
    assert (Hmy : pmatch FormatParser.mon_yyyy (slashed_text a b c d w x y z) = None).
    { unfold pmatch, rmatch, FormatParser.mon_yyyy, slashed_text.
      cbn [ignorecase compiled seq Plus run cls_in]. now rewrite (isalpha_digit a Ha). }
    assert (Hq : pmatch FormatParser.quarter (slashed_text a b c d w x y z) = None).
    { unfold pmatch, rmatch, FormatParser.quarter, slashed_text.
      cbn [ignorecase compiled seq run]. now rewrite (Hrest "Q"%char) by reflexivity. }
    assert (Hqf : pmatch FormatParser.quarter_full (slashed_text a b c d w x y z) = None).
    { unfold pmatch, rmatch, FormatParser.quarter_full, slashed_text.
      cbn [ignorecase compiled seq lit run]. now rewrite (Hrest "Q"%char) by reflexivity. }
    rewrite Hiso, Hmon, Hmy, Hq, Hqf.
    destruct (12 <? _); destruct made; reflexivity.
Qed.

Lemma slashed_text_detected_and_parsed_witness :
  detect_date_format "99/99/9999" = Some "PatternMatch"
  /\ FormatParser.parse_date (Text "99/99/9999") = None.
Proof.
  destruct (slashed_text_detected_and_parsed "9" "9" "9" "9" "9" "9" "9" "9") as [H1 H2].
  - reflexivity.
  - split; [exact H1 | etransitivity; [exact H2 | reflexivity]].
Defined.
